(** * project1: building and signing a one-input, one-output Bitcoin transaction

    A shallow embedding of [spend.go] and [keypair.go] (package [main] of the
    Cryptocurrency Cafe project 1) together with the parts of the Go standard
    library and of btcsuite (btcwire, btcscript, btcutil, btcec) the two
    programs call.

    Conventions.
    - A Go [byte] is a [Z] in [0, 256); a byte slice is a [list Z].
    - A Go [string] is a [string]; [int] and [int64] are [Z] with the
      two's-complement wrap-around written out, [uint32] is [Z] modulo 2^32.
    - A call that may end the process ([os.Exit], [log.Fatal], a runtime
      panic) returns an [outcome]; a Go function returning a value and an
      error returns a [result].
    - A Go pointer that may be [nil] is an [option].

    The outside world enters in two places, both parameters of [Spend.main]:
    the answer of blockchain.info ([fetch]) and the ECDSA engine with its
    random source ([Sign]).  [Keypair.main] takes what the random source
    delivers.

    The packages of btcsuite are not part of the repository.  The functions
    the programs call are given here as the specification of the system
    describes them, over the standard definitions of SHA-256, RIPEMD-160,
    base 58 and secp256k1, so that every definition can be run on concrete
    inputs.  Of the script engine, the instruction grammar is modelled as far
    as signing needs it to refuse a malformed subscript; the execution of
    scripts and the signature-hash modes other than "sign everything" are not
    modelled. *)

From Stdlib Require Import String Ascii ZArith List Bool Lia.
Import ListNotations.
Local Open Scope string_scope.
Local Open Scope list_scope.
Local Open Scope Z_scope.

Abbreviation byte := Z (only parsing).
Abbreviation bytes := (list Z) (only parsing).

(** ** Errors, results and outcomes *)

(** The error values the two programs can meet. *)
Inductive error : Type :=
| ErrLength                         (* encoding/hex: odd length hex string *)
| InvalidByteError (c : ascii)      (* encoding/hex: invalid byte *)
| ErrHashStrSize                    (* btcwire: hash string too long *)
| ErrChecksumMismatch               (* btcutil: checksum mismatch *)
| ErrUnknownFormat                  (* btcutil: decoded address is of unknown format *)
| ErrUnknownAddressType             (* btcutil: unknown address type *)
| ErrUnknownSize                    (* btcutil: decoded address is of unknown size *)
| ErrBadHashLength                  (* btcutil: pkHash must be 20 bytes *)
| ErrUnsupportedAddress             (* btcscript: unsupported address type *)
| ErrTxLookup                       (* spend.go: "Tx Lookup failed" / "TxInfo read failed" / bad JSON *)
| ErrBadResponse                    (* spend.go: "Blockchain.info's response seems bad" *)
| ErrStackShortScript               (* btcscript: a push runs past the end of the script *)
| ErrParseScript                    (* btcscript: cannot parse output script *)
| ErrEmptyScript                    (* signing: the subscript has no bytes *)
| ErrSign                           (* btcscript: cannot sign tx input *)
| ErrEntropy.                       (* btcec: the random source failed *)

(** Go's [(value, error)] return convention. *)
Inductive result (A : Type) : Type :=
| Ok (a : A)
| Err (e : error).
Arguments Ok {A} a.
Arguments Err {A} e.

(** The pointer half of a pointer-and-error pair: [nil] when the call failed. *)
Definition ptr {A} (r : result A) : option A :=
  match r with Ok a => Some a | Err _ => None end.

(** The error half of a value-and-error pair: [nil] when the call succeeded. *)
Definition err {A} (r : result A) : option error :=
  match r with Ok _ => None | Err e => Some e end.

Inductive panic : Type :=
| IndexOutOfRange
| NilDereference.

(** How a call into package [main] ends. *)
Inductive outcome (A : Type) : Type :=
| Return (a : A)          (* the function returns normally *)
| OsExit (code : Z)       (* os.Exit(code) *)
| LogFatal (e : error)    (* log.Fatal(err): the error is printed, exit status 1 *)
| GoPanic (p : panic).    (* a runtime panic *)
Arguments Return {A} a.
Arguments OsExit {A} code.
Arguments LogFatal {A} e.
Arguments GoPanic {A} p.

Definition bind {A B} (m : outcome A) (k : A -> outcome B) : outcome B :=
  match m with
  | Return a => k a
  | OsExit c => OsExit c
  | LogFatal e => LogFatal e
  | GoPanic p => GoPanic p
  end.

Notation "x <- m ;; k" := (bind m (fun x => k))
  (at level 100, m at next level, right associativity).
Notation "' p <- m ;; k" := (bind m (fun x => let p := x in k))
  (at level 100, p pattern, m at next level, right associativity).

(** [if err != nil { log.Fatal(err) }] *)
Definition orFatal {A} (r : result A) : outcome A :=
  match r with Ok a => Return a | Err e => LogFatal e end.

(** [s[i]] on a Go slice: a runtime panic outside [0, len(s)). *)
Definition sliceAt {A} (s : list A) (i : Z) : outcome A :=
  if (i <? 0) || (Z.of_nat (length s) <=? i) then GoPanic IndexOutOfRange
  else match nth_error s (Z.to_nat i) with
       | Some x => Return x
       | None => GoPanic IndexOutOfRange
       end.

(** ** Fixed-width integers *)

Definition uint32 (z : Z) : Z := z mod 2 ^ 32.
Definition int64 (z : Z) : Z := (z + 2 ^ 63) mod 2 ^ 64 - 2 ^ 63.

Definition minInt64 : Z := - 2 ^ 63.
Definition maxInt64 : Z := 2 ^ 63 - 1.

(** [n] bytes of [z], least significant first ([binary.LittleEndian]). *)
Fixpoint le_bytes (n : nat) (z : Z) : bytes :=
  match n with
  | O => []
  | S n' => z mod 256 :: le_bytes n' (z / 256)
  end.

(** [n] bytes of [z], most significant first. *)
Definition be_bytes (n : nat) (z : Z) : bytes := rev (le_bytes n z).

(** The integer a big-endian byte string denotes ([big.Int.SetBytes]). *)
Definition be_to_Z (b : bytes) : Z := fold_left (fun acc x => acc * 256 + x) b 0.

(** ** encoding/hex *)

Module hex.

Definition fromHexChar (c : ascii) : option Z :=
  let n := Z.of_N (N_of_ascii c) in
  if (48 <=? n) && (n <=? 57) then Some (n - 48)
  else if (97 <=? n) && (n <=? 102) then Some (n - 97 + 10)
  else if (65 <=? n) && (n <=? 70) then Some (n - 65 + 10)
  else None.

(** [hex.Decode]: pairs of hex digits, an invalid digit reported before an
    odd length. *)
Fixpoint decode (s : list ascii) : result bytes :=
  match s with
  | [] => Ok []
  | [c] =>
      match fromHexChar c with
      | None => Err (InvalidByteError c)
      | Some _ => Err ErrLength
      end
  | p :: q :: rest =>
      match fromHexChar p with
      | None => Err (InvalidByteError p)
      | Some a =>
          match fromHexChar q with
          | None => Err (InvalidByteError q)
          | Some b =>
              match decode rest with
              | Ok l => Ok (a * 16 + b :: l)
              | Err e => Err e
              end
          end
      end
  end.

Definition DecodeString (s : string) : result bytes :=
  decode (list_ascii_of_string s).

Definition hexDigit (n : Z) : ascii :=
  ascii_of_N (Z.to_N (if n <? 10 then 48 + n else 97 + n - 10)).

(** [hex.EncodeToString]: lowercase, two digits per byte. *)
Definition EncodeToString (b : bytes) : string :=
  string_of_list_ascii
    (flat_map (fun x => [hexDigit (x / 16 mod 16); hexDigit (x mod 16)]) b).

End hex.

(** ** The hash functions (crypto/sha256 and ripemd160)

    The two digests are external primitives of the programs; they are given
    here by their standard definitions (FIPS 180-4 and the RIPEMD-160
    proposal) so that addresses and signature hashes can be evaluated. *)

Definition add32 (a b : Z) : Z := (a + b) mod 2 ^ 32.
Definition not32 (a : Z) : Z := Z.lxor a 0xffffffff.
Definition rotl32 (n x : Z) : Z :=
  Z.lor (Z.shiftl x n mod 2 ^ 32) (Z.shiftr x (32 - n)).
Definition rotr32 (n x : Z) : Z := rotl32 (32 - n) x.

(** [l] cut into consecutive blocks of [k] elements (the last may be short). *)
Fixpoint chunks {A} (fuel : nat) (k : nat) (l : list A) : list (list A) :=
  match fuel, l with
  | O, _ | _, [] => []
  | S fuel', _ => firstn k l :: chunks fuel' k (skipn k l)
  end.

(** Zero bytes that bring a message of [len] bytes, its 0x80 marker and an
    8-byte length field to a multiple of 64 bytes. *)
Definition padZeros (len : nat) : bytes :=
  repeat 0 (Z.to_nat ((55 - Z.of_nat len) mod 64)).

Module sha256.

(** The primes below 312: the first 64 primes. *)
Definition isPrime (n : Z) : bool :=
  forallb (fun d => negb (n mod Z.of_nat d =? 0)) (seq 2 (Z.to_nat n - 2)).

Definition primes : list Z :=
  filter isPrime (map Z.of_nat (seq 2 310)).

(** The largest [r] below 2^bits with [r^e <= x], found bit by bit. *)
Fixpoint iroot (e : Z) (x : Z) (bits : nat) (r : Z) : Z :=
  match bits with
  | O => r
  | Datatypes.S b =>
      let r' := r + 2 ^ Z.of_nat b in
      iroot e x b (if r' ^ e <=? x then r' else r)
  end.

(** The first 32 bits of the fractional part of the [e]-th root of [p]. *)
Definition fracRoot (e : Z) (p : Z) : Z :=
  iroot e (p * 2 ^ (32 * e)) 36 0 mod 2 ^ 32.

(** The round constants: from the cube roots of the first 64 primes. *)
Definition K : list Z := Eval vm_compute in map (fracRoot 3) primes.

Definition state : Type := Z * Z * Z * Z * Z * Z * Z * Z.

(** The initial hash value: from the square roots of the first 8 primes. *)
Definition init : state :=
  Eval vm_compute in
    match map (fracRoot 2) (firstn 8 primes) with
    | [a; b; c; d; e; f; g; h] => (a, b, c, d, e, f, g, h)
    | _ => (0, 0, 0, 0, 0, 0, 0, 0)
    end.

Definition Ch (x y z : Z) := Z.lxor (Z.land x y) (Z.land (not32 x) z).
Definition Maj (x y z : Z) :=
  Z.lxor (Z.lxor (Z.land x y) (Z.land x z)) (Z.land y z).
Definition Sigma0 x := Z.lxor (Z.lxor (rotr32 2 x) (rotr32 13 x)) (rotr32 22 x).
Definition Sigma1 x := Z.lxor (Z.lxor (rotr32 6 x) (rotr32 11 x)) (rotr32 25 x).
Definition sigma0 x := Z.lxor (Z.lxor (rotr32 7 x) (rotr32 18 x)) (Z.shiftr x 3).
Definition sigma1 x := Z.lxor (Z.lxor (rotr32 17 x) (rotr32 19 x)) (Z.shiftr x 10).

(** The message schedule, most recent word first: [w] holds W(t-1), W(t-2), ... *)
Fixpoint schedule (n : nat) (w : list Z) : list Z :=
  match n with
  | O => w
  | S n' =>
      let wt := add32 (add32 (sigma1 (nth 1 w 0)) (nth 6 w 0))
                      (add32 (sigma0 (nth 14 w 0)) (nth 15 w 0)) in
      schedule n' (wt :: w)
  end.

Definition round (s : state) (kw : Z * Z) : state :=
  let '(a, b, c, d, e, f, g, h) := s in
  let t1 := add32 (add32 (add32 h (Sigma1 e)) (add32 (Ch e f g) (fst kw))) (snd kw) in
  let t2 := add32 (Sigma0 a) (Maj a b c) in
  (add32 t1 t2, a, b, c, add32 d t1, e, f, g).

Definition compress (s : state) (block : bytes) : state :=
  let w16 := map be_to_Z (chunks 16 4 block) in
  let w := rev (schedule 48 (rev w16)) in
  let '(a, b, c, d, e, f, g, h) := fold_left round (combine K w) s in
  let '(a0, b0, c0, d0, e0, f0, g0, h0) := s in
  (add32 a0 a, add32 b0 b, add32 c0 c, add32 d0 d,
   add32 e0 e, add32 f0 f, add32 g0 g, add32 h0 h).

Definition pad (msg : bytes) : bytes :=
  msg ++ [0x80] ++ padZeros (length msg) ++ be_bytes 8 (8 * Z.of_nat (length msg)).

Definition digest (s : state) : bytes :=
  let '(a, b, c, d, e, f, g, h) := s in
  flat_map (be_bytes 4) [a; b; c; d; e; f; g; h].

Definition Sum256 (msg : bytes) : bytes :=
  let p := pad msg in
  digest (fold_left compress (chunks (length p) 64 p) init).

End sha256.

Module ripemd160.

Definition Size : nat := 20.

Definition state : Type := Z * Z * Z * Z * Z.

Definition init : state :=
  (0x67452301, 0xefcdab89, 0x98badcfe, 0x10325476, 0xc3d2e1f0).

(** The five round functions, selected by the round number [j / 16]. *)
Definition f (r : Z) (x y z : Z) : Z :=
  if r =? 0 then Z.lxor (Z.lxor x y) z
  else if r =? 1 then Z.lor (Z.land x y) (Z.land (not32 x) z)
  else if r =? 2 then Z.lxor (Z.lor x (not32 y)) z
  else if r =? 3 then Z.lor (Z.land x z) (Z.land y (not32 z))
  else Z.lxor x (Z.lor y (not32 z)).

Definition KL : list Z := [0x00000000; 0x5a827999; 0x6ed9eba1; 0x8f1bbcdc; 0xa953fd4e].
Definition KR : list Z := [0x50a28be6; 0x5c4dd124; 0x6d703ef3; 0x7a6d76e9; 0x00000000].

Definition RL : list nat :=
  [ 0; 1; 2; 3; 4; 5; 6; 7; 8; 9; 10; 11; 12; 13; 14; 15;
    7; 4; 13; 1; 10; 6; 15; 3; 12; 0; 9; 5; 2; 14; 11; 8;
    3; 10; 14; 4; 9; 15; 8; 1; 2; 7; 0; 6; 13; 11; 5; 12;
    1; 9; 11; 10; 0; 8; 12; 4; 13; 3; 7; 15; 14; 5; 6; 2;
    4; 0; 5; 9; 7; 12; 2; 10; 14; 1; 3; 8; 11; 6; 15; 13 ]%nat.

Definition RR : list nat :=
  [ 5; 14; 7; 0; 9; 2; 11; 4; 13; 6; 15; 8; 1; 10; 3; 12;
    6; 11; 3; 7; 0; 13; 5; 10; 14; 15; 8; 12; 4; 9; 1; 2;
    15; 5; 1; 3; 7; 14; 6; 9; 11; 8; 12; 2; 10; 0; 4; 13;
    8; 6; 4; 1; 3; 11; 15; 0; 5; 12; 2; 13; 9; 7; 10; 14;
    12; 15; 10; 4; 1; 5; 8; 7; 6; 2; 13; 14; 0; 3; 9; 11 ]%nat.

Definition SL : list Z :=
  [ 11; 14; 15; 12; 5; 8; 7; 9; 11; 13; 14; 15; 6; 7; 9; 8;
    7; 6; 8; 13; 11; 9; 7; 15; 7; 12; 15; 9; 11; 7; 13; 12;
    11; 13; 6; 7; 14; 9; 13; 15; 14; 8; 13; 6; 5; 12; 7; 5;
    11; 12; 14; 15; 14; 15; 9; 8; 9; 14; 5; 6; 8; 6; 5; 12;
    9; 15; 5; 11; 6; 8; 13; 12; 5; 12; 13; 14; 11; 8; 5; 6 ].

Definition SR : list Z :=
  [ 8; 9; 9; 11; 13; 15; 15; 5; 7; 7; 8; 11; 14; 14; 12; 6;
    9; 13; 15; 7; 12; 8; 9; 11; 7; 7; 12; 7; 6; 15; 13; 11;
    9; 7; 15; 11; 8; 6; 6; 14; 12; 13; 5; 14; 13; 13; 7; 5;
    15; 5; 8; 11; 14; 14; 6; 14; 6; 9; 12; 9; 12; 5; 15; 8;
    8; 5; 12; 9; 12; 5; 14; 6; 8; 13; 6; 5; 15; 13; 11; 11 ].

(** One step of a line: [fr] is the round function index, [k] the round
    constant, [x] the selected message word and [s] the rotation. *)
Definition step (st : state) (fr k x s : Z) : state :=
  let '(a, b, c, d, e) := st in
  let t := add32 (rotl32 s (add32 (add32 a (f fr b c d)) (add32 x k))) e in
  (e, t, b, rotl32 10 c, d).

(** Steps [j], [j+1], ... of a line: [right] selects the mirrored round
    functions and the right-hand tables. *)
Fixpoint line (right : bool) (x : list Z) (j : nat) (rs : list nat) (ss : list Z)
    (st : state) : state :=
  match rs, ss with
  | r :: rs', s :: ss' =>
      let rnd := Z.of_nat (j / 16) in
      let fr := if right then 4 - rnd else rnd in
      let k := nth (j / 16) (if right then KR else KL) 0 in
      line right x (S j) rs' ss' (step st fr k (nth r x 0) s)
  | _, _ => st
  end.

Definition compress (st : state) (block : bytes) : state :=
  let x := map (fun w => be_to_Z (rev w)) (chunks 16 4 block) in
  let '(al, bl, cl, dl, el) := line false x 0 RL SL st in
  let '(ar, br, cr, dr, er) := line true x 0 RR SR st in
  let '(h0, h1, h2, h3, h4) := st in
  (add32 (add32 h1 cl) dr, add32 (add32 h2 dl) er, add32 (add32 h3 el) ar,
   add32 (add32 h4 al) br, add32 (add32 h0 bl) cr).

Definition pad (msg : bytes) : bytes :=
  msg ++ [0x80] ++ padZeros (length msg) ++ le_bytes 8 (8 * Z.of_nat (length msg)).

Definition digest (st : state) : bytes :=
  let '(a, b, c, d, e) := st in
  flat_map (le_bytes 4) [a; b; c; d; e].

Definition Sum (msg : bytes) : bytes :=
  let p := pad msg in
  digest (fold_left compress (chunks (length p) 64 p) init).

End ripemd160.

(** ** math/big: the bytes of a natural number *)

(** [big.Int.Bytes]: the big-endian bytes of [|z|] without leading zeros
    (no byte at all for zero). *)
Definition big_Bytes (z : Z) : bytes :=
  let a := Z.abs z in
  if a =? 0 then [] else be_bytes (Z.to_nat (Z.log2 a / 8 + 1)) a.

(** ** btcutil/base58 *)

Module base58.

Definition alphabet : list ascii :=
  list_ascii_of_string "123456789ABCDEFGHJKLMNPQRSTUVWXYZabcdefghijkmnopqrstuvwxyz".

Definition ascii_eqb (a b : ascii) : bool := (N_of_ascii a =? N_of_ascii b)%N.

(** Position of [c] in the alphabet ([b58[c]]; [None] is the table's 255). *)
Fixpoint index (c : ascii) (l : list ascii) (i : Z) : option Z :=
  match l with
  | [] => None
  | a :: l' => if ascii_eqb a c then Some i else index c l' (i + 1)
  end.

(** Base-58 digits of [x], least significant first. *)
Fixpoint digits (fuel : nat) (x : Z) : list ascii :=
  match fuel with
  | O => []
  | S fuel' =>
      if x <=? 0 then []
      else nth (Z.to_nat (x mod 58)) alphabet "1"%char :: digits fuel' (x / 58)
  end.

(** One ["1"] per leading zero byte. *)
Fixpoint leadingOnes (b : bytes) : list ascii :=
  match b with
  | x :: b' => if x =? 0 then "1"%char :: leadingOnes b' else []
  | [] => []
  end.

Definition Encode (b : bytes) : string :=
  string_of_list_ascii
    (rev (digits (2 * length b) (be_to_Z b) ++ leadingOnes b)).

(** The number a base-58 string denotes, [None] on a character outside the
    alphabet. *)
Fixpoint value (s : list ascii) (acc : Z) : option Z :=
  match s with
  | [] => Some acc
  | c :: s' =>
      match index c alphabet 0 with
      | None => None
      | Some d => value s' (acc * 58 + d)
      end
  end.

Fixpoint leadingZeroBytes (s : list ascii) : bytes :=
  match s with
  | c :: s' => if ascii_eqb c "1"%char then 0 :: leadingZeroBytes s' else []
  | [] => []
  end.

(** [base58.Decode]: the empty byte string on a malformed input. *)
Definition Decode (s : string) : bytes :=
  let l := list_ascii_of_string s in
  match value l 0 with
  | None => []
  | Some x => leadingZeroBytes l ++ big_Bytes x
  end.

(** Modelled from the spec: the checksum of an address (section 4.2): the
    first four bytes of the double SHA-256. *)
Definition checksum (b : bytes) : bytes :=
  firstn 4 (sha256.Sum256 (sha256.Sum256 b)).

Definition bytes_eqb (a b : bytes) : bool :=
  (length a =? length b)%nat && forallb (fun p => fst p =? snd p) (combine a b).

Definition CheckEncode (input : bytes) (version : byte) : string :=
  let b := version :: input in
  Encode (b ++ checksum b).

(** [base58.CheckDecode]: payload and version byte. *)
Definition CheckDecode (input : string) : result (bytes * byte) :=
  let decoded := Decode input in
  let n := length decoded in
  if (n <? 5)%nat then Err ErrUnknownFormat
  else
    let body := firstn (n - 4) decoded in
    if bytes_eqb (checksum body) (skipn (n - 4) decoded)
    then Ok (skipn 1 body, hd 0 decoded)
    else Err ErrChecksumMismatch.

End base58.

(** ** btcec: keys on secp256k1 *)

Module btcec.

(** Field prime, group order and generator of secp256k1 ([btcec.S256()]). *)
Definition P : Z := 0xfffffffffffffffffffffffffffffffffffffffffffffffffffffffefffffc2f.
Definition N : Z := 0xfffffffffffffffffffffffffffffffebaaedce6af48a03bbfd25e8cd0364141.
Definition Gx : Z := 0x79be667ef9dcbbac55a06295ce870b07029bfcdb2dce28d959f2815b16f81798.
Definition Gy : Z := 0x483ada7726a3c4655da4fbfc0e1108a8fd17b448a68554199c47d08ffb10d4b8.

(** A curve point: [None] is the point at infinity. *)
Definition point : Type := option (Z * Z).

Fixpoint powmod (a : Z) (e : positive) (m : Z) : Z :=
  match e with
  | xH => a mod m
  | xO e' => let h := powmod a e' m in h * h mod m
  | xI e' => let h := powmod a e' m in (h * h mod m) * a mod m
  end.

(** Inverse modulo the prime [m] (Fermat). *)
Definition invmod (a m : Z) : Z :=
  match m - 2 with
  | Zpos e => powmod a e m
  | _ => 0
  end.

Definition double (p : point) : point :=
  match p with
  | None => None
  | Some (x, y) =>
      if y =? 0 then None
      else
        let l := 3 * x * x * invmod (2 * y) P mod P in
        let x3 := (l * l - 2 * x) mod P in
        Some (x3, (l * (x - x3) - y) mod P)
  end.

Definition add (p q : point) : point :=
  match p, q with
  | None, _ => q
  | _, None => p
  | Some (x1, y1), Some (x2, y2) =>
      if x1 =? x2 then (if y1 =? y2 then double p else None)
      else
        let l := (y2 - y1) * invmod (x2 - x1) P mod P in
        let x3 := (l * l - x1 - x2) mod P in
        Some (x3, (l * (x1 - x3) - y1) mod P)
  end.

(** [k * p], by doubling along the binary digits of [k]. *)
Fixpoint mul (k : positive) (p : point) : point :=
  match k with
  | xH => p
  | xO k' => double (mul k' p)
  | xI k' => add (double (mul k' p)) p
  end.

Record PublicKey : Type := { X : Z; Y : Z }.

(** [curve.ScalarBaseMult]: the affine coordinates of [k * G], (0, 0) for the
    point at infinity. *)
Definition ScalarBaseMult (k : Z) : PublicKey :=
  match k with
  | Zpos k' =>
      match mul k' (Some (Gx, Gy)) with
      | Some (x, y) => {| X := x; Y := y |}
      | None => {| X := 0; Y := 0 |}
      end
  | _ => {| X := 0; Y := 0 |}
  end.

(** A private key is its scalar [D]; the embedded public key of the Go struct
    is the function [PubKey] of it. *)
Record PrivateKey : Type := { D : Z }.

Definition PubKey (priv : PrivateKey) : PublicKey := ScalarBaseMult (D priv).

(** [btcec.PrivKeyFromBytes(btcec.S256(), pk)]: the bytes are read as a
    big-endian number of any length.  The call returns a private key and a
    public key and no error ([getArgs] keeps the first and drops the second). *)
Definition PrivKeyFromBytes (pk : bytes) : PrivateKey * PublicKey :=
  let priv := {| D := be_to_Z pk |} in
  (priv, PubKey priv).

(** Modelled from the spec: [btcec.NewPrivateKey(btcec.S256())] (section 4.1,
    [generateKeyPair]): a scalar of [1, N-1] drawn from the random source;
    [entropy] is what the source delivers, [None] when it is exhausted. *)
Definition NewPrivateKey (entropy : option Z) : result PrivateKey :=
  match entropy with
  | None => Err ErrEntropy
  | Some r => Ok {| D := 1 + r mod (N - 1) |}
  end.

(** [paddedAppend(size, dst, src)]: [src] behind as many zero bytes as it
    lacks to [size]. *)
Definition paddedAppend (size : nat) (dst src : bytes) : bytes :=
  dst ++ repeat 0 (size - length src) ++ src.

(** Modelled from the spec: [PublicKey.SerializeCompressed] (section 4.2):
    33 bytes, the parity byte of Y, then X on 32 bytes. *)
Definition SerializeCompressed (p : PublicKey) : bytes :=
  let format := Z.lor 2 (if Z.odd (Y p) then 1 else 0) in
  paddedAppend 32 [format] (big_Bytes (X p)).

(** [PublicKey.SerializeUncompressed]: 0x04, X and Y on 32 bytes each. *)
Definition SerializeUncompressed (p : PublicKey) : bytes :=
  paddedAppend 32 (paddedAppend 32 [4] (big_Bytes (X p))) (big_Bytes (Y p)).

(** [PrivateKey.Serialize]: D on 32 bytes. *)
Definition Serialize (priv : PrivateKey) : bytes :=
  paddedAppend 32 [] (big_Bytes (D priv)).

Record Signature : Type := { R : Z; S : Z }.

(** A DER integer: a zero byte in front of a value whose top bit is set, a
    single zero byte for zero. *)
Definition canonicalizeInt (v : Z) : bytes :=
  match big_Bytes v with
  | [] => [0]
  | b :: rest => if 128 <=? b then 0 :: b :: rest else b :: rest
  end.

(** Modelled from the spec: [Signature.Serialize], the DER encoding of a
    signature (section 4.4, [sign]): 0x30 len 0x02 len(R) R 0x02 len(S) S. *)
Definition SerializeSig (sig : Signature) : bytes :=
  let rb := canonicalizeInt (R sig) in
  let sb := canonicalizeInt (S sig) in
  [0x30; Z.of_nat (4 + length rb + length sb) mod 256;
   0x02; Z.of_nat (length rb) mod 256] ++ rb ++
  [0x02; Z.of_nat (length sb) mod 256] ++ sb.

(** Textbook ECDSA with the nonce [k] given: r = (k G).x mod N and
    s = (e + r D) / k mod N, an error when either is zero. *)
Definition signWithNonce (k : Z) (priv : PrivateKey) (hash : bytes) : result Signature :=
  let r := X (ScalarBaseMult (k mod N)) mod N in
  let s := invmod k N * (be_to_Z hash + r * D priv) mod N in
  if (r =? 0) || (s =? 0) then Err ErrSign else Ok {| R := r; S := s |}.

End btcec.

(** ** btcwire: hashes, outpoints, transactions and their wire format *)

Module btcwire.

Definition HashSize : nat := 32.
Definition MaxHashStringSize : nat := 64.
Definition TxVersion : Z := 1.
Definition MaxTxInSequenceNum : Z := 0xffffffff.

(** A [ShaHash] is its 32 bytes, in the order they go on the wire. *)
Definition ShaHash : Type := bytes.

(** [NewShaHashFromStr]: the string is the hex of the byte-reversed hash; a
    short string leaves zero bytes at the end, an odd one is given a leading
    ["0"], one longer than 64 characters or not hex is an error (and a nil
    hash). *)
Definition NewShaHashFromStr (hash : string) : result ShaHash :=
  if (MaxHashStringSize <? String.length hash)%nat then Err ErrHashStrSize
  else
    let hash := if Nat.odd (String.length hash) then String "0" hash else hash in
    match hex.DecodeString hash with
    | Err e => Err e
    | Ok buf => Ok (rev buf ++ repeat 0 (HashSize - length buf))
    end.

(** [ShaHash.String]: the hex of the byte-reversed hash (a method with a
    value receiver: it dereferences its pointer). *)
Definition ShaHash_String (h : ShaHash) : string := hex.EncodeToString (rev h).

Record OutPoint : Type := { Hash : ShaHash; Index : Z }.

(** [NewOutPoint(hash, index)] copies the hash behind the pointer. *)
Definition NewOutPoint (hash : ShaHash) (index : Z) : OutPoint :=
  {| Hash := hash; Index := index |}.

Record TxIn : Type :=
  { PreviousOutPoint : OutPoint; SignatureScript : bytes; Sequence : Z }.

Definition NewTxIn (prevOut : OutPoint) (signatureScript : bytes) : TxIn :=
  {| PreviousOutPoint := prevOut;
     SignatureScript := signatureScript;
     Sequence := MaxTxInSequenceNum |}.

Record TxOut : Type := { Value : Z; PkScript : bytes }.

Definition NewTxOut (value : Z) (pkScript : bytes) : TxOut :=
  {| Value := value; PkScript := pkScript |}.

Record MsgTx : Type :=
  { Version : Z; TxIns : list TxIn; TxOuts : list TxOut; LockTime : Z }.

Definition NewMsgTx : MsgTx :=
  {| Version := TxVersion; TxIns := []; TxOuts := []; LockTime := 0 |}.

Definition AddTxIn (tx : MsgTx) (ti : TxIn) : MsgTx :=
  {| Version := Version tx; TxIns := TxIns tx ++ [ti];
     TxOuts := TxOuts tx; LockTime := LockTime tx |}.

Definition AddTxOut (tx : MsgTx) (to : TxOut) : MsgTx :=
  {| Version := Version tx; TxIns := TxIns tx;
     TxOuts := TxOuts tx ++ [to]; LockTime := LockTime tx |}.

(** The variable-length integer of the wire format. *)
Definition writeVarInt (n : Z) : bytes :=
  if n <? 0xfd then [n]
  else if n <=? 0xffff then 0xfd :: le_bytes 2 n
  else if n <=? 0xffffffff then 0xfe :: le_bytes 4 n
  else 0xff :: le_bytes 8 n.

Definition writeVarBytes (b : bytes) : bytes :=
  writeVarInt (Z.of_nat (length b)) ++ b.

Definition writeTxIn (ti : TxIn) : bytes :=
  Hash (PreviousOutPoint ti) ++ le_bytes 4 (Index (PreviousOutPoint ti)) ++
  writeVarBytes (SignatureScript ti) ++ le_bytes 4 (Sequence ti).

Definition writeTxOut (to : TxOut) : bytes :=
  le_bytes 8 (Value to) ++ writeVarBytes (PkScript to).

(** Modelled from the spec: [MsgTx.Serialize] (section 4.5, [serialize]):
    4-byte version, input count, each input as outpoint hash, 4-byte output
    index, length-prefixed unlocking script and 4-byte sequence, output count,
    each output as 8-byte little-endian value and length-prefixed locking
    script, 4-byte lock time. *)
Definition Serialize (tx : MsgTx) : bytes :=
  le_bytes 4 (Version tx) ++
  writeVarInt (Z.of_nat (length (TxIns tx))) ++ flat_map writeTxIn (TxIns tx) ++
  writeVarInt (Z.of_nat (length (TxOuts tx))) ++ flat_map writeTxOut (TxOuts tx) ++
  le_bytes 4 (LockTime tx).

Definition DoubleSha256 (b : bytes) : bytes := sha256.Sum256 (sha256.Sum256 b).

End btcwire.

(** ** btcnet and btcutil: addresses *)

Module btcnet.

Record Params : Type := { PubKeyHashAddrID : byte }.

Definition MainNetParams : Params := {| PubKeyHashAddrID := 0x00 |}.

End btcnet.

Module btcutil.

(** The one address kind the programs are specified for: a pay-to-pubkey-hash
    address, the hash of a public key under a network's version byte. *)
Record Address : Type := { hash : bytes; netID : byte }.

Definition AddressPubKeyHash : Type := Address.

(** Modelled from the spec: [btcutil.Hash160] (section 3, Address):
    RIPEMD-160 of SHA-256. *)
Definition Hash160 (buf : bytes) : bytes := ripemd160.Sum (sha256.Sum256 buf).

(** [btcutil.NewAddressPubKeyHash]: the hash must have the size of a
    RIPEMD-160 digest; the version byte is the one of the network. *)
Definition NewAddressPubKeyHash (pkHash : bytes) (net : btcnet.Params)
    : result AddressPubKeyHash :=
  if (length pkHash =? ripemd160.Size)%nat
  then Ok {| hash := pkHash; netID := btcnet.PubKeyHashAddrID net |}
  else Err ErrBadHashLength.

(** Modelled from the spec: [Address.String], that is [EncodeAddress]
    (section 4.2, [deriveAddress]): the hash prefixed with the network version
    byte, followed by the 4-byte checksum, in base 58. *)
Definition EncodeAddress (a : Address) : string :=
  base58.CheckEncode (hash a) (netID a).

(** Modelled from the spec: [btcutil.DecodeAddress] as the inverse of the
    encoding with checksum verification, failing on a checksum mismatch, a
    wrong network byte or malformed base-58 (section 4.2, [decodeAddress]). *)
Definition DecodeAddress (addr : string) (defaultNet : btcnet.Params) : result Address :=
  match base58.CheckDecode addr with
  | Err e => Err e
  | Ok (decoded, version) =>
      if (length decoded =? ripemd160.Size)%nat then
        if version =? btcnet.PubKeyHashAddrID defaultNet
        then Ok {| hash := decoded; netID := version |}
        else Err ErrUnknownAddressType
      else Err ErrUnknownSize
  end.

End btcutil.

(** ** btcscript: scripts and the signature hash *)

Module btcscript.

Definition OP_DATA_1 : Z := 0x01.
Definition OP_DATA_75 : Z := 0x4b.
Definition OP_PUSHDATA1 : Z := 0x4c.
Definition OP_PUSHDATA2 : Z := 0x4d.
Definition OP_PUSHDATA4 : Z := 0x4e.
Definition OP_DUP : Z := 0x76.
Definition OP_EQUALVERIFY : Z := 0x88.
Definition OP_HASH160 : Z := 0xa9.
Definition OP_CHECKSIG : Z := 0xac.

(** The signature-hash modes; the program only uses "sign everything". *)
Inductive SigHashType : Type := SigHashAll.

Definition hashTypeByte (t : SigHashType) : Z :=
  match t with SigHashAll => 1 end.

(** Modelled from the spec: a data push (section 4.3): a length-prefix byte
    followed by the raw bytes for any push under 76 bytes; beyond, the
    PUSHDATA opcode of the smallest length field that fits. *)
Definition AddData (data : bytes) : bytes :=
  let n := Z.of_nat (length data) in
  if n <? OP_PUSHDATA1 then n :: data
  else if n <=? 0xff then OP_PUSHDATA1 :: n :: data
  else if n <=? 0xffff then OP_PUSHDATA2 :: le_bytes 2 n ++ data
  else OP_PUSHDATA4 :: le_bytes 4 n ++ data.

(** Modelled from the spec: [btcscript.PayToAddrScript] (section 4.3,
    [payToAddressScript]): DUP, HASH160, PUSH(hash), EQUALVERIFY, CHECKSIG. *)
Definition PayToAddrScript (addr : btcutil.Address) : result bytes :=
  Ok ([OP_DUP; OP_HASH160] ++ AddData (btcutil.hash addr) ++
      [OP_EQUALVERIFY; OP_CHECKSIG]).

(** An instruction of a script: its opcode and the data it pushes. *)
Record parsedOpcode : Type := { opcode : Z; data : bytes }.

(** The length of an instruction by its opcode: 1 for an opcode without data,
    1 + n for the direct push of n bytes (the opcodes 1 to 75), and -1, -2 or
    -4 for the PUSHDATA opcodes, whose data follows its own length on that
    many little-endian bytes. *)
Definition opcodeLength (op : Z) : Z :=
  if (OP_DATA_1 <=? op) && (op <=? OP_DATA_75) then op + 1
  else if op =? OP_PUSHDATA1 then -1
  else if op =? OP_PUSHDATA2 then -2
  else if op =? OP_PUSHDATA4 then -4
  else 1.

(** Modelled from the spec: the instruction grammar of scripts (section 4.3,
    script encoding), read from the front: an opcode, then the data of a
    push.  A push whose length field or data runs past the end of the script
    is malformed.  [fuel] bounds the number of instructions. *)
Fixpoint parseFrom (fuel : nat) (script : bytes) : result (list parsedOpcode) :=
  match script with
  | [] => Ok []
  | instr :: rest =>
      match fuel with
      | O => Err ErrStackShortScript
      | S fuel' =>
          let next (d remaining : bytes) :=
            match parseFrom fuel' remaining with
            | Err e => Err e
            | Ok pops => Ok ({| opcode := instr; data := d |} :: pops)
            end in
          let len := opcodeLength instr in
          if len =? 1 then next [] rest
          else if 1 <? len then
            (* a direct push of len - 1 bytes *)
            let n := Z.to_nat (len - 1) in
            if (length rest <? n)%nat then Err ErrStackShortScript
            else next (firstn n rest) (skipn n rest)
          else
            (* PUSHDATA: the next -len bytes are the length of the data *)
            let w := Z.to_nat (- len) in
            if (length rest <? w)%nat then Err ErrStackShortScript
            else
              let l := be_to_Z (rev (firstn w rest)) in
              let body := skipn w rest in
              if Z.of_nat (length body) <? l then Err ErrStackShortScript
              else next (firstn (Z.to_nat l) body) (skipn (Z.to_nat l) body)
      end
  end.

(** [parseScript]: every instruction takes at least one byte, so the length
    of the script is fuel enough. *)
Definition parseScript (script : bytes) : result (list parsedOpcode) :=
  parseFrom (length script) script.

(** An input with its unlocking script replaced. *)
Definition withScript (ti : btcwire.TxIn) (script : bytes) : btcwire.TxIn :=
  {| btcwire.PreviousOutPoint := btcwire.PreviousOutPoint ti;
     btcwire.SignatureScript := script;
     btcwire.Sequence := btcwire.Sequence ti |}.

(** The inputs of the copy of [tx] that is hashed: the script of input [idx]
    replaced by [subscript], the scripts of all other inputs, before and
    after it, emptied. *)
Fixpoint signingInputs (ins : list btcwire.TxIn) (idx : nat) (subscript : bytes)
    : list btcwire.TxIn :=
  match ins, idx with
  | [], _ => []
  | ti :: rest, O =>
      withScript ti subscript :: map (fun t => withScript t []) rest
  | ti :: rest, S idx' =>
      withScript ti [] :: signingInputs rest idx' subscript
  end.

Definition signingCopy (tx : btcwire.MsgTx) (idx : nat) (subscript : bytes)
    : btcwire.MsgTx :=
  {| btcwire.Version := btcwire.Version tx;
     btcwire.TxIns := signingInputs (btcwire.TxIns tx) idx subscript;
     btcwire.TxOuts := btcwire.TxOuts tx;
     btcwire.LockTime := btcwire.LockTime tx |}.

(** Modelled from the spec: the signature hash (section 4.4,
    [computeSignatureHash]) in the "sign everything" mode: serialize the
    modified copy, append the hash type on four little-endian bytes, hash
    with double SHA-256. *)
Definition calcScriptHash (subscript : bytes) (hashType : SigHashType)
    (tx : btcwire.MsgTx) (idx : nat) : bytes :=
  btcwire.DoubleSha256
    (btcwire.Serialize (signingCopy tx idx subscript) ++
     le_bytes 4 (hashTypeByte hashType)).

Section Signing.

(** The ECDSA engine behind [PrivateKey.Sign]: it may draw a nonce from the
    random source, so it is a parameter of everything that signs. *)
Variable Sign : btcec.PrivateKey -> bytes -> result btcec.Signature.

(** Modelled from the spec: [btcscript.RawTxInSignature] (section 4.4,
    [sign] and its failure modes).  A zero-length subscript and a subscript
    that is not a sequence of well-formed instructions are malformed inputs,
    on which signing fails before anything is hashed; a failure of the engine
    is a signing error.  Otherwise the result is the DER signature of the
    signature hash, then the hash type on one byte.  (The other malformed
    input section 4.4 names, an empty outpoint hash, cannot be built: a hash
    is an array of 32 bytes.) *)
Definition RawTxInSignature (tx : btcwire.MsgTx) (idx : nat) (subScript : bytes)
    (hashType : SigHashType) (key : btcec.PrivateKey) : result bytes :=
  match subScript with
  | [] => Err ErrEmptyScript
  | _ :: _ =>
      match parseScript subScript with
      | Err _ => Err ErrParseScript
      | Ok _ =>
          let hash := calcScriptHash subScript hashType tx idx in
          match Sign key hash with
          | Err _ => Err ErrSign
          | Ok signature =>
              Ok (btcec.SerializeSig signature ++ [hashTypeByte hashType])
          end
      end
  end.

(** Modelled from the spec: [btcscript.SignatureScript] (sections 4.3 and
    4.4, [signatureScript] and [sign]): a push of the signature with its
    hash-type byte, then a push of the public key. *)
Definition SignatureScript (tx : btcwire.MsgTx) (idx : nat) (subscript : bytes)
    (hashType : SigHashType) (privKey : btcec.PrivateKey) (compress : bool)
    : result bytes :=
  match RawTxInSignature tx idx subscript hashType privKey with
  | Err e => Err e
  | Ok sig =>
      let pk := btcec.PubKey privKey in
      let pkData := if compress then btcec.SerializeCompressed pk
                    else btcec.SerializeUncompressed pk in
      Ok (AddData sig ++ AddData pkData)
  end.

End Signing.

End btcscript.

(** ** spend.go

    The diagnostics [lookupTxid] and [getFundingParams] print on the way are
    left out; what [main] prints is the line of [dumpHex]. *)

Module Spend.

(** The fee [createTxOut] sets aside, in Satoshi. *)
Definition fee : Z := 10000.

Record requiredArgs : Type :=
  { txid : option btcwire.ShaHash;          (* a pointer, possibly nil *)
    vout : Z;                               (* uint32 *)
    toAddress : btcutil.Address;
    privKey : btcec.PrivateKey }.

(** [getArgs], on the values [a], [k], [t] and [v] the flags -address,
    -privkey, -txid and -vout hold after [flag.Parse()]. *)
Definition getArgs (a k t : string) (v : Z) : outcome requiredArgs :=
  if (a =? "")%string || (k =? "")%string || (t =? "")%string || (v =? -1)
  then OsExit 0                                  (* usage, os.Exit(0) *)
  else
    pkBytes <- orFatal (hex.DecodeString k) ;;
    let '(privKey, _) := btcec.PrivKeyFromBytes pkBytes in
    addr <- orFatal (btcutil.DecodeAddress a btcnet.MainNetParams) ;;
    let txid := ptr (btcwire.NewShaHashFromStr t) in   (* err is not read *)
    Return {| txid := txid;
              vout := uint32 v;
              toAddress := addr;
              privKey := privKey |}.

Record BlockChainInfoTxOut : Type :=
  { Value : Z;                      (* int, json "value" *)
    ScriptHex : string }.           (* json "script" *)

Record blockChainInfoTx : Type :=
  { Ver : Z;                        (* json "ver" *)
    Hash : string;                  (* json "hash" *)
    Outputs : list BlockChainInfoTxOut }.   (* json "out" *)

Section World.

(** What blockchain.info answers: the JSON document behind a URL, already
    unmarshalled, or the error of [http.Get], [ioutil.ReadAll] or
    [json.Unmarshal]. *)
Variable fetch : string -> result blockChainInfoTx.

(** The ECDSA engine of btcec, see [btcscript.SignatureScript]. *)
Variable Sign : btcec.PrivateKey -> bytes -> result btcec.Signature.

Definition lookupTxid (hash : option btcwire.ShaHash) : outcome blockChainInfoTx :=
  match hash with
  | None => GoPanic NilDereference               (* hash.String() on nil *)
  | Some h =>
      let url := ("https://blockchain.info/rawtx/" ++ btcwire.ShaHash_String h)%string in
      txinfo <- orFatal (match fetch url with
                         | Ok tx => Ok tx
                         | Err _ => Err ErrTxLookup
                         end) ;;
      if negb (Ver txinfo =? 1) then LogFatal ErrBadResponse
      else Return txinfo
  end.

Definition getFundingParams (rawtx : blockChainInfoTx) (vout : Z)
    : outcome (btcwire.TxOut * btcwire.OutPoint) :=
  blkChnTxOut <- sliceAt (Outputs rawtx) vout ;;
  hash <- orFatal (btcwire.NewShaHashFromStr (Hash rawtx)) ;;
  let amnt := int64 (Value blkChnTxOut) in
  let outpoint := btcwire.NewOutPoint hash vout in
  subscript <- orFatal (hex.DecodeString (ScriptHex blkChnTxOut)) ;;
  let oldTxOut := btcwire.NewTxOut (int64 amnt) subscript in
  Return (oldTxOut, outpoint).

Definition createTxIn (outpoint : btcwire.OutPoint) : btcwire.TxIn :=
  let txin := btcwire.NewTxIn outpoint [] in
  txin.

Definition createTxOut (inCoin : Z) (addr : btcutil.Address) : outcome btcwire.TxOut :=
  let outCoin := int64 (inCoin - 10000) in
  script <- orFatal (btcscript.PayToAddrScript addr) ;;
  let txout := btcwire.NewTxOut outCoin script in
  Return txout.

Definition generateSig (tx : btcwire.MsgTx) (privkey : btcec.PrivateKey)
    (scriptPubKey : bytes) : outcome bytes :=
  scriptSig <- orFatal (btcscript.SignatureScript Sign
                          tx 0%nat scriptPubKey btcscript.SigHashAll privkey true) ;;
  Return scriptSig.

(** [dumpHex]: the line printed on stdout. *)
Definition dumpHex (tx : btcwire.MsgTx) : string :=
  let buf := btcwire.Serialize tx in
  let hexstr := hex.EncodeToString buf in
  hexstr.

(** *** main

    [main] keeps one mutable transaction behind the pointer [tx].  Its body
    runs in a state monad whose state is the list of the values the
    transaction has taken so far, the current one first. *)

Definition M (A : Type) : Type :=
  list btcwire.MsgTx -> outcome (A * list btcwire.MsgTx).

Definition ret {A} (a : A) : M A := fun h => Return (a, h).

Definition bindM {A B} (m : M A) (k : A -> M B) : M B :=
  fun h => match m h with
           | Return (a, h') => k a h'
           | OsExit c => OsExit c
           | LogFatal e => LogFatal e
           | GoPanic p => GoPanic p
           end.

Definition lift {A} (o : outcome A) : M A :=
  fun h => match o with
           | Return a => Return (a, h)
           | OsExit c => OsExit c
           | LogFatal e => LogFatal e
           | GoPanic p => GoPanic p
           end.

(** Reading the transaction behind [tx]. *)
Definition getTx : M btcwire.MsgTx :=
  fun h => match h with
           | tx :: _ => Return (tx, h)
           | [] => GoPanic NilDereference
           end.

(** Writing the transaction behind [tx]. *)
Definition putTx (tx : btcwire.MsgTx) : M unit := fun h => Return (tt, tx :: h).

(** [tx.TxIn[i].SignatureScript = sig] *)
Definition setSignatureScript (i : Z) (sig : bytes) : M unit :=
  bindM getTx (fun tx =>
  bindM (lift (sliceAt (btcwire.TxIns tx) i)) (fun ti =>
  putTx {| btcwire.Version := btcwire.Version tx;
           btcwire.TxIns :=
             firstn (Z.to_nat i) (btcwire.TxIns tx) ++
             {| btcwire.PreviousOutPoint := btcwire.PreviousOutPoint ti;
                btcwire.SignatureScript := sig;
                btcwire.Sequence := btcwire.Sequence ti |} ::
             skipn (Datatypes.S (Z.to_nat i)) (btcwire.TxIns tx);
           btcwire.TxOuts := btcwire.TxOuts tx;
           btcwire.LockTime := btcwire.LockTime tx |})).

Local Notation "x <~ m ;; k" := (bindM m (fun x => k))
  (at level 100, m at next level, right associativity).
Local Notation "m ;;; k" := (bindM m (fun _ => k))
  (at level 100, right associativity).

(** Lines 168 to 176 of [main]: the transaction with its input and output. *)
Definition main_build (outpoint : btcwire.OutPoint) (oldTxOut : btcwire.TxOut)
    (toAddress : btcutil.Address) : M unit :=
  putTx btcwire.NewMsgTx ;;;                           (* tx := btcwire.NewMsgTx() *)
  let txin := createTxIn outpoint in
  (tx <~ getTx ;; putTx (btcwire.AddTxIn tx txin)) ;;; (* tx.AddTxIn(txin) *)
  txout <~ lift (createTxOut (btcwire.Value oldTxOut) toAddress) ;;
  (tx <~ getTx ;; putTx (btcwire.AddTxOut tx txout)).  (* tx.AddTxOut(txout) *)

(** Lines 179 and 180 of [main]: the signature and its place in the input. *)
Definition main_sign (privKey : btcec.PrivateKey) (oldTxOut : btcwire.TxOut)
    : M unit :=
  tx <~ getTx ;;
  sig <~ lift (generateSig tx privKey (btcwire.PkScript oldTxOut)) ;;
  setSignatureScript 0 sig.

(** [main], on the parsed flags; the result is the line [dumpHex] prints. *)
Definition main (a k t : string) (v : Z) : M string :=
  reqArgs <~ lift (getArgs a k t v) ;;
  rawFundingTx <~ lift (lookupTxid (txid reqArgs)) ;;
  fp <~ lift (getFundingParams rawFundingTx (vout reqArgs)) ;;
  let '(oldTxOut, outpoint) := fp in
  main_build outpoint oldTxOut (toAddress reqArgs) ;;;
  main_sign (privKey reqArgs) oldTxOut ;;;
  tx <~ getTx ;;
  ret (dumpHex tx).

End World.

End Spend.

(** ** keypair.go *)

Module Keypair.

(** [generateKeyPair]; [entropy] is what the random source delivers. *)
Definition generateKeyPair (entropy : option Z)
    : outcome (btcec.PublicKey * btcec.PrivateKey) :=
  priv <- orFatal (btcec.NewPrivateKey entropy) ;;
  Return (btcec.PubKey priv, priv).

Definition generateAddr (pub : btcec.PublicKey) : outcome btcutil.AddressPubKeyHash :=
  let net := btcnet.MainNetParams in
  let b := btcutil.Hash160 (btcec.SerializeCompressed pub) in
  addr <- orFatal (btcutil.NewAddressPubKeyHash b net) ;;
  Return addr.

(** [main]: the three values it prints (private key, public key, address). *)
Definition main (entropy : option Z) : outcome (string * string * string) :=
  '(pub, priv) <- generateKeyPair entropy ;;
  addr <- generateAddr pub ;;
  Return (hex.EncodeToString (btcec.Serialize priv),
          hex.EncodeToString (btcec.SerializeCompressed pub),
          btcutil.EncodeAddress addr).

End Keypair.

(** ** Concrete inputs

    The inputs the examples below are evaluated at: the private key 0x01, its
    address, a funding transaction with one 50,000 Satoshi output paying that
    address, and a signer with the fixed nonce 1. *)

Module Sample.

Definition address : string := "1BgGZ9tcN4rm9KBzDn7KprQz87SZ26SAMH".

Definition hash160 : bytes :=
  [117; 30; 118; 232; 25; 145; 150; 212; 84; 148;
   28; 69; 209; 179; 163; 35; 241; 67; 59; 214].

Definition addr : btcutil.Address :=
  {| btcutil.hash := hash160; btcutil.netID := 0 |}.

(** DUP HASH160 PUSH(20 bytes) EQUALVERIFY CHECKSIG *)
Definition pkScript : bytes := [118; 169; 20] ++ hash160 ++ [136; 172].

Definition pkScriptHex : string :=
  "76a914751e76e8199196d454941c45d1b3a323f1433bd688ac".

Definition txidA : string :=
  "0000000000000000000000000000000000000000000000000000000000000001".
Definition txidB : string :=
  "0000000000000000000000000000000000000000000000000000000000000002".

Definition hashA : btcwire.ShaHash := 1 :: repeat 0 31.
Definition hashB : btcwire.ShaHash := 2 :: repeat 0 31.

Definition outpoint : btcwire.OutPoint :=
  {| btcwire.Hash := hashA; btcwire.Index := 0 |}.

(** A funding transaction with the hash [h] and one output of [value]. *)
Definition funding (h : string) (value : Z) : Spend.blockChainInfoTx :=
  {| Spend.Ver := 1;
     Spend.Hash := h;
     Spend.Outputs := [ {| Spend.Value := value; Spend.ScriptHex := pkScriptHex |} ] |}.

(** A lookup that answers every request with the same transaction. *)
Definition fetch (tx : Spend.blockChainInfoTx) (url : string)
    : result Spend.blockChainInfoTx := Ok tx.

Definition Sign : btcec.PrivateKey -> bytes -> result btcec.Signature :=
  btcec.signWithNonce 1.

Definition priv : btcec.PrivateKey := {| btcec.D := 1 |}.

Definition G : btcec.PublicKey := {| btcec.X := btcec.Gx; btcec.Y := btcec.Gy |}.

(** The transaction [main] has built before it signs. *)
Definition unsigned (value : Z) : btcwire.MsgTx :=
  {| btcwire.Version := 1;
     btcwire.TxIns := [ {| btcwire.PreviousOutPoint := outpoint;
                           btcwire.SignatureScript := [];
                           btcwire.Sequence := 0xffffffff |} ];
     btcwire.TxOuts := [ {| btcwire.Value := value; btcwire.PkScript := pkScript |} ];
     btcwire.LockTime := 0 |}.

End Sample.

(** The unlocking script that goes with the answer of the ECDSA engine: the
    push of the DER signature and hash-type byte, then the push of the
    compressed public key; [log.Fatal] when the engine failed. *)
Definition scriptOfSignature (privkey : btcec.PrivateKey)
    (r : result btcec.Signature) : outcome (list Z) :=
  match r with
  | Err _ => LogFatal ErrSign
  | Ok sig =>
      Return (btcscript.AddData
                (btcec.SerializeSig sig
                 ++ [btcscript.hashTypeByte btcscript.SigHashAll])
              ++ btcscript.AddData
                   (btcec.SerializeCompressed (btcec.PubKey privkey)))
  end.

(** The content of a DER INTEGER that holds a natural number: at least one
    byte, the top bit of the first byte clear, and a zero byte in front only
    where the next byte has its top bit set. *)
Definition derIntegerb (b : list Z) : bool :=
  match b with
  | [] => false
  | [x] => x <? 128
  | x :: y :: _ => (x <? 128) && ((0 <? x) || (128 <=? y))
  end.

(** The bytes of an ASCII string. *)
Definition s2b (s : string) : bytes :=
  map (fun c => Z.of_N (N_of_ascii c)) (list_ascii_of_string s).

(** A point is either at infinity or has both coordinates in the field. *)
Definition in_field (p : btcec.point) : Prop :=
  match p with
  | None => True
  | Some (x, y) => 0 <= x < btcec.P /\ 0 <= y < btcec.P
  end.

(** The run of [main] on the sample inputs. *)
Definition sampleRun : outcome (string * list btcwire.MsgTx) :=
  Spend.main (Sample.fetch (Sample.funding Sample.txidA 50000)) Sample.Sign
    Sample.address "01" Sample.txidA 0 [].

(** ** Well-formed bytes and the canonical form of a transaction id *)

(** A Go byte: a number of [0, 256). *)
Definition is_byteb (x : Z) : bool := (0 <=? x) && (x <? 256).

Definition bytes_okb (b : list Z) : bool := forallb is_byteb b.

(** A transaction input or output, or a transaction, whose hashes and
    scripts are made of bytes. *)
Definition txin_okb (ti : btcwire.TxIn) : bool :=
  bytes_okb (btcwire.Hash (btcwire.PreviousOutPoint ti))
  && bytes_okb (btcwire.SignatureScript ti).

Definition txout_okb (to : btcwire.TxOut) : bool := bytes_okb (btcwire.PkScript to).

Definition tx_okb (tx : btcwire.MsgTx) : bool :=
  forallb txin_okb (btcwire.TxIns tx) && forallb txout_okb (btcwire.TxOuts tx).

(** The lower-case form of a hex digit. *)
Definition lowerHex (c : ascii) : ascii :=
  let n := N_of_ascii c in
  if ((65 <=? n) && (n <=? 70))%N then ascii_of_N (n + 32) else c.

(** A transaction id as [ShaHash.String] prints it: lower case, with zeros in
    front up to 64 characters. *)
Definition canonicalTxid (t : string) : string :=
  string_of_list_ascii
    (repeat "0"%char (64 - String.length t) ++ map lowerHex (list_ascii_of_string t)).

(** The URL [lookupTxid] asks for the transaction id [t]. *)
Definition rawtxURL (t : string) : string :=
  ("https://blockchain.info/rawtx/" ++ canonicalTxid t)%string.

(** A lookup that knows one URL. *)
Definition fetchAt (url : string) (tx : Spend.blockChainInfoTx) (u : string)
    : result Spend.blockChainInfoTx :=
  if (u =? url)%string then Ok tx else Err ErrTxLookup.

(** * Properties *)

(** The digests, the curve arithmetic and the codecs are evaluated on concrete
    inputs only; simplification leaves them folded. *)
Arguments sha256.Sum256 : simpl never.
Arguments ripemd160.Sum : simpl never.
Arguments btcec.ScalarBaseMult : simpl never.
Arguments btcec.invmod : simpl never.
Arguments base58.CheckDecode : simpl never.
Arguments base58.CheckEncode : simpl never.
Arguments btcutil.DecodeAddress : simpl never.
Arguments btcwire.NewShaHashFromStr : simpl never.
Arguments btcwire.Serialize : simpl never.
Arguments btcscript.calcScriptHash : simpl never.
Arguments hex.DecodeString : simpl never.
Arguments hex.EncodeToString : simpl never.
Arguments uint32 : simpl never.
Arguments int64 : simpl never.

(** ** Test vectors for the primitives *)

Example sha256_constants :
  length sha256.K = 64%nat /\
  nth 0 sha256.K 0 = 0x428a2f98 /\ nth 63 sha256.K 0 = 0xc67178f2 /\
  snd sha256.init = 0x5be0cd19.
Proof. repeat split. Qed.

Example sha256_abc :
  hex.EncodeToString (sha256.Sum256 (s2b "abc"))
  = "ba7816bf8f01cfea414140de5dae2223b00361a396177a9cb410ff61f20015ad".
Proof. vm_compute. reflexivity. Qed.

Example ripemd160_abc :
  hex.EncodeToString (ripemd160.Sum (s2b "abc"))
  = "8eb208f7e05d987a9b044a8e98c6b087f15a0bfc".
Proof. vm_compute. reflexivity. Qed.

Example base58_zero_hash :
  base58.CheckEncode (repeat 0 20) 0 = "1111111111111111111114oLvT2".
Proof. vm_compute. reflexivity. Qed.

Example secp256k1_2G :
  hex.EncodeToString (btcec.SerializeCompressed (btcec.ScalarBaseMult 2))
  = "02c6047f9441ed7d6d3045406e95c07cd85c778e4b8cef3ca7abac09b95c709ee5".
Proof. vm_compute. reflexivity. Qed.

Example keypair_of_one :
  Keypair.main (Some 0)
  = Return ("0000000000000000000000000000000000000000000000000000000000000001",
            "0279be667ef9dcbbac55a06295ce870b07029bfcdb2dce28d959f2815b16f81798",
            Sample.address).
Proof. vm_compute. reflexivity. Qed.

Example decode_sample_address :
  btcutil.DecodeAddress Sample.address btcnet.MainNetParams = Ok Sample.addr.
Proof. vm_compute. reflexivity. Qed.

(** ** Lengths *)

Lemma le_bytes_length n z : length (le_bytes n z) = n.
Proof. revert z; induction n as [|n IH]; intros z; simpl; [reflexivity|]. now rewrite IH. Qed.

Lemma be_bytes_length n z : length (be_bytes n z) = n.
Proof. unfold be_bytes. now rewrite length_rev, le_bytes_length. Qed.

Lemma sha256_Sum256_length msg : length (sha256.Sum256 msg) = 32%nat.
Proof.
  unfold sha256.Sum256, sha256.digest.
  destruct (fold_left _ _ _) as [[[[[[[a b] c] d] e] f] g] h].
  reflexivity.
Qed.

Lemma ripemd160_Sum_length msg : length (ripemd160.Sum msg) = ripemd160.Size.
Proof.
  unfold ripemd160.Sum, ripemd160.digest.
  destruct (fold_left _ _ _) as [[[[a b] c] d] e].
  reflexivity.
Qed.

Lemma big_Bytes_length_le z (n : nat) :
  Z.abs z < 2 ^ (8 * Z.of_nat n) -> (length (big_Bytes z) <= n)%nat.
Proof.
  intros Hz. unfold big_Bytes.
  destruct (Z.eqb_spec (Z.abs z) 0) as [E|E]; simpl; [lia|].
  rewrite be_bytes_length.
  assert (Hpos : 0 < Z.abs z) by lia.
  assert (Hlog : Z.log2 (Z.abs z) < 8 * Z.of_nat n)
    by (apply Z.log2_lt_pow2; assumption).
  assert (Hlog0 : 0 <= Z.log2 (Z.abs z)) by apply Z.log2_nonneg.
  assert (Z.log2 (Z.abs z) / 8 < Z.of_nat n)
    by (apply Z.div_lt_upper_bound; lia).
  assert (0 <= Z.log2 (Z.abs z) / 8) by (apply Z.div_pos; lia).
  lia.
Qed.

Lemma paddedAppend_length size dst src :
  (length src <= size)%nat ->
  length (btcec.paddedAppend size dst src) = (length dst + size)%nat.
Proof.
  intros H. unfold btcec.paddedAppend.
  rewrite !length_app, repeat_length. lia.
Qed.

(** ** Fixed-width arithmetic *)

Lemma int64_id z : minInt64 <= z <= maxInt64 -> int64 z = z.
Proof.
  unfold int64, minInt64, maxInt64. intros H.
  rewrite Z.mod_small; lia.
Qed.

Lemma int64_idem z : int64 (int64 z) = int64 z.
Proof.
  apply int64_id. unfold int64, minInt64, maxInt64.
  pose proof (Z.mod_pos_bound (z + 2 ^ 63) (2 ^ 64)). lia.
Qed.

(** ** createTxOut and the transaction [main] builds *)

Lemma PayToAddrScript_Ok addr :
  btcscript.PayToAddrScript addr
  = Ok ([btcscript.OP_DUP; btcscript.OP_HASH160]
        ++ btcscript.AddData (btcutil.hash addr)
        ++ [btcscript.OP_EQUALVERIFY; btcscript.OP_CHECKSIG]).
Proof. reflexivity. Qed.

(** [createTxOut] always returns: the value is the Go difference, the script
    the one of the address. *)
Lemma createTxOut_Return inCoin addr :
  exists script,
    btcscript.PayToAddrScript addr = Ok script /\
    Spend.createTxOut inCoin addr
    = Return {| btcwire.Value := int64 (inCoin - Spend.fee);
                btcwire.PkScript := script |}.
Proof.
  eexists. split; [apply PayToAddrScript_Ok|]. reflexivity.
Qed.

(** The history [main_build] leaves: the empty transaction, the transaction
    with its input, the transaction with its output. *)
Lemma main_build_history outpoint oldTxOut addr h :
  exists script,
    btcscript.PayToAddrScript addr = Ok script /\
    Spend.main_build outpoint oldTxOut addr h
    = Return (tt,
        [ {| btcwire.Version := 1;
             btcwire.TxIns := [Spend.createTxIn outpoint];
             btcwire.TxOuts := [ {| btcwire.Value := int64 (btcwire.Value oldTxOut - Spend.fee);
                                    btcwire.PkScript := script |} ];
             btcwire.LockTime := 0 |};
          {| btcwire.Version := 1;
             btcwire.TxIns := [Spend.createTxIn outpoint];
             btcwire.TxOuts := [];
             btcwire.LockTime := 0 |};
          btcwire.NewMsgTx ] ++ h).
Proof.
  eexists. split; [apply PayToAddrScript_Ok|]. reflexivity.
Qed.

(** C1, as the code has it: a funding value that does not exceed the fee of
    10,000 is not refused.  [createTxOut] returns an output whose value is the
    funding value minus 10,000, which is then zero or negative; no check of
    the funds is made and nothing fails. *)
Theorem createTxOut_no_funds_check (inCoin : Z) (addr : btcutil.Address) :
  minInt64 + Spend.fee <= inCoin <= Spend.fee ->
  exists txout,
    Spend.createTxOut inCoin addr = Return txout /\
    btcwire.Value txout = inCoin - Spend.fee /\
    btcwire.Value txout <= 0.
Proof.
  intros H.
  destruct (createTxOut_Return inCoin addr) as [script [_ E]].
  eexists. split; [exact E|]. simpl.
  unfold Spend.fee, minInt64 in *.
  rewrite int64_id by (unfold minInt64, maxInt64; lia).
  lia.
Qed.

(** C1, witness: the funding value 10,000. *)
Lemma createTxOut_no_funds_check_witness :
  exists txout,
    Spend.createTxOut 10000 Sample.addr = Return txout /\
    btcwire.Value txout = 10000 - Spend.fee /\
    btcwire.Value txout <= 0.
Proof.
  apply (createTxOut_no_funds_check 10000 Sample.addr).
  unfold minInt64, Spend.fee. lia.
Defined.

(** C1, counterexample: with a funding value equal to the fee, and with one
    below it, [createTxOut] returns an output of value 0, respectively
    -5,000, and [main_build] goes on to put it into the transaction. *)
Lemma createTxOut_accepts_insufficient_funds :
  Spend.createTxOut 10000 Sample.addr
  = Return {| btcwire.Value := 0; btcwire.PkScript := Sample.pkScript |} /\
  Spend.createTxOut 5000 Sample.addr
  = Return {| btcwire.Value := -5000; btcwire.PkScript := Sample.pkScript |} /\
  Spend.main_build Sample.outpoint
    {| btcwire.Value := 5000; btcwire.PkScript := Sample.pkScript |} Sample.addr []
  = Return (tt, [ Sample.unsigned (-5000);
                  {| btcwire.Version := 1;
                     btcwire.TxIns := btcwire.TxIns (Sample.unsigned 0);
                     btcwire.TxOuts := [];
                     btcwire.LockTime := 0 |};
                  btcwire.NewMsgTx ]).
Proof. repeat split; vm_compute; reflexivity. Qed.

(** C3: [main] builds a transaction with exactly one input, which refers to
    the outpoint and has an empty unlocking script, and exactly one output,
    whose value is the funding value minus the fee and whose locking script is
    the pay-to-address script of the destination. *)
Theorem main_build_one_input_one_output
    (outpoint : btcwire.OutPoint) (oldTxOut : btcwire.TxOut)
    (toAddress : btcutil.Address) (h : list btcwire.MsgTx) :
  minInt64 + Spend.fee <= btcwire.Value oldTxOut <= maxInt64 ->
  exists script hist,
    btcscript.PayToAddrScript toAddress = Ok script /\
    Spend.main_build outpoint oldTxOut toAddress h
    = Return (tt,
        {| btcwire.Version := btcwire.TxVersion;
           btcwire.TxIns :=
             [ {| btcwire.PreviousOutPoint := outpoint;
                  btcwire.SignatureScript := [];
                  btcwire.Sequence := btcwire.MaxTxInSequenceNum |} ];
           btcwire.TxOuts :=
             [ {| btcwire.Value := btcwire.Value oldTxOut - Spend.fee;
                  btcwire.PkScript := script |} ];
           btcwire.LockTime := 0 |} :: hist).
Proof.
  intros H.
  destruct (main_build_history outpoint oldTxOut toAddress h) as [script [Hs E]].
  exists script. eexists. split; [exact Hs|].
  rewrite E. simpl.
  rewrite int64_id; [reflexivity|].
  unfold minInt64, maxInt64, Spend.fee in *. lia.
Qed.

(** C3, witness: a funding value of 50,000 and the fee of 10,000 give an
    output of exactly 40,000. *)
Lemma main_build_one_input_one_output_witness :
  exists script hist,
    btcscript.PayToAddrScript Sample.addr = Ok script /\
    Spend.main_build Sample.outpoint
      {| btcwire.Value := 50000; btcwire.PkScript := Sample.pkScript |}
      Sample.addr []
    = Return (tt,
        {| btcwire.Version := btcwire.TxVersion;
           btcwire.TxIns :=
             [ {| btcwire.PreviousOutPoint := Sample.outpoint;
                  btcwire.SignatureScript := [];
                  btcwire.Sequence := btcwire.MaxTxInSequenceNum |} ];
           btcwire.TxOuts :=
             [ {| btcwire.Value := 50000 - Spend.fee;
                  btcwire.PkScript := script |} ];
           btcwire.LockTime := 0 |} :: hist).
Proof.
  apply (main_build_one_input_one_output Sample.outpoint
           {| btcwire.Value := 50000; btcwire.PkScript := Sample.pkScript |}
           Sample.addr []).
  unfold minInt64, maxInt64, Spend.fee. simpl. lia.
Defined.

(** The example of the specification: 50,000 in, 40,000 out, the locking
    script of the destination byte for byte. *)
Example createTxOut_50000 :
  Spend.createTxOut 50000 Sample.addr
  = Return {| btcwire.Value := 40000; btcwire.PkScript := Sample.pkScript |}.
Proof. vm_compute. reflexivity. Qed.

(** ** getArgs *)

(** When the four flags are set, the key is hex and the address decodes,
    [getArgs] returns; the record it returns is the following. *)
Lemma getArgs_Return a k t v pkBytes addr :
  a <> "" -> k <> "" -> t <> "" -> v <> -1 ->
  hex.DecodeString k = Ok pkBytes ->
  btcutil.DecodeAddress a btcnet.MainNetParams = Ok addr ->
  Spend.getArgs a k t v
  = Return {| Spend.txid := ptr (btcwire.NewShaHashFromStr t);
              Spend.vout := uint32 v;
              Spend.toAddress := addr;
              Spend.privKey := {| btcec.D := be_to_Z pkBytes |} |}.
Proof.
  intros Ha Hk Ht Hv Hpk Haddr. unfold Spend.getArgs.
  apply String.eqb_neq in Ha, Hk, Ht. apply Z.eqb_neq in Hv.
  rewrite Ha, Hk, Ht, Hv. simpl.
  rewrite Hpk. simpl. rewrite Haddr. reflexivity.
Qed.

(** A key that is not hex ends [getArgs] with [log.Fatal] of the hex error. *)
Lemma getArgs_bad_hex a k t v e :
  a <> "" -> k <> "" -> t <> "" -> v <> -1 ->
  hex.DecodeString k = Err e ->
  Spend.getArgs a k t v = LogFatal e.
Proof.
  intros Ha Hk Ht Hv Hpk. unfold Spend.getArgs.
  apply String.eqb_neq in Ha, Hk, Ht. apply Z.eqb_neq in Hv.
  rewrite Ha, Hk, Ht, Hv. simpl.
  rewrite Hpk. reflexivity.
Qed.

(** Every error [getArgs] ends on is an error of the key or of the address. *)
Lemma getArgs_fatal_origin a k t v e :
  Spend.getArgs a k t v = LogFatal e ->
  err (hex.DecodeString k) = Some e \/
  err (btcutil.DecodeAddress a btcnet.MainNetParams) = Some e.
Proof.
  unfold Spend.getArgs. destruct (_ || _); [discriminate|].
  destruct (hex.DecodeString k) as [pkBytes|e1]; cbn [bind orFatal err].
  - destruct (btcutil.DecodeAddress a btcnet.MainNetParams) as [addr|e2];
      cbn [bind orFatal btcec.PrivKeyFromBytes err]; [discriminate|].
    intros E. injection E as ->. right. reflexivity.
  - intros E. injection E as ->. left. reflexivity.
Qed.

(** C6, as the code has it: the private key is hex-decoded and its bytes are
    read as a big-endian scalar whatever their number and whatever the value;
    the only failure of key parsing is [log.Fatal] with the error of the hex
    decoder.  Neither the length nor the range of the scalar is checked. *)
Theorem getArgs_privkey_unchecked (a k t : string) (v : Z) :
  a <> "" -> k <> "" -> t <> "" -> v <> -1 ->
  match hex.DecodeString k with
  | Err e => Spend.getArgs a k t v = LogFatal e
  | Ok pkBytes =>
      forall addr,
        btcutil.DecodeAddress a btcnet.MainNetParams = Ok addr ->
        exists args,
          Spend.getArgs a k t v = Return args /\
          Spend.privKey args = {| btcec.D := be_to_Z pkBytes |}
  end.
Proof.
  intros Ha Hk Ht Hv.
  destruct (hex.DecodeString k) as [pkBytes|e] eqn:Hpk.
  - intros addr Haddr. eexists. split.
    + apply (getArgs_Return a k t v pkBytes addr); assumption.
    + reflexivity.
  - apply getArgs_bad_hex; assumption.
Qed.

(** C6, witness: the one-byte key "01". *)
Lemma getArgs_privkey_unchecked_witness :
  match hex.DecodeString "01" with
  | Err e => Spend.getArgs Sample.address "01" Sample.txidA 0 = LogFatal e
  | Ok pkBytes =>
      forall addr,
        btcutil.DecodeAddress Sample.address btcnet.MainNetParams = Ok addr ->
        exists args,
          Spend.getArgs Sample.address "01" Sample.txidA 0 = Return args /\
          Spend.privKey args = {| btcec.D := be_to_Z pkBytes |}
  end.
Proof.
  apply (getArgs_privkey_unchecked Sample.address "01" Sample.txidA 0);
    [discriminate | discriminate | discriminate | lia].
Defined.

(** C6, counterexample: a key of one byte, the zero scalar and a key of 33
    bytes above the group order are all accepted. *)
Lemma getArgs_accepts_malformed_keys :
  Spend.getArgs Sample.address "01" Sample.txidA 0
  = Return {| Spend.txid := Some Sample.hashA; Spend.vout := 0;
              Spend.toAddress := Sample.addr;
              Spend.privKey := {| btcec.D := 1 |} |} /\
  Spend.getArgs Sample.address
    "0000000000000000000000000000000000000000000000000000000000000000"
    Sample.txidA 0
  = Return {| Spend.txid := Some Sample.hashA; Spend.vout := 0;
              Spend.toAddress := Sample.addr;
              Spend.privKey := {| btcec.D := 0 |} |} /\
  Spend.getArgs Sample.address
    "ffffffffffffffffffffffffffffffffffffffffffffffffffffffffffffffffff"
    Sample.txidA 0
  = Return {| Spend.txid := Some Sample.hashA; Spend.vout := 0;
              Spend.toAddress := Sample.addr;
              Spend.privKey := {| btcec.D := 2 ^ 264 - 1 |} |} /\
  btcec.N < 2 ^ 264 - 1.
Proof.
  split; [reflexivity|]. split; [reflexivity|]. split; reflexivity.
Qed.

(** C9: [getArgs] never reports an error of the transaction id.  Whatever
    the string, as long as the other flags pass, it returns, and the [txid] it
    returns is the pointer half of the conversion: nil when the conversion
    failed. *)
Theorem getArgs_ignores_txid_error (a k t : string) (v : Z) pkBytes addr :
  a <> "" -> k <> "" -> t <> "" -> v <> -1 ->
  hex.DecodeString k = Ok pkBytes ->
  btcutil.DecodeAddress a btcnet.MainNetParams = Ok addr ->
  exists args,
    Spend.getArgs a k t v = Return args /\
    Spend.txid args = ptr (btcwire.NewShaHashFromStr t) /\
    (forall e, btcwire.NewShaHashFromStr t = Err e -> Spend.txid args = None).
Proof.
  intros Ha Hk Ht Hv Hpk Haddr. eexists. split; [|split].
  - apply (getArgs_Return a k t v pkBytes addr); assumption.
  - reflexivity.
  - intros e He. cbn [Spend.txid]. rewrite He. reflexivity.
Qed.

(** C9, witness: a transaction id that is not hex. *)
Lemma getArgs_ignores_txid_error_witness :
  btcwire.NewShaHashFromStr "not a hash" = Err (InvalidByteError "n") /\
  exists args,
    Spend.getArgs Sample.address "01" "not a hash" 0 = Return args /\
    Spend.txid args = ptr (btcwire.NewShaHashFromStr "not a hash") /\
    (forall e, btcwire.NewShaHashFromStr "not a hash" = Err e ->
               Spend.txid args = None).
Proof.
  split; [vm_compute; reflexivity|].
  apply (getArgs_ignores_txid_error Sample.address "01" "not a hash" 0
           [1] Sample.addr);
    [discriminate | discriminate | discriminate | lia
    | vm_compute; reflexivity | vm_compute; reflexivity].
Defined.

(** The run on a transaction id that is not hex, and on one that is too long. *)
Example getArgs_nil_txid :
  Spend.getArgs Sample.address "01" "not a hash" 0
  = Return {| Spend.txid := None; Spend.vout := 0;
              Spend.toAddress := Sample.addr;
              Spend.privKey := {| btcec.D := 1 |} |} /\
  Spend.getArgs Sample.address "01" (Sample.txidA ++ "00") 0
  = Return {| Spend.txid := None; Spend.vout := 0;
              Spend.toAddress := Sample.addr;
              Spend.privKey := {| btcec.D := 1 |} |}.
Proof. split; vm_compute; reflexivity. Qed.

(** C10, as the code has it: every [vout] other than -1 passes the argument
    check and is reduced modulo 2^32: the index is the number of [0, 2^32)
    congruent to it.  A value from -2^32 + 1 to -2 becomes 2^32 + v, which is
    a huge index, 2^31 or more, for the values from -2^31 to -2; it is not
    huge for every negative value. *)
Theorem getArgs_vout_wraps (a k t : string) (v : Z) pkBytes addr :
  a <> "" -> k <> "" -> t <> "" -> v <> -1 ->
  hex.DecodeString k = Ok pkBytes ->
  btcutil.DecodeAddress a btcnet.MainNetParams = Ok addr ->
  exists args q,
    Spend.getArgs a k t v = Return args /\
    0 <= Spend.vout args < 2 ^ 32 /\
    v = q * 2 ^ 32 + Spend.vout args /\
    (- 2 ^ 32 < v < -1 -> Spend.vout args = 2 ^ 32 + v) /\
    (- 2 ^ 31 <= v < -1 -> 2 ^ 31 <= Spend.vout args).
Proof.
  intros Ha Hk Ht Hv Hpk Haddr. eexists. exists (v / 2 ^ 32).
  split; [apply (getArgs_Return a k t v pkBytes addr); assumption|].
  cbn [Spend.vout]. unfold uint32.
  pose proof (Z.mod_pos_bound v (2 ^ 32) ltac:(lia)) as Hm.
  pose proof (Z.div_mod v (2 ^ 32) ltac:(lia)) as Hd.
  split; [exact Hm|]. split; [lia|].
  assert (Hw : - 2 ^ 32 < v < -1 -> v mod 2 ^ 32 = 2 ^ 32 + v).
  { intros Hneg.
    replace v with ((v + 2 ^ 32) + (-1) * 2 ^ 32) at 1 by lia.
    rewrite Z.mod_add by lia. rewrite Z.mod_small by lia. lia. }
  split; [exact Hw|]. intros Hneg. rewrite Hw by lia. lia.
Qed.

(** C10, witness: -2 becomes the index 4294967294. *)
Lemma getArgs_vout_wraps_witness :
  exists args q,
    Spend.getArgs Sample.address "01" Sample.txidA (-2) = Return args /\
    0 <= Spend.vout args < 2 ^ 32 /\
    -2 = q * 2 ^ 32 + Spend.vout args /\
    (- 2 ^ 32 < -2 < -1 -> Spend.vout args = 2 ^ 32 + -2) /\
    (- 2 ^ 31 <= -2 < -1 -> 2 ^ 31 <= Spend.vout args).
Proof.
  apply (getArgs_vout_wraps Sample.address "01" Sample.txidA (-2)
           [1] Sample.addr);
    [discriminate | discriminate | discriminate | lia
    | vm_compute; reflexivity | vm_compute; reflexivity].
Defined.

(** C10, counterexample: -2^32 is below -1, passes the check and becomes
    the index 0, and -2^32 + 1 becomes the index 1; [main] then spends output
    0 exactly as it does for the index 0. *)
Lemma getArgs_vout_wraps_to_small_index :
  - 2 ^ 32 < -1 /\
  Spend.getArgs Sample.address "01" Sample.txidA (- 2 ^ 32)
  = Return {| Spend.txid := Some Sample.hashA; Spend.vout := 0;
              Spend.toAddress := Sample.addr;
              Spend.privKey := {| btcec.D := 1 |} |} /\
  Spend.getArgs Sample.address "01" Sample.txidA (- 2 ^ 32 + 1)
  = Return {| Spend.txid := Some Sample.hashA; Spend.vout := 1;
              Spend.toAddress := Sample.addr;
              Spend.privKey := {| btcec.D := 1 |} |} /\
  Spend.main (Sample.fetch (Sample.funding Sample.txidA 50000)) Sample.Sign
    Sample.address "01" Sample.txidA (- 2 ^ 32) []
  = sampleRun.
Proof.
  split; [reflexivity|]. split; [vm_compute; reflexivity|].
  split; vm_compute; reflexivity.
Qed.

Example getArgs_vout_minus_two :
  Spend.getArgs Sample.address "01" Sample.txidA (-2)
  = Return {| Spend.txid := Some Sample.hashA; Spend.vout := 4294967294;
              Spend.toAddress := Sample.addr;
              Spend.privKey := {| btcec.D := 1 |} |}.
Proof. vm_compute. reflexivity. Qed.

Example getArgs_vout_minus_one :
  Spend.getArgs Sample.address "01" Sample.txidA (-1) = OsExit 0.
Proof. vm_compute. reflexivity. Qed.

(** ** getFundingParams *)

Lemma sliceAt_Return {A} (s : list A) i x :
  sliceAt s i = Return x -> 0 <= i < Z.of_nat (length s).
Proof.
  unfold sliceAt.
  destruct (Z.ltb_spec i 0) as [Hi|Hi]; [discriminate|].
  destruct (Z.leb_spec (Z.of_nat (length s)) i) as [Hj|Hj]; [discriminate|].
  intros _. lia.
Qed.

Lemma sliceAt_out_of_range {A} (s : list A) i :
  Z.of_nat (length s) <= i -> sliceAt s i = GoPanic IndexOutOfRange.
Proof.
  intros H. unfold sliceAt.
  destruct (Z.ltb_spec i 0) as [Hi|Hi]; [reflexivity|].
  destruct (Z.leb_spec (Z.of_nat (length s)) i) as [Hj|Hj]; [reflexivity|lia].
Qed.

(** C2, as the code has it: [getFundingParams] validates neither the index
    nor the hash.  An index beyond the returned outputs makes the indexing
    panic at run time; otherwise the outpoint is made of the hash the lookup
    returned, whatever id was requested, and of the requested index. *)
Theorem getFundingParams_unvalidated (rawtx : Spend.blockChainInfoTx) (vout : Z) :
  0 <= vout ->
  (Z.of_nat (length (Spend.Outputs rawtx)) <= vout ->
   Spend.getFundingParams rawtx vout = GoPanic IndexOutOfRange) /\
  (forall oldTxOut outpoint,
     Spend.getFundingParams rawtx vout = Return (oldTxOut, outpoint) ->
     vout < Z.of_nat (length (Spend.Outputs rawtx)) /\
     btcwire.NewShaHashFromStr (Spend.Hash rawtx) = Ok (btcwire.Hash outpoint) /\
     btcwire.Index outpoint = vout).
Proof.
  intros Hv. unfold Spend.getFundingParams. split.
  - intros Hlen. now rewrite sliceAt_out_of_range.
  - intros oldTxOut outpoint.
    destruct (sliceAt (Spend.Outputs rawtx) vout) as [o| | |] eqn:Ei;
      cbn [bind]; try discriminate.
    apply sliceAt_Return in Ei.
    destruct (btcwire.NewShaHashFromStr (Spend.Hash rawtx)) as [hash|e];
      cbn [bind orFatal]; [|discriminate].
    destruct (hex.DecodeString (Spend.ScriptHex o)) as [subscript|e];
      cbn [bind orFatal]; [|discriminate].
    intros E. injection E as _ E2. subst outpoint.
    repeat split; try reflexivity; lia.
Qed.

(** C2, witness: the funding transaction whose hash is [txidB], index 0. *)
Lemma getFundingParams_unvalidated_witness :
  (Z.of_nat (length (Spend.Outputs (Sample.funding Sample.txidB 50000))) <= 0 ->
   Spend.getFundingParams (Sample.funding Sample.txidB 50000) 0
   = GoPanic IndexOutOfRange) /\
  (forall oldTxOut outpoint,
     Spend.getFundingParams (Sample.funding Sample.txidB 50000) 0
     = Return (oldTxOut, outpoint) ->
     0 < Z.of_nat (length (Spend.Outputs (Sample.funding Sample.txidB 50000))) /\
     btcwire.NewShaHashFromStr (Spend.Hash (Sample.funding Sample.txidB 50000))
     = Ok (btcwire.Hash outpoint) /\
     btcwire.Index outpoint = 0).
Proof.
  apply (getFundingParams_unvalidated (Sample.funding Sample.txidB 50000) 0).
  lia.
Defined.

(** C2, counterexample: asked for output 1 of a transaction with one output,
    [main] panics on the index; asked for the transaction [txidA] and given
    the transaction [txidB] by the lookup, [main] goes on, signs and prints a
    transaction that spends from [txidB]. *)
Lemma main_trusts_the_lookup :
  Spend.main (Sample.fetch (Sample.funding Sample.txidA 50000)) Sample.Sign
    Sample.address "01" Sample.txidA 1 []
  = GoPanic IndexOutOfRange /\
  Spend.getFundingParams (Sample.funding Sample.txidB 50000) 0
  = Return ({| btcwire.Value := 50000; btcwire.PkScript := Sample.pkScript |},
            {| btcwire.Hash := Sample.hashB; btcwire.Index := 0 |}) /\
  exists hist,
    Spend.main (Sample.fetch (Sample.funding Sample.txidB 50000)) Sample.Sign
      Sample.address "01" Sample.txidA 0 []
    = Return
        ("0100000001"
         ++ "0200000000000000000000000000000000000000000000000000000000000000"
         ++ "00000000" ++ "6b"
         ++ "483045022079be667ef9dcbbac55a06295ce870b07029bfcdb2dce28d959f2815b16f81798"
         ++ "022100e8c961138f95811ae374d28a04bd6a6fd77c6aa63c6655f34a66eb3f37581ae501"
         ++ "210279be667ef9dcbbac55a06295ce870b07029bfcdb2dce28d959f2815b16f81798"
         ++ "ffffffff" ++ "01" ++ "409c000000000000"
         ++ "1976a914751e76e8199196d454941c45d1b3a323f1433bd688ac"
         ++ "00000000", hist)%string.
Proof.
  split; [vm_compute; reflexivity|].
  split; [vm_compute; reflexivity|].
  eexists. vm_compute. reflexivity.
Qed.

(** ** The state monad of [main] *)

Lemma bindM_Return_inv {A B} (m : Spend.M A) (k : A -> Spend.M B) h r :
  Spend.bindM m k h = Return r ->
  exists a h', m h = Return (a, h') /\ k a h' = Return r.
Proof.
  unfold Spend.bindM. destruct (m h) as [[a h']| | |]; try discriminate.
  intros E. exists a, h'. split; [reflexivity|exact E].
Qed.

Lemma lift_Return_inv {A} (o : outcome A) h a h' :
  Spend.lift o h = Return (a, h') -> o = Return a /\ h' = h.
Proof.
  unfold Spend.lift. destruct o; try discriminate.
  intros E. injection E as -> ->. split; reflexivity.
Qed.

Lemma getTx_cons tx h : Spend.getTx (tx :: h) = Return (tx, tx :: h).
Proof. reflexivity. Qed.

(** What [main_sign] does to a transaction with one input. *)
Lemma main_sign_Return_inv Sign priv oldTxOut tx ti h r :
  btcwire.TxIns tx = [ti] ->
  Spend.main_sign Sign priv oldTxOut (tx :: h) = Return r ->
  exists sig,
    Spend.generateSig Sign tx priv (btcwire.PkScript oldTxOut) = Return sig /\
    r = (tt,
         {| btcwire.Version := btcwire.Version tx;
            btcwire.TxIns :=
              [ {| btcwire.PreviousOutPoint := btcwire.PreviousOutPoint ti;
                   btcwire.SignatureScript := sig;
                   btcwire.Sequence := btcwire.Sequence ti |} ];
            btcwire.TxOuts := btcwire.TxOuts tx;
            btcwire.LockTime := btcwire.LockTime tx |} :: tx :: h).
Proof.
  intros Hins E. unfold Spend.main_sign in E.
  apply bindM_Return_inv in E. destruct E as [tx' [h1 [E1 E]]].
  rewrite getTx_cons in E1. injection E1 as <- <-.
  apply bindM_Return_inv in E. destruct E as [sig [h2 [E2 E]]].
  apply lift_Return_inv in E2. destruct E2 as [E2 ->].
  exists sig. split; [exact E2|].
  unfold Spend.setSignatureScript, Spend.bindM in E.
  rewrite getTx_cons, Hins in E.
  cbv [Spend.lift sliceAt] in E. cbn in E.
  injection E as <-. reflexivity.
Qed.

(** The stages a returning run of [main] went through. *)
Lemma main_Return_inv fetch Sign a k t v h out hist :
  Spend.main fetch Sign a k t v h = Return (out, hist) ->
  exists reqArgs rawFundingTx oldTxOut outpoint script sig,
    Spend.getArgs a k t v = Return reqArgs /\
    Spend.lookupTxid fetch (Spend.txid reqArgs) = Return rawFundingTx /\
    Spend.getFundingParams rawFundingTx (Spend.vout reqArgs)
    = Return (oldTxOut, outpoint) /\
    btcscript.PayToAddrScript (Spend.toAddress reqArgs) = Ok script /\
    let tx1 := {| btcwire.Version := 1;
                  btcwire.TxIns := [Spend.createTxIn outpoint];
                  btcwire.TxOuts := [];
                  btcwire.LockTime := 0 |} in
    let tx2 := {| btcwire.Version := 1;
                  btcwire.TxIns := [Spend.createTxIn outpoint];
                  btcwire.TxOuts :=
                    [ {| btcwire.Value := int64 (btcwire.Value oldTxOut - Spend.fee);
                         btcwire.PkScript := script |} ];
                  btcwire.LockTime := 0 |} in
    let tx3 := {| btcwire.Version := 1;
                  btcwire.TxIns :=
                    [ {| btcwire.PreviousOutPoint := outpoint;
                         btcwire.SignatureScript := sig;
                         btcwire.Sequence := btcwire.MaxTxInSequenceNum |} ];
                  btcwire.TxOuts := btcwire.TxOuts tx2;
                  btcwire.LockTime := 0 |} in
    Spend.generateSig Sign tx2 (Spend.privKey reqArgs) (btcwire.PkScript oldTxOut)
    = Return sig /\
    hist = [tx3; tx2; tx1; btcwire.NewMsgTx] ++ h /\
    out = Spend.dumpHex tx3.
Proof.
  intros E. unfold Spend.main in E.
  apply bindM_Return_inv in E. destruct E as [reqArgs [h1 [E1 E]]].
  apply lift_Return_inv in E1. destruct E1 as [E1 ->].
  apply bindM_Return_inv in E. destruct E as [rawtx [h2 [E2 E]]].
  apply lift_Return_inv in E2. destruct E2 as [E2 ->].
  apply bindM_Return_inv in E. destruct E as [[oldTxOut outpoint] [h3 [E3 E]]].
  apply lift_Return_inv in E3. destruct E3 as [E3 ->].
  apply bindM_Return_inv in E. destruct E as [u [h4 [E4 E]]].
  destruct (main_build_history outpoint oldTxOut (Spend.toAddress reqArgs) h)
    as [script [Hs Hb]].
  rewrite Hb in E4. injection E4 as _ <-.
  apply bindM_Return_inv in E. destruct E as [u' [h5 [E5 E]]].
  cbn [app] in E5.
  apply (main_sign_Return_inv _ _ _ _ (Spend.createTxIn outpoint)) in E5;
    [|reflexivity].
  destruct E5 as [sig [Hsig E5]]. injection E5 as _ ->.
  unfold Spend.bindM in E. rewrite getTx_cons in E.
  unfold Spend.ret in E. injection E as Eout Ehist. subst out hist.
  exists reqArgs, rawtx, oldTxOut, outpoint, script, sig.
  repeat split; assumption || reflexivity.
Qed.

(** ** Keys and signatures: sizes *)

Lemma P_pos : 0 < btcec.P.
Proof. reflexivity. Qed.

Lemma double_in_field p : in_field (btcec.double p).
Proof.
  destruct p as [[x y]|]; [|exact I]. unfold btcec.double.
  destruct (y =? 0); [exact I|]. cbv beta zeta. unfold in_field.
  split; apply Z.mod_pos_bound, P_pos.
Qed.

Lemma add_in_field p q : in_field p -> in_field q -> in_field (btcec.add p q).
Proof.
  intros Hp Hq. destruct p as [[x1 y1]|], q as [[x2 y2]|];
    try assumption; try exact I.
  unfold btcec.add. destruct (x1 =? x2).
  - destruct (y1 =? y2); [apply double_in_field|exact I].
  - cbv beta zeta. unfold in_field. split; apply Z.mod_pos_bound, P_pos.
Qed.

Lemma mul_in_field k p : in_field p -> in_field (btcec.mul k p).
Proof.
  intros Hp. induction k as [k IH|k IH|]; cbn [btcec.mul].
  - apply add_in_field; [apply double_in_field|assumption].
  - apply double_in_field.
  - assumption.
Qed.

Lemma ScalarBaseMult_range k :
  0 <= btcec.X (btcec.ScalarBaseMult k) < btcec.P.
Proof.
  unfold btcec.ScalarBaseMult.
  destruct k as [|k|k]; cbn [btcec.X]; try (split; [lia|apply P_pos]).
  assert (H : in_field (btcec.mul k (Some (btcec.Gx, btcec.Gy)))).
  { apply mul_in_field. unfold in_field.
    repeat split; (discriminate || reflexivity). }
  destruct (btcec.mul k (Some (btcec.Gx, btcec.Gy))) as [[x y]|]; cbn [btcec.X].
  - apply H.
  - split; [lia|apply P_pos].
Qed.

Lemma P_lt_2_256 : btcec.P < 2 ^ 256.
Proof. reflexivity. Qed.



Lemma canonicalizeInt_length v :
  0 <= v < 2 ^ 256 -> (length (btcec.canonicalizeInt v) <= 33)%nat.
Proof.
  intros H. unfold btcec.canonicalizeInt.
  assert (Hb : (length (big_Bytes v) <= 32)%nat).
  { apply big_Bytes_length_le. rewrite Z.abs_eq by lia.
    change (8 * Z.of_nat 32) with 256. lia. }
  destruct (big_Bytes v) as [|b rest]; cbn [length] in *; [lia|].
  destruct (128 <=? b); cbn [length]; lia.
Qed.

Lemma SerializeSig_length sig :
  0 <= btcec.R sig < 2 ^ 256 -> 0 <= btcec.S sig < 2 ^ 256 ->
  (length (btcec.SerializeSig sig) <= 72)%nat.
Proof.
  intros Hr Hs. unfold btcec.SerializeSig. cbv zeta.
  pose proof (canonicalizeInt_length _ Hr).
  pose proof (canonicalizeInt_length _ Hs).
  rewrite !length_app. cbn [length]. lia.
Qed.

Lemma AddData_short data :
  (length data < 76)%nat ->
  btcscript.AddData data = Z.of_nat (length data) :: data.
Proof.
  intros H. unfold btcscript.AddData, btcscript.OP_PUSHDATA1. cbv zeta.
  destruct (Z.ltb_spec (Z.of_nat (length data)) 76); [reflexivity|lia].
Qed.

Lemma signWithNonce_range k key h sig :
  btcec.signWithNonce k key h = Ok sig ->
  0 <= btcec.R sig < 2 ^ 256 /\ 0 <= btcec.S sig < 2 ^ 256.
Proof.
  unfold btcec.signWithNonce.
  assert (HN : 0 < btcec.N) by reflexivity.
  assert (HN' : btcec.N < 2 ^ 256) by reflexivity.
  pose proof (Z.mod_pos_bound
                (btcec.X (btcec.ScalarBaseMult (k mod btcec.N))) _ HN) as Hr.
  set (r := btcec.X (btcec.ScalarBaseMult (k mod btcec.N)) mod btcec.N) in *.
  pose proof (Z.mod_pos_bound
                (btcec.invmod k btcec.N * (be_to_Z h + r * btcec.D key)) _ HN) as Hs.
  set (s := (btcec.invmod k btcec.N * (be_to_Z h + r * btcec.D key)) mod btcec.N) in *.
  clearbody r s. cbv zeta.
  destruct (_ || _); [discriminate|].
  intros E. injection E as <-. cbn [btcec.R btcec.S]. lia.
Qed.

(** ** generateSig *)

(** What [generateSig] does with a subscript that is not empty and parses:
    it asks the engine to sign the signature hash and wraps the answer. *)
Lemma generateSig_unfold Sign tx privkey scriptPubKey pops :
  scriptPubKey <> [] ->
  btcscript.parseScript scriptPubKey = Ok pops ->
  Spend.generateSig Sign tx privkey scriptPubKey
  = scriptOfSignature privkey
      (Sign privkey
         (btcscript.calcScriptHash scriptPubKey btcscript.SigHashAll tx 0)).
Proof.
  intros Hne Hp.
  unfold Spend.generateSig, btcscript.SignatureScript,
    btcscript.RawTxInSignature, scriptOfSignature.
  destruct scriptPubKey as [|b rest]; [contradiction|].
  rewrite Hp. cbv zeta. destruct (Sign privkey _); reflexivity.
Qed.

(** A subscript that is empty or does not parse ends [generateSig] with
    [log.Fatal], whatever the engine is. *)
Lemma generateSig_malformed Sign tx privkey scriptPubKey :
  scriptPubKey = [] \/ (exists e, btcscript.parseScript scriptPubKey = Err e) ->
  exists e, Spend.generateSig Sign tx privkey scriptPubKey = LogFatal e.
Proof.
  unfold Spend.generateSig, btcscript.SignatureScript, btcscript.RawTxInSignature.
  intros [->|[e He]].
  - eexists. reflexivity.
  - destruct scriptPubKey as [|b rest]; [eexists; reflexivity|].
    rewrite He. eexists. reflexivity.
Qed.

(** A script [generateSig] returns is the script of a signature the engine
    gave for the signature hash; the subscript was not empty and parsed. *)
Lemma generateSig_Return_inv Sign tx privkey scriptPubKey scriptSig :
  Spend.generateSig Sign tx privkey scriptPubKey = Return scriptSig ->
  scriptPubKey <> [] /\
  (exists pops, btcscript.parseScript scriptPubKey = Ok pops) /\
  exists sig,
    Sign privkey (btcscript.calcScriptHash scriptPubKey btcscript.SigHashAll tx 0)
    = Ok sig /\
    scriptSig
    = btcscript.AddData (btcec.SerializeSig sig
                         ++ [btcscript.hashTypeByte btcscript.SigHashAll])
      ++ btcscript.AddData (btcec.SerializeCompressed (btcec.PubKey privkey)).
Proof.
  intros E.
  assert (Hne : scriptPubKey <> []).
  { intros ->. discriminate E. }
  destruct (btcscript.parseScript scriptPubKey) as [pops|e] eqn:Hp.
  2:{ destruct (generateSig_malformed Sign tx privkey scriptPubKey) as [e' He'];
        [right; now exists e|]. rewrite He' in E. discriminate E. }
  split; [exact Hne|]. split; [now exists pops|].
  rewrite (generateSig_unfold _ _ _ _ pops Hne Hp) in E.
  destruct (Sign privkey _) as [sig|e]; [|discriminate].
  exists sig. split; [reflexivity|]. injection E as <-. reflexivity.
Qed.

(** The signature of the sample transaction under the key 0x01 and the nonce 1. *)
Example generateSig_sample :
  option_map hex.EncodeToString
    (match Spend.generateSig Sample.Sign (Sample.unsigned 40000)
             Sample.priv Sample.pkScript with
     | Return s => Some s
     | _ => None
     end)
  = Some ("48" ++ "3045"
          ++ "022079be667ef9dcbbac55a06295ce870b07029bfcdb2dce28d959f2815b16f81798"
          ++ "022100db1d6be86b7935605d4b8e0bb28e4540c441cd3860f8f6296c08689340855483"
          ++ "01"
          ++ "21" ++ "0279be667ef9dcbbac55a06295ce870b07029bfcdb2dce28d959f2815b16f81798")%string.
Proof. vm_compute. reflexivity. Qed.

Example signature_hash_sample :
  hex.EncodeToString
    (btcscript.calcScriptHash Sample.pkScript btcscript.SigHashAll
       (Sample.unsigned 40000) 0)
  = "615f0569719c79b407ab2b75e4073a39c1a5d05d332acd501215e738298d3ceb".
Proof. vm_compute. reflexivity. Qed.

(** Two engines with different nonces sign the same digest and give
    different scripts. *)
Example two_nonces_one_digest :
  Spend.generateSig (btcec.signWithNonce 1) (Sample.unsigned 40000)
    Sample.priv Sample.pkScript
  <> Spend.generateSig (btcec.signWithNonce 2) (Sample.unsigned 40000)
       Sample.priv Sample.pkScript.
Proof. vm_compute. discriminate. Qed.

(** ** The order of construction and signing in [main] *)

(** The signature hash does not read the unlocking script of the input it
    is computed for. *)
Lemma calcScriptHash_ignores_script subscript hashType version outpoint s1 s2
      sequence outs lockTime :
  btcscript.calcScriptHash subscript hashType
    {| btcwire.Version := version;
       btcwire.TxIns := [ {| btcwire.PreviousOutPoint := outpoint;
                             btcwire.SignatureScript := s1;
                             btcwire.Sequence := sequence |} ];
       btcwire.TxOuts := outs; btcwire.LockTime := lockTime |} 0
  = btcscript.calcScriptHash subscript hashType
      {| btcwire.Version := version;
         btcwire.TxIns := [ {| btcwire.PreviousOutPoint := outpoint;
                               btcwire.SignatureScript := s2;
                               btcwire.Sequence := sequence |} ];
         btcwire.TxOuts := outs; btcwire.LockTime := lockTime |} 0.
Proof. reflexivity. Qed.

(** C5: in a run of [main] the pointer [tx] takes four values after the
    empty transaction.  The input is made with an empty unlocking script and
    still has it in the transaction the signature is computed from; the
    write of the signature is the last change, it touches the unlocking
    script of that input only, and the transaction it leaves is the one
    printed. *)
Theorem main_signing_is_terminal
    (fetch : string -> result Spend.blockChainInfoTx)
    (Sign : btcec.PrivateKey -> list Z -> result btcec.Signature)
    (a k t : string) (v : Z) (h : list btcwire.MsgTx)
    (out : string) (hist : list btcwire.MsgTx) :
  Spend.main fetch Sign a k t v h = Return (out, hist) ->
  exists tx1 tx2 tx3 txin sig privkey scriptPubKey,
    hist = [tx3; tx2; tx1; btcwire.NewMsgTx] ++ h /\
    btcwire.SignatureScript txin = [] /\
    btcwire.TxIns tx1 = [txin] /\
    btcwire.TxIns tx2 = [txin] /\
    Spend.generateSig Sign tx2 privkey scriptPubKey = Return sig /\
    btcwire.Version tx3 = btcwire.Version tx2 /\
    btcwire.LockTime tx3 = btcwire.LockTime tx2 /\
    btcwire.TxOuts tx3 = btcwire.TxOuts tx2 /\
    btcwire.TxIns tx3
    = [ {| btcwire.PreviousOutPoint := btcwire.PreviousOutPoint txin;
           btcwire.SignatureScript := sig;
           btcwire.Sequence := btcwire.Sequence txin |} ] /\
    out = Spend.dumpHex tx3.
Proof.
  intros E. apply main_Return_inv in E.
  destruct E as (reqArgs & rawtx & oldTxOut & outpoint & script & sig
                 & _ & _ & _ & _ & E).
  cbv zeta in E. destruct E as (Hsig & Hhist & Hout).
  do 3 eexists.
  exists (Spend.createTxIn outpoint), sig, (Spend.privKey reqArgs),
    (btcwire.PkScript oldTxOut).
  split; [exact Hhist|].
  split; [reflexivity|]. split; [reflexivity|]. split; [reflexivity|].
  split; [exact Hsig|].
  split; [reflexivity|]. split; [reflexivity|]. split; [reflexivity|].
  split; [reflexivity|exact Hout].
Qed.

(** X14: the digest that was signed is the signature hash of the transaction
    that is printed: the write of line 180 does not invalidate the signature. *)
Corollary main_signed_digest_is_final
    (fetch : string -> result Spend.blockChainInfoTx)
    (Sign : btcec.PrivateKey -> list Z -> result btcec.Signature)
    (a k t : string) (v : Z) (h : list btcwire.MsgTx)
    (out : string) (hist : list btcwire.MsgTx) :
  Spend.main fetch Sign a k t v h = Return (out, hist) ->
  exists tx2 tx3 rest sig privkey scriptPubKey,
    hist = tx3 :: tx2 :: rest /\
    Spend.generateSig Sign tx2 privkey scriptPubKey = Return sig /\
    btcscript.calcScriptHash scriptPubKey btcscript.SigHashAll tx3 0
    = btcscript.calcScriptHash scriptPubKey btcscript.SigHashAll tx2 0.
Proof.
  intros E. apply main_Return_inv in E.
  destruct E as (reqArgs & rawtx & oldTxOut & outpoint & script & sig
                 & _ & _ & _ & _ & E).
  cbv zeta in E. destruct E as (Hsig & Hhist & _).
  do 3 eexists. exists sig, (Spend.privKey reqArgs), (btcwire.PkScript oldTxOut).
  split; [exact Hhist|]. split; [exact Hsig|].
  apply calcScriptHash_ignores_script.
Qed.

(** What [main] prints on the sample inputs. *)
Example main_sample :
  exists hist,
    sampleRun
    = Return
        ("0100000001"
         ++ "0100000000000000000000000000000000000000000000000000000000000000"
         ++ "00000000" ++ "6b"
         ++ "483045022079be667ef9dcbbac55a06295ce870b07029bfcdb2dce28d959f2815b16f81798"
         ++ "022100db1d6be86b7935605d4b8e0bb28e4540c441cd3860f8f6296c0868934085548301"
         ++ "210279be667ef9dcbbac55a06295ce870b07029bfcdb2dce28d959f2815b16f81798"
         ++ "ffffffff" ++ "01" ++ "409c000000000000"
         ++ "1976a914751e76e8199196d454941c45d1b3a323f1433bd688ac"
         ++ "00000000", hist)%string.
Proof. eexists. vm_compute. reflexivity. Qed.

(** C5, witness: the run of [main] on the sample inputs. *)
Lemma main_signing_is_terminal_witness :
  exists out hist,
    sampleRun = Return (out, hist) /\
    exists tx1 tx2 tx3 txin sig privkey scriptPubKey,
      hist = [tx3; tx2; tx1; btcwire.NewMsgTx] ++ [] /\
      btcwire.SignatureScript txin = [] /\
      btcwire.TxIns tx1 = [txin] /\
      btcwire.TxIns tx2 = [txin] /\
      Spend.generateSig Sample.Sign tx2 privkey scriptPubKey = Return sig /\
      btcwire.Version tx3 = btcwire.Version tx2 /\
      btcwire.LockTime tx3 = btcwire.LockTime tx2 /\
      btcwire.TxOuts tx3 = btcwire.TxOuts tx2 /\
      btcwire.TxIns tx3
      = [ {| btcwire.PreviousOutPoint := btcwire.PreviousOutPoint txin;
             btcwire.SignatureScript := sig;
             btcwire.Sequence := btcwire.Sequence txin |} ] /\
      out = Spend.dumpHex tx3.
Proof.
  eexists. eexists. split; [vm_compute; reflexivity|].
  apply (main_signing_is_terminal
           (Sample.fetch (Sample.funding Sample.txidA 50000)) Sample.Sign
           Sample.address "01" Sample.txidA 0 []).
  vm_compute. reflexivity.
Defined.

(** ** generateAddr *)

Example generateAddr_sample :
  Keypair.generateAddr Sample.G = Return Sample.addr /\
  btcutil.EncodeAddress Sample.addr = Sample.address.
Proof. split; vm_compute; reflexivity. Qed.

(** ** Runs of [main] on inputs nothing checks *)

(** A funding output of 5,000 Satoshi: the printed transaction carries the
    output value -5,000 (78ecffffffffffff on the wire). *)
Example main_negative_output :
  exists hist,
    Spend.main (Sample.fetch (Sample.funding Sample.txidA 5000)) Sample.Sign
      Sample.address "01" Sample.txidA 0 []
    = Return
        ("0100000001"
         ++ "0100000000000000000000000000000000000000000000000000000000000000"
         ++ "00000000" ++ "6b"
         ++ "483045022079be667ef9dcbbac55a06295ce870b07029bfcdb2dce28d959f2815b16f81798"
         ++ "022100c0c5bf3cbad18fa77fb1760727030e989908816610080fce32d3a7b8d567f12f01"
         ++ "210279be667ef9dcbbac55a06295ce870b07029bfcdb2dce28d959f2815b16f81798"
         ++ "ffffffff" ++ "01" ++ "78ecffffffffffff"
         ++ "1976a914751e76e8199196d454941c45d1b3a323f1433bd688ac"
         ++ "00000000", hist)%string.
Proof. eexists. vm_compute. reflexivity. Qed.

(** A transaction id that is not hex: [getArgs] hands a nil hash to
    [lookupTxid], which dereferences it. *)
Example main_nil_txid :
  Spend.main (Sample.fetch (Sample.funding Sample.txidA 50000)) Sample.Sign
    Sample.address "01" "not a hash" 0 []
  = GoPanic NilDereference.
Proof. vm_compute. reflexivity. Qed.

(** The output index -2: [getArgs] turns it into 4294967294, and indexing the
    outputs of the funding transaction panics. *)
Example main_vout_minus_two :
  Spend.main (Sample.fetch (Sample.funding Sample.txidA 50000)) Sample.Sign
    Sample.address "01" Sample.txidA (-2) []
  = GoPanic IndexOutOfRange.
Proof. vm_compute. reflexivity. Qed.

Lemma is_byteb_spec x : is_byteb x = true <-> 0 <= x < 256.
Proof. unfold is_byteb. rewrite andb_true_iff, Z.leb_le, Z.ltb_lt. tauto. Qed.

Lemma fromHexChar_hexDigit n :
  0 <= n < 16 -> hex.fromHexChar (hex.hexDigit n) = Some n.
Proof.
  intros H.
  assert (E : In n (map Z.of_nat (seq 0 16))).
  { apply in_map_iff. exists (Z.to_nat n). split; [lia|]. apply in_seq. lia. }
  cbn in E. repeat (destruct E as [<-|E]; [reflexivity|]). destruct E.
Qed.

Lemma fromHexChar_Some c a :
  hex.fromHexChar c = Some a -> 0 <= a < 16 /\ hex.hexDigit a = lowerHex c.
Proof.
  destruct c as [b0 b1 b2 b3 b4 b5 b6 b7].
  destruct b0, b1, b2, b3, b4, b5, b6, b7; cbv;
    intros E; try discriminate E;
    (injection E as <-; split; [split; (reflexivity || discriminate)|reflexivity]).
Qed.

Lemma encode_chars_cons x b :
  list_ascii_of_string (hex.EncodeToString (x :: b))
  = hex.hexDigit (x / 16 mod 16) :: hex.hexDigit (x mod 16)
    :: list_ascii_of_string (hex.EncodeToString b).
Proof.
  unfold hex.EncodeToString. rewrite !list_ascii_of_string_of_list_ascii.
  reflexivity.
Qed.

(** Decoding the hex of a byte string gives the byte string back. *)
Lemma hex_decode_encode b :
  bytes_okb b = true -> hex.DecodeString (hex.EncodeToString b) = Ok b.
Proof.
  unfold hex.DecodeString. induction b as [|x b IH]; intros H; [reflexivity|].
  cbn [bytes_okb forallb] in H. apply andb_true_iff in H. destruct H as [Hx Hb].
  apply is_byteb_spec in Hx.
  rewrite encode_chars_cons. cbn [hex.decode].
  rewrite !fromHexChar_hexDigit
    by (try apply Z.mod_pos_bound; lia).
  fold (bytes_okb b) in Hb. rewrite (IH Hb).
  f_equal. f_equal. 
  pose proof (Z.div_mod x 16 ltac:(lia)).
  rewrite (Z.mod_small (x / 16) 16); [lia|].
  split; [apply Z.div_pos; lia|apply Z.div_lt_upper_bound; lia].
Qed.

Lemma string_of_list_ascii_length l :
  String.length (string_of_list_ascii l) = length l.
Proof. induction l as [|c l IH]; [reflexivity|]. cbn. now rewrite IH. Qed.

Lemma list_ascii_of_string_length s :
  length (list_ascii_of_string s) = String.length s.
Proof. induction s as [|c s IH]; [reflexivity|]. cbn. now rewrite IH. Qed.

Lemma hex_encode_length b :
  String.length (hex.EncodeToString b) = (2 * length b)%nat.
Proof.
  unfold hex.EncodeToString. rewrite string_of_list_ascii_length.
  induction b as [|x b IH]; [reflexivity|].
  cbn [flat_map app length]. rewrite IH. lia.
Qed.

(** Induction two characters at a time. *)
Lemma list_pair_ind {A} (P : list A -> Prop) :
  P [] -> (forall x, P [x]) ->
  (forall x y l, P l -> P (x :: y :: l)) ->
  forall l, P l.
Proof.
  intros H0 H1 H2.
  assert (H : forall l, P l /\ forall x, P (x :: l)).
  { induction l as [|y l [IH1 IH2]]; split; auto. }
  intros l. apply H.
Qed.

(** What a successful decoding says of the string: it has two characters
    per byte, the bytes are bytes, and encoding them gives the string back
    in lower case. *)
Lemma hex_decode_Ok s b :
  hex.decode s = Ok b ->
  length s = (2 * length b)%nat /\
  bytes_okb b = true /\
  list_ascii_of_string (hex.EncodeToString b) = map lowerHex s.
Proof.
  revert b. induction s as [|c|p q s IH] using list_pair_ind; intros b.
  - intros E. injection E as <-. repeat split.
  - cbn [hex.decode]. destruct (hex.fromHexChar c); discriminate.
  - cbn [hex.decode].
    destruct (hex.fromHexChar p) as [a1|] eqn:Ep; [|discriminate].
    destruct (hex.fromHexChar q) as [a2|] eqn:Eq; [|discriminate].
    destruct (hex.decode s) as [l|e]; [|discriminate].
    intros E. injection E as <-.
    destruct (IH l eq_refl) as (Hl & Hok & Henc).
    apply fromHexChar_Some in Ep, Eq. destruct Ep as [R1 L1], Eq as [R2 L2].
    split; [cbn [length]; lia|]. split.
    + cbn [bytes_okb forallb]. fold (bytes_okb l). rewrite Hok, andb_true_r.
      apply is_byteb_spec. lia.
    + rewrite encode_chars_cons, Henc. cbn [map]. 
      replace ((a1 * 16 + a2) / 16 mod 16) with a1.
      2:{ rewrite Z.div_add_l by lia. rewrite (Z.div_small a2) by lia.
          rewrite Z.add_0_r, Z.mod_small; lia. }
      replace ((a1 * 16 + a2) mod 16) with a2.
      2:{ rewrite Z.add_comm, Z.mod_add by lia. rewrite Z.mod_small; lia. }
      now rewrite L1, L2.
Qed.

Lemma Ok_inj {A} (x y : A) : Ok x = Ok y -> x = y.
Proof. intros E. congruence. Qed.

Lemma bytes_okb_app a b : bytes_okb (a ++ b) = bytes_okb a && bytes_okb b.
Proof. apply forallb_app. Qed.

Lemma bytes_okb_rev a : bytes_okb (rev a) = bytes_okb a.
Proof.
  induction a as [|x a IH]; [reflexivity|].
  cbn [rev]. rewrite bytes_okb_app, IH. cbn. now rewrite andb_true_r, andb_comm.
Qed.

Lemma bytes_okb_repeat0 n : bytes_okb (repeat 0 n) = true.
Proof. induction n as [|n IH]; [reflexivity|]. cbn. exact IH. Qed.

Lemma encode_chars_app a b :
  list_ascii_of_string (hex.EncodeToString (a ++ b))
  = list_ascii_of_string (hex.EncodeToString a)
    ++ list_ascii_of_string (hex.EncodeToString b).
Proof.
  unfold hex.EncodeToString. rewrite !list_ascii_of_string_of_list_ascii.
  apply flat_map_app.
Qed.

Lemma encode_chars_zeros n :
  list_ascii_of_string (hex.EncodeToString (repeat 0 n)) = repeat "0"%char (2 * n).
Proof.
  induction n as [|n IH]; [reflexivity|].
  cbn [repeat]. rewrite encode_chars_cons, IH.
  replace (2 * Datatypes.S n)%nat with (Datatypes.S (Datatypes.S (2 * n))) by lia.
  reflexivity.
Qed.

Lemma string_of_chars s : string_of_list_ascii (list_ascii_of_string s) = s.
Proof. apply string_of_list_ascii_of_string. Qed.

Lemma repeat_snoc {A} (x : A) n : repeat x n ++ [x] = x :: repeat x n.
Proof. induction n as [|n IH]; [reflexivity|]. cbn. now rewrite IH. Qed.

(** A hash read from a string has 32 bytes, and its string is the string it
    was read from, in lower case and with zeros in front up to 64 characters. *)
Lemma NewShaHashFromStr_Ok t h :
  btcwire.NewShaHashFromStr t = Ok h ->
  length h = 32%nat /\ bytes_okb h = true /\
  btcwire.ShaHash_String h = canonicalTxid t.
Proof.
  unfold btcwire.NewShaHashFromStr, btcwire.MaxHashStringSize, btcwire.HashSize.
  destruct (Nat.ltb_spec 64 (String.length t)) as [Hlen|Hlen]; [discriminate|].
  set (t' := if Nat.odd (String.length t) then String "0" t else t).
  unfold hex.DecodeString.
  destruct (hex.decode (list_ascii_of_string t')) as [buf|e] eqn:Ed; [|discriminate].
  intros E. apply Ok_inj in E. subst h.
  destruct (hex_decode_Ok _ _ Ed) as (Hl & Hok & Henc).
  rewrite list_ascii_of_string_length in Hl.
  assert (Ht' : (String.length t' = String.length t + (if Nat.odd (String.length t) then 1 else 0))%nat).
  { unfold t'. destruct (Nat.odd (String.length t)); cbn [String.length]; lia. }
  assert (Hodd : Nat.odd (String.length t) = true -> (String.length t < 64)%nat).
  { intros Ho. assert (String.length t <> 64%nat); [|lia].
    intros E64. rewrite E64 in Ho. discriminate. }
  assert (Hbuf : (length buf <= 32)%nat).
  { destruct (Nat.odd (String.length t)); [specialize (Hodd eq_refl)|]; lia. }
  split; [rewrite length_app, length_rev, repeat_length; lia|].
  split.
  - rewrite bytes_okb_app, bytes_okb_rev, Hok, bytes_okb_repeat0. reflexivity.
  - unfold btcwire.ShaHash_String, canonicalTxid.
    rewrite <- (string_of_chars (hex.EncodeToString _)). f_equal.
    rewrite rev_app_distr, rev_involutive, rev_repeat.
    rewrite encode_chars_app, encode_chars_zeros, Henc.
    unfold t' in *. destruct (Nat.odd (String.length t)).
    + cbn [list_ascii_of_string map].
      change (lowerHex "0") with "0"%char.
      replace (64 - String.length t)%nat with (Datatypes.S (2 * (32 - length buf))) by lia.
      cbn [repeat]. rewrite <- repeat_snoc, <- app_assoc. reflexivity.
    + replace (64 - String.length t)%nat with (2 * (32 - length buf))%nat by lia.
      reflexivity.
Qed.

(** Reading the string of a 32-byte hash gives the hash back. *)
Lemma NewShaHashFromStr_String h :
  length h = 32%nat -> bytes_okb h = true ->
  btcwire.NewShaHashFromStr (btcwire.ShaHash_String h) = Ok h.
Proof.
  intros Hl Hok.
  unfold btcwire.NewShaHashFromStr, btcwire.ShaHash_String,
    btcwire.MaxHashStringSize, btcwire.HashSize.
  rewrite hex_encode_length, length_rev, Hl. cbn [Nat.ltb Nat.leb Nat.mul Nat.add Nat.odd Nat.even negb].
  change (Nat.odd (2 * 32)) with false. cbv iota.
  rewrite hex_decode_encode by now rewrite bytes_okb_rev.
  rewrite rev_involutive, length_rev, Hl. cbn [Nat.sub repeat]. now rewrite app_nil_r.
Qed.

(** ** Big-endian numbers *)

Lemma be_to_Z_snoc b x : be_to_Z (b ++ [x]) = be_to_Z b * 256 + x.
Proof. unfold be_to_Z. now rewrite fold_left_app. Qed.

Lemma be_to_Z_bound b :
  bytes_okb b = true -> 0 <= be_to_Z b < 256 ^ Z.of_nat (length b).
Proof.
  induction b as [|x b IH] using rev_ind; intros H.
  - cbn. lia.
  - rewrite bytes_okb_app in H. apply andb_true_iff in H. destruct H as [Hb Hx].
    cbn in Hx. rewrite andb_true_r in Hx. apply is_byteb_spec in Hx.
    specialize (IH Hb). rewrite be_to_Z_snoc, length_app. cbn [length].
    replace (Z.of_nat (length b + 1)) with (Z.of_nat (length b) + 1) by lia.
    rewrite Z.pow_add_r by lia. lia.
Qed.

Lemma le_bytes_be_to_Z b :
  bytes_okb b = true -> le_bytes (length b) (be_to_Z b) = rev b.
Proof.
  induction b as [|x b IH] using rev_ind; intros H; [reflexivity|].
  rewrite bytes_okb_app in H. apply andb_true_iff in H. destruct H as [Hb Hx].
  cbn in Hx. rewrite andb_true_r in Hx. apply is_byteb_spec in Hx.
  rewrite be_to_Z_snoc, length_app, rev_app_distr. cbn [length rev app].
  replace (length b + 1)%nat with (Datatypes.S (length b)) by lia.
  cbn [le_bytes].
  rewrite Z.add_comm, Z.mod_add, Z.div_add, (Z.mod_small x), (Z.div_small x) by lia.
  cbn [Z.add]. now rewrite IH.
Qed.

Lemma be_bytes_be_to_Z b :
  bytes_okb b = true -> be_bytes (length b) (be_to_Z b) = b.
Proof.
  intros H. unfold be_bytes. rewrite le_bytes_be_to_Z by assumption.
  apply rev_involutive.
Qed.

Lemma be_to_Z_cons x b : be_to_Z (x :: b) = x * 256 ^ Z.of_nat (length b) + be_to_Z b.
Proof.
  revert x. induction b as [|y b IH] using rev_ind; intros x.
  - cbn. lia.
  - rewrite app_comm_cons, !be_to_Z_snoc, IH, length_app. cbn [length].
    replace (Z.of_nat (length b + 1)) with (Z.of_nat (length b) + 1) by lia.
    rewrite Z.pow_add_r by lia. lia.
Qed.

Lemma be_to_Z_zeros z b : be_to_Z (repeat 0 z ++ b) = be_to_Z b.
Proof.
  induction z as [|z IH]; [reflexivity|].
  cbn [repeat app]. rewrite be_to_Z_cons, IH. lia.
Qed.

Lemma big_Bytes_0 : big_Bytes 0 = [].
Proof. reflexivity. Qed.

(** The bytes of the number a byte string denotes are the byte string, when
    it does not start with a zero byte. *)
Lemma big_Bytes_be_to_Z h t :
  bytes_okb (h :: t) = true -> h <> 0 ->
  big_Bytes (be_to_Z (h :: t)) = h :: t.
Proof.
  intros Hok Hh.
  pose proof (be_to_Z_bound _ Hok) as Hb.
  assert (Hok' := Hok). cbn [bytes_okb forallb] in Hok'.
  apply andb_true_iff in Hok'. destruct Hok' as [Hhb Ht].
  apply is_byteb_spec in Hhb. fold (bytes_okb t) in Ht.
  pose proof (be_to_Z_bound _ Ht) as Hbt.
  rewrite be_to_Z_cons in *. cbn [length] in Hb.
  set (n := Z.of_nat (length t)) in *.
  assert (Hn : 0 <= n) by lia.
  assert (Hp : 0 < 256 ^ n) by (apply Z.pow_pos_nonneg; lia).
  set (x := h * 256 ^ n + be_to_Z t) in *.
  assert (Hx1 : 256 ^ n <= x) by (unfold x; nia).
  assert (Hx2 : x < 256 ^ (n + 1)).
  { replace (Z.of_nat (Datatypes.S (length t))) with (n + 1) in Hb by lia. lia. }
  unfold big_Bytes. rewrite Z.abs_eq by lia.
  destruct (Z.eqb_spec x 0); [lia|].
  assert (E256 : forall m, 0 <= m -> 256 ^ m = 2 ^ (8 * m)).
  { intros m Hm. rewrite Z.pow_mul_r by lia. reflexivity. }
  rewrite E256 in Hx1 by lia. rewrite E256 in Hx2 by lia.
  apply Z.log2_le_pow2 in Hx1; [|lia].
  apply Z.log2_lt_pow2 in Hx2; [|lia].
  assert (El : Z.log2 x / 8 = n).
  { symmetry. apply (Z.div_unique _ 8 n (Z.log2 x - 8 * n)); lia. }
  rewrite El.
  replace (Z.to_nat (n + 1)) with (length (h :: t)) by (cbn [length]; lia).
  unfold x, n. rewrite <- be_to_Z_cons. apply be_bytes_be_to_Z. exact Hok.
Qed.

(** ** Base 58 *)

Lemma alphabet_index d :
  (d < 58)%nat ->
  base58.index (nth d base58.alphabet "1"%char) base58.alphabet 0 = Some (Z.of_nat d).
Proof.
  intros H. assert (E : In d (seq 0 58)) by (apply in_seq; lia).
  cbn [seq] in E.
  repeat (destruct E as [<-|E]; [vm_compute; reflexivity|]). destruct E.
Qed.

Lemma alphabet_not_one d :
  (0 < d < 58)%nat ->
  base58.ascii_eqb (nth d base58.alphabet "1"%char) "1"%char = false.
Proof.
  intros H. assert (E : In d (seq 1 57)) by (apply in_seq; lia).
  cbn [seq] in E.
  repeat (destruct E as [<-|E]; [vm_compute; reflexivity|]). destruct E.
Qed.

Lemma value_app l1 l2 acc :
  base58.value (l1 ++ l2) acc
  = match base58.value l1 acc with
    | Some a => base58.value l2 a
    | None => None
    end.
Proof.
  revert acc. induction l1 as [|c l1 IH]; intros acc; [reflexivity|].
  cbn [app base58.value]. destruct (base58.index c base58.alphabet 0); [apply IH|reflexivity].
Qed.

Lemma value_ones z l :
  base58.value (repeat "1"%char z ++ l) 0 = base58.value l 0.
Proof.
  induction z as [|z IH]; [reflexivity|].
  cbn [repeat app base58.value].
  change (base58.index "1" base58.alphabet 0) with (Some 0). exact IH.
Qed.

Lemma digits_0 fuel : base58.digits fuel 0 = [].
Proof. destruct fuel; reflexivity. Qed.

Lemma digits_value fuel x :
  0 <= x < 58 ^ Z.of_nat fuel ->
  base58.value (rev (base58.digits fuel x)) 0 = Some x.
Proof.
  revert x. induction fuel as [|fuel IH]; intros x Hx.
  - cbn in Hx. assert (x = 0) by lia. subst. reflexivity.
  - cbn [base58.digits]. destruct (Z.leb_spec x 0) as [H0|H0].
    + assert (x = 0) by lia. subst. reflexivity.
    + cbn [rev]. rewrite value_app, IH.
      * cbn [base58.value].
        pose proof (Z.mod_pos_bound x 58 ltac:(lia)) as Hm.
        rewrite alphabet_index by lia.
        f_equal. rewrite Z2Nat.id by lia. pose proof (Z.div_mod x 58 ltac:(lia)). lia.
      * replace (Z.of_nat (Datatypes.S fuel)) with (Z.of_nat fuel + 1) in Hx by lia.
        rewrite Z.pow_add_r in Hx by lia.
        split; [apply Z.div_pos; lia|apply Z.div_lt_upper_bound; lia].
Qed.

(** The most significant digit of a positive number is not the digit zero. *)
Lemma digits_msd fuel x :
  0 < x < 58 ^ Z.of_nat fuel ->
  exists l d, base58.digits fuel x = l ++ [nth d base58.alphabet "1"%char] /\
              (0 < d < 58)%nat.
Proof.
  revert x. induction fuel as [|fuel IH]; intros x Hx.
  - cbn in Hx. lia.
  - cbn [base58.digits]. destruct (Z.leb_spec x 0) as [H0|H0]; [lia|].
    pose proof (Z.mod_pos_bound x 58 ltac:(lia)) as Hm.
    destruct (Z.eq_dec (x / 58) 0) as [Eq|Eq].
    + rewrite Eq, digits_0. exists [], (Z.to_nat (x mod 58)). split; [reflexivity|].
      pose proof (Z.div_mod x 58 ltac:(lia)). lia.
    + destruct (IH (x / 58)) as (l & d & El & Hd).
      * replace (Z.of_nat (Datatypes.S fuel)) with (Z.of_nat fuel + 1) in Hx by lia.
        rewrite Z.pow_add_r in Hx by lia.
        assert (0 <= x / 58) by (apply Z.div_pos; lia).
        split; [lia|apply Z.div_lt_upper_bound; lia].
      * rewrite El. exists (nth (Z.to_nat (x mod 58)) base58.alphabet "1"%char :: l), d.
        split; [reflexivity|exact Hd].
Qed.

Lemma leadingZeroBytes_ones z l :
  (l = [] \/ exists c l', l = c :: l' /\ base58.ascii_eqb c "1"%char = false) ->
  base58.leadingZeroBytes (repeat "1"%char z ++ l) = repeat 0 z.
Proof.
  intros Hl. induction z as [|z IH].
  - cbn [repeat app]. destruct Hl as [->|(c & l' & -> & Hc)]; [reflexivity|].
    cbn [base58.leadingZeroBytes]. now rewrite Hc.
  - cbn [repeat app base58.leadingZeroBytes].
    change (base58.ascii_eqb "1" "1") with true. cbv iota. now rewrite IH.
Qed.

(** A byte string is a run of zero bytes followed by nothing or by a string
    that starts with a non-zero byte. *)
Lemma leading_zeros_split b :
  exists z b',
    b = repeat 0 z ++ b' /\
    base58.leadingOnes b = repeat "1"%char z /\
    (b' = [] \/ exists h t, b' = h :: t /\ h <> 0).
Proof.
  induction b as [|x b (z & b' & Eb & Eo & Hb')].
  - exists 0%nat, []. repeat split. now left.
  - destruct (Z.eqb_spec x 0) as [->|Hx].
    + exists (Datatypes.S z), b'. cbn [repeat app base58.leadingOnes].
      change (0 =? 0) with true. cbv iota. rewrite <- Eb, Eo. repeat split. exact Hb'.
    + exists 0%nat, (x :: b). cbn [repeat app base58.leadingOnes].
      destruct (Z.eqb_spec x 0); [contradiction|].
      repeat split. right. now exists x, b.
Qed.

Lemma pow58_bound n : 256 ^ Z.of_nat n <= 58 ^ Z.of_nat (2 * n).
Proof.
  induction n as [|n IH]; [cbn; lia|].
  replace (Z.of_nat (Datatypes.S n)) with (Z.of_nat n + 1) by lia.
  replace (Z.of_nat (2 * Datatypes.S n)) with (Z.of_nat (2 * n) + 2) by lia.
  rewrite !Z.pow_add_r by lia.
  assert (0 < 256 ^ Z.of_nat n) by (apply Z.pow_pos_nonneg; lia).
  change (58 ^ 2) with 3364. change (256 ^ 1) with 256. nia.
Qed.

(** Decoding the base-58 string of a byte string gives the byte string back. *)
Lemma base58_Decode_Encode b :
  bytes_okb b = true -> base58.Decode (base58.Encode b) = b.
Proof.
  intros Hok. unfold base58.Decode, base58.Encode.
  rewrite list_ascii_of_string_of_list_ascii.
  destruct (leading_zeros_split b) as (z & b' & Eb & Eo & Hb').
  rewrite rev_app_distr, Eo, rev_repeat.
  pose proof (be_to_Z_bound _ Hok) as Hx.
  pose proof (pow58_bound (length b)) as Hp.
  set (x := be_to_Z b) in *.
  rewrite value_ones, digits_value by lia.
  assert (Hok' : bytes_okb b' = true).
  { rewrite Eb, bytes_okb_app in Hok. apply andb_true_iff in Hok. tauto. }
  assert (Ex : x = be_to_Z b') by (unfold x; rewrite Eb at 1; apply be_to_Z_zeros).
  destruct Hb' as [->|(h & t & -> & Hh)].
  - cbn in Ex. rewrite Ex in *. rewrite digits_0. cbn [rev].
    rewrite leadingZeroBytes_ones by now left. rewrite big_Bytes_0. now rewrite Eb.
  - assert (Hpos : 0 < x).
    { rewrite Ex, be_to_Z_cons. pose proof Hok' as H1.
      cbn [bytes_okb forallb] in H1. apply andb_true_iff in H1. destruct H1 as [H1 H2].
      apply is_byteb_spec in H1. fold (bytes_okb t) in H2.
      pose proof (be_to_Z_bound _ H2).
      assert (0 < 256 ^ Z.of_nat (length t)) by (apply Z.pow_pos_nonneg; lia). nia. }
    destruct (digits_msd (2 * length b) x ltac:(lia)) as (l & d & El & Hd).
    rewrite El, rev_app_distr. cbn [rev app].
    rewrite leadingZeroBytes_ones.
    + rewrite Ex, big_Bytes_be_to_Z by assumption. now rewrite Eb.
    + right. eexists. eexists. split; [reflexivity|]. now apply alphabet_not_one.
Qed.

(** ** Bytes stay bytes *)

Lemma le_bytes_ok n z : bytes_okb (le_bytes n z) = true.
Proof.
  revert z. induction n as [|n IH]; intros z; [reflexivity|].
  cbn [le_bytes bytes_okb forallb]. fold (bytes_okb (le_bytes n (z / 256))).
  rewrite IH, andb_true_r. apply is_byteb_spec. apply Z.mod_pos_bound. lia.
Qed.

Lemma be_bytes_ok n z : bytes_okb (be_bytes n z) = true.
Proof. unfold be_bytes. rewrite bytes_okb_rev. apply le_bytes_ok. Qed.

Lemma sha256_Sum256_ok msg : bytes_okb (sha256.Sum256 msg) = true.
Proof.
  unfold sha256.Sum256, sha256.digest.
  destruct (fold_left _ _ _) as [[[[[[[a b] c] d] e] f] g] h].
  cbn [flat_map]. rewrite !bytes_okb_app, !be_bytes_ok. reflexivity.
Qed.

Lemma ripemd160_Sum_ok msg : bytes_okb (ripemd160.Sum msg) = true.
Proof.
  unfold ripemd160.Sum, ripemd160.digest.
  destruct (fold_left _ _ _) as [[[[a b] c] d] e].
  cbn [flat_map]. rewrite !bytes_okb_app, !le_bytes_ok. reflexivity.
Qed.

Lemma bytes_okb_firstn n b : bytes_okb b = true -> bytes_okb (firstn n b) = true.
Proof.
  revert n. induction b as [|x b IH]; intros [|n] H; try reflexivity.
  cbn [firstn bytes_okb forallb] in *. apply andb_true_iff in H. destruct H as [Hx Hb].
  rewrite Hx. apply IH. exact Hb.
Qed.

Lemma bytes_okb_skipn n b : bytes_okb b = true -> bytes_okb (skipn n b) = true.
Proof.
  revert n. induction b as [|x b IH]; intros [|n] H; try reflexivity; [exact H|].
  cbn [skipn]. cbn [bytes_okb forallb] in H. apply andb_true_iff in H. apply IH, H.
Qed.

Lemma big_Bytes_ok z : bytes_okb (big_Bytes z) = true.
Proof. unfold big_Bytes. destruct (_ =? _); [reflexivity|apply be_bytes_ok]. Qed.

Lemma bytes_eqb_refl b : base58.bytes_eqb b b = true.
Proof.
  unfold base58.bytes_eqb. rewrite Nat.eqb_refl. cbn [andb].
  induction b as [|x b IH]; [reflexivity|].
  cbn [combine forallb fst snd]. now rewrite Z.eqb_refl, IH.
Qed.

Lemma checksum_length b : length (base58.checksum b) = 4%nat.
Proof.
  unfold base58.checksum. rewrite length_firstn, sha256_Sum256_length. reflexivity.
Qed.

(** Decoding a check-encoded payload gives the payload and its version byte
    back. *)
Lemma CheckDecode_CheckEncode input version :
  bytes_okb input = true -> is_byteb version = true ->
  base58.CheckDecode (base58.CheckEncode input version) = Ok (input, version).
Proof.
  intros Hin Hv. unfold base58.CheckDecode, base58.CheckEncode. cbv zeta.
  set (b := version :: input).
  assert (Hb : bytes_okb b = true) by (unfold b; cbn; now rewrite Hv).
  rewrite base58_Decode_Encode.
  2:{ rewrite bytes_okb_app, Hb. unfold base58.checksum.
      apply bytes_okb_firstn, sha256_Sum256_ok. }
  rewrite length_app, checksum_length.
  destruct (Nat.ltb_spec (length b + 4) 5) as [H|H]; [unfold b in H; cbn [length] in H; lia|].
  replace (length b + 4 - 4)%nat with (length b) by lia.
  rewrite firstn_app, Nat.sub_diag, firstn_all. cbn [firstn]. rewrite app_nil_r.
  rewrite skipn_app, Nat.sub_diag, skipn_all. cbn [skipn app].
  rewrite bytes_eqb_refl. reflexivity.
Qed.

(** Decoding the string of a main-network address gives the address back. *)
Lemma DecodeAddress_EncodeAddress addr net :
  length (btcutil.hash addr) = 20%nat ->
  bytes_okb (btcutil.hash addr) = true ->
  is_byteb (btcutil.netID addr) = true ->
  btcutil.netID addr = btcnet.PubKeyHashAddrID net ->
  btcutil.DecodeAddress (btcutil.EncodeAddress addr) net = Ok addr.
Proof.
  intros Hl Hok Hv Hnet. unfold btcutil.DecodeAddress, btcutil.EncodeAddress.
  rewrite CheckDecode_CheckEncode by assumption.
  rewrite Hl. cbn [Nat.eqb ripemd160.Size]. change (20 =? ripemd160.Size)%nat with true.
  cbv iota. rewrite Hnet, Z.eqb_refl. destruct addr as [h n]. cbn in *. now subst.
Qed.

(** ** Keys as bytes *)

Lemma be_to_Z_be_bytes n z : be_to_Z (be_bytes n z) = z mod 256 ^ Z.of_nat n.
Proof.
  revert z. induction n as [|n IH]; intros z.
  - cbn. now rewrite Z.mod_1_r.
  - unfold be_bytes in *. cbn [le_bytes rev]. rewrite be_to_Z_snoc, IH.
    replace (Z.of_nat (Datatypes.S n)) with (1 + Z.of_nat n) by lia.
    rewrite Z.pow_add_r by lia. change (256 ^ 1) with 256.
    rewrite Z.rem_mul_r; [lia|lia|apply Z.pow_pos_nonneg; lia].
Qed.

Lemma be_to_Z_big_Bytes z : 0 <= z -> be_to_Z (big_Bytes z) = z.
Proof.
  intros Hz. unfold big_Bytes. rewrite Z.abs_eq by lia.
  destruct (Z.eqb_spec z 0) as [->|Hnz]; [reflexivity|].
  rewrite be_to_Z_be_bytes. apply Z.mod_small.
  assert (Hpos : 0 < z) by lia.
  destruct (Z.log2_spec z Hpos) as [_ Hlt].
  pose proof (Z.log2_nonneg z) as Hl.
  assert (Hd : 0 <= Z.log2 z / 8) by (apply Z.div_pos; lia).
  rewrite Z2Nat.id by lia.
  replace 256 with (2 ^ 8) by reflexivity. rewrite <- Z.pow_mul_r by lia.
  split; [lia|]. eapply Z.lt_le_trans; [exact Hlt|].
  apply Z.pow_le_mono_r; [lia|].
  pose proof (Z.div_mod (Z.log2 z) 8 ltac:(lia)).
  pose proof (Z.mod_pos_bound (Z.log2 z) 8 ltac:(lia)). lia.
Qed.

Lemma Serialize_priv_be_to_Z priv :
  0 <= btcec.D priv -> be_to_Z (btcec.Serialize priv) = btcec.D priv.
Proof.
  intros H. unfold btcec.Serialize, btcec.paddedAppend. cbn [app].
  rewrite be_to_Z_zeros. now apply be_to_Z_big_Bytes.
Qed.

Lemma Serialize_priv_ok priv : bytes_okb (btcec.Serialize priv) = true.
Proof.
  unfold btcec.Serialize, btcec.paddedAppend. cbn [app].
  now rewrite bytes_okb_app, bytes_okb_repeat0, big_Bytes_ok.
Qed.

Lemma Serialize_priv_length priv :
  0 <= btcec.D priv < 2 ^ 256 -> length (btcec.Serialize priv) = 32%nat.
Proof.
  intros H. unfold btcec.Serialize. rewrite paddedAppend_length; [reflexivity|].
  apply big_Bytes_length_le. rewrite Z.abs_eq by lia.
  change (8 * Z.of_nat 32) with 256. lia.
Qed.

(** * Further properties of the two programs *)

(** ** getArgs: exits and failures *)

(** X1: [getArgs] ends the process through the usage exit exactly when the
    address, the key or the transaction id is empty or the index was left at
    -1, and the exit status is then 0. *)
Theorem getArgs_usage_exit (a k t : string) (v : Z) (c : Z) :
  Spend.getArgs a k t v = OsExit c <->
  c = 0 /\ (a = "" \/ k = "" \/ t = "" \/ v = -1).
Proof.
  unfold Spend.getArgs.
  destruct (String.eqb_spec a "") as [Ha|Ha]; cbn [orb].
  { split; [intros E; injection E as <-; auto|intros [-> _]; reflexivity]. }
  destruct (String.eqb_spec k "") as [Hk|Hk]; cbn [orb].
  { split; [intros E; injection E as <-; auto|intros [-> _]; reflexivity]. }
  destruct (String.eqb_spec t "") as [Ht|Ht]; cbn [orb].
  { split; [intros E; injection E as <-; auto|intros [-> _]; reflexivity]. }
  destruct (Z.eqb_spec v (-1)) as [Hv|Hv].
  { split; [intros E; injection E as <-; auto 6|intros [-> _]; reflexivity]. }
  split.
  - destruct (hex.DecodeString k); cbn [bind orFatal]; [|discriminate].
    cbn [btcec.PrivKeyFromBytes].
    destruct (btcutil.DecodeAddress a btcnet.MainNetParams);
      cbn [bind orFatal]; discriminate.
  - intros [_ [H|[H|[H|H]]]]; contradiction.
Qed.

(** X2: [getArgs] never panics, and the only errors it aborts on are the
    hex error of the key and, when the key decoded, the decoding error of the
    address: the key is looked at first. *)
Theorem getArgs_failures (a k t : string) (v : Z) :
  (forall p, Spend.getArgs a k t v <> GoPanic p) /\
  (forall e, Spend.getArgs a k t v = LogFatal e ->
     hex.DecodeString k = Err e \/
     (exists pkBytes, hex.DecodeString k = Ok pkBytes) /\
     btcutil.DecodeAddress a btcnet.MainNetParams = Err e).
Proof.
  unfold Spend.getArgs. destruct (_ || _).
  { split; [intros p E; discriminate|intros e E; discriminate]. }
  destruct (hex.DecodeString k) as [pkBytes|e1]; cbn [bind orFatal].
  - cbn [btcec.PrivKeyFromBytes].
    destruct (btcutil.DecodeAddress a btcnet.MainNetParams) as [addr|e2];
      cbn [bind orFatal].
    + split; [intros p E; discriminate|intros e E; discriminate].
    + split; [intros p E; discriminate|].
      intros e E. injection E as ->. right. split; [now exists pkBytes|reflexivity].
  - split; [intros p E; discriminate|].
    intros e E. injection E as ->. now left.
Qed.

(** The document [lookupTxid] returns is the one at the URL of the id. *)
Lemma lookupTxid_Return_at_url
    (fetch : string -> result Spend.blockChainInfoTx)
    (t : string) (h : btcwire.ShaHash) (tx : Spend.blockChainInfoTx) :
  btcwire.NewShaHashFromStr t = Ok h ->
  fetch (rawtxURL t) = Ok tx ->
  Spend.Ver tx = 1 ->
  Spend.lookupTxid fetch (ptr (btcwire.NewShaHashFromStr t)) = Return tx.
Proof.
  intros Eh Ef Ev. rewrite Eh. cbn [ptr]. unfold Spend.lookupTxid. cbv zeta.
  destruct (NewShaHashFromStr_Ok _ _ Eh) as (_ & _ & Es).
  rewrite Es. fold (rawtxURL t). rewrite Ef. cbn [orFatal bind].
  rewrite Ev. reflexivity.
Qed.

(** X3: [lookupTxid] asks blockchain.info for the transaction id it was
    given.  The URL is rawtx/ followed by the id in lower case, with zeros in
    front up to 64 characters; a version-1 answer at that URL is returned. *)
Theorem lookupTxid_asks_for_the_txid
    (fetch : string -> result Spend.blockChainInfoTx)
    (t : string) (h : btcwire.ShaHash) (tx : Spend.blockChainInfoTx) :
  btcwire.NewShaHashFromStr t = Ok h ->
  fetch (rawtxURL t) = Ok tx ->
  Spend.Ver tx = 1 ->
  Spend.lookupTxid fetch (ptr (btcwire.NewShaHashFromStr t)) = Return tx.
Proof. apply lookupTxid_Return_at_url. Qed.

(** X3, witness: the id AB, asked for as 00..00ab. *)
Lemma lookupTxid_asks_for_the_txid_witness :
  Spend.lookupTxid
    (fetchAt "https://blockchain.info/rawtx/00000000000000000000000000000000000000000000000000000000000000ab"
       (Sample.funding Sample.txidA 50000))
    (ptr (btcwire.NewShaHashFromStr "AB"))
  = Return (Sample.funding Sample.txidA 50000).
Proof.
  apply (lookupTxid_asks_for_the_txid _ "AB" (171 :: repeat 0 31)).
  - vm_compute. reflexivity.
  - vm_compute. reflexivity.
  - reflexivity.
Defined.

(** X4: with flags that pass and a transaction id that does not convert
    (not hex, or longer than 64 characters), [main] ends in a nil-pointer
    panic inside [lookupTxid], whatever the network and the signer are. *)
Theorem main_invalid_txid_panics
    (fetch : string -> result Spend.blockChainInfoTx)
    (Sign : btcec.PrivateKey -> list Z -> result btcec.Signature)
    (a k t : string) (v : Z) (h : list btcwire.MsgTx)
    (pkBytes : list Z) (addr : btcutil.Address) (e : error) :
  a <> "" -> k <> "" -> t <> "" -> v <> -1 ->
  hex.DecodeString k = Ok pkBytes ->
  btcutil.DecodeAddress a btcnet.MainNetParams = Ok addr ->
  btcwire.NewShaHashFromStr t = Err e ->
  Spend.main fetch Sign a k t v h = GoPanic NilDereference.
Proof.
  intros Ha Hk Ht Hv Hpk Haddr He. unfold Spend.main, Spend.bindM.
  rewrite (getArgs_Return a k t v pkBytes addr) by assumption.
  cbn [Spend.lift Spend.txid]. rewrite He. reflexivity.
Qed.

(** X4, witness: a transaction id of 65 characters. *)
Lemma main_invalid_txid_panics_witness :
  Spend.main (Sample.fetch (Sample.funding Sample.txidA 50000)) Sample.Sign
    Sample.address "01" (Sample.txidA ++ "0") 0 []
  = GoPanic NilDereference.
Proof.
  apply (main_invalid_txid_panics _ _ Sample.address "01" (Sample.txidA ++ "0") 0 []
           [1] Sample.addr ErrHashStrSize);
    [discriminate | discriminate | discriminate | lia
    | vm_compute; reflexivity | vm_compute; reflexivity | vm_compute; reflexivity].
Defined.

(** The stages of a returning [getFundingParams]. *)
Lemma getFundingParams_Return_spec
    (rawtx : Spend.blockChainInfoTx) (vout : Z)
    (oldTxOut : btcwire.TxOut) (outpoint : btcwire.OutPoint) :
  Spend.getFundingParams rawtx vout = Return (oldTxOut, outpoint) <->
  exists o h s,
    0 <= vout /\
    nth_error (Spend.Outputs rawtx) (Z.to_nat vout) = Some o /\
    btcwire.NewShaHashFromStr (Spend.Hash rawtx) = Ok h /\
    hex.DecodeString (Spend.ScriptHex o) = Ok s /\
    oldTxOut = {| btcwire.Value := int64 (Spend.Value o); btcwire.PkScript := s |} /\
    outpoint = {| btcwire.Hash := h; btcwire.Index := vout |}.
Proof.
  unfold Spend.getFundingParams, sliceAt. split.
  - destruct (Z.ltb_spec vout 0) as [H0|H0]; cbn [orb bind]; [discriminate|].
    destruct (Z.leb_spec (Z.of_nat (length (Spend.Outputs rawtx))) vout) as [H1|H1];
      cbn [bind]; [discriminate|].
    destruct (nth_error (Spend.Outputs rawtx) (Z.to_nat vout)) as [o|] eqn:En;
      cbn [bind]; [|discriminate].
    destruct (btcwire.NewShaHashFromStr (Spend.Hash rawtx)) as [h|e] eqn:Eh;
      cbn [bind orFatal]; [|discriminate].
    destruct (hex.DecodeString (Spend.ScriptHex o)) as [s|e] eqn:Es;
      cbn [bind orFatal]; [|discriminate].
    intros E. exists o, h, s. rewrite int64_idem in E.
    unfold btcwire.NewTxOut, btcwire.NewOutPoint in E.
    repeat split; try assumption; congruence.
  - intros (o & h & s & H0 & En & Eh & Es & -> & ->).
    assert (Hlt : (Z.to_nat vout < length (Spend.Outputs rawtx))%nat)
      by (apply nth_error_Some; congruence).
    destruct (Z.ltb_spec vout 0) as [H0'|_]; [lia|].
    destruct (Z.leb_spec (Z.of_nat (length (Spend.Outputs rawtx))) vout) as [H1|_]; [lia|].
    cbn [orb]. rewrite En. cbn [bind]. rewrite Eh. cbn [bind orFatal].
    rewrite Es. cbn [bind orFatal]. now rewrite int64_idem.
Qed.

(** X5: when [getFundingParams] returns, and what.  It returns exactly when
    the index selects an output, the hash string converts and the script of
    that output is hex; the old output then has the value and the decoded
    script of the selected output, the outpoint the converted hash and the
    index. *)
Theorem getFundingParams_Return_iff
    (rawtx : Spend.blockChainInfoTx) (vout : Z)
    (oldTxOut : btcwire.TxOut) (outpoint : btcwire.OutPoint) :
  Spend.getFundingParams rawtx vout = Return (oldTxOut, outpoint) <->
  exists o h s,
    0 <= vout /\
    nth_error (Spend.Outputs rawtx) (Z.to_nat vout) = Some o /\
    btcwire.NewShaHashFromStr (Spend.Hash rawtx) = Ok h /\
    hex.DecodeString (Spend.ScriptHex o) = Ok s /\
    oldTxOut = {| btcwire.Value := int64 (Spend.Value o); btcwire.PkScript := s |} /\
    outpoint = {| btcwire.Hash := h; btcwire.Index := vout |}.
Proof. apply getFundingParams_Return_spec. Qed.

(** X6: the ways [getFundingParams] fails.  It never exits; it panics, on the
    index, exactly when the index is outside the outputs; the errors it aborts
    on are the one of the hash string and, when the hash converted, the hex
    error of the selected output's script. *)
Theorem getFundingParams_failures (rawtx : Spend.blockChainInfoTx) (vout : Z) :
  (forall c, Spend.getFundingParams rawtx vout <> OsExit c) /\
  (forall p, Spend.getFundingParams rawtx vout = GoPanic p <->
     p = IndexOutOfRange /\
     (vout < 0 \/ Z.of_nat (length (Spend.Outputs rawtx)) <= vout)) /\
  (forall e, Spend.getFundingParams rawtx vout = LogFatal e ->
     btcwire.NewShaHashFromStr (Spend.Hash rawtx) = Err e \/
     (exists h, btcwire.NewShaHashFromStr (Spend.Hash rawtx) = Ok h) /\
     exists o, nth_error (Spend.Outputs rawtx) (Z.to_nat vout) = Some o /\
               hex.DecodeString (Spend.ScriptHex o) = Err e).
Proof.
  unfold Spend.getFundingParams, sliceAt.
  destruct (Z.ltb_spec vout 0) as [H0|H0]; cbn [orb bind].
  { split; [discriminate|]. split; [|discriminate].
    intros p. split; [intros E; injection E as <-; auto|intros [-> _]; reflexivity]. }
  destruct (Z.leb_spec (Z.of_nat (length (Spend.Outputs rawtx))) vout) as [H1|H1];
    cbn [bind].
  { split; [discriminate|]. split; [|discriminate].
    intros p. split; [intros E; injection E as <-; auto|intros [-> _]; reflexivity]. }
  destruct (nth_error (Spend.Outputs rawtx) (Z.to_nat vout)) as [o|] eqn:En.
  2:{ apply nth_error_None in En. lia. }
  cbn [bind].
  destruct (btcwire.NewShaHashFromStr (Spend.Hash rawtx)) as [h|e1];
    cbn [bind orFatal].
  - destruct (hex.DecodeString (Spend.ScriptHex o)) as [s|e2] eqn:Es;
      cbn [bind orFatal].
    + split; [discriminate|]. split; [|discriminate].
      intros p. split; [discriminate|intros [_ [H|H]]; lia].
    + split; [discriminate|]. split.
      * intros p. split; [discriminate|intros [_ [H|H]]; lia].
      * intros e E. injection E as ->. right.
        split; [now exists h|exists o; split; [reflexivity|assumption]].
  - split; [discriminate|]. split.
    + intros p. split; [discriminate|intros [_ [H|H]]; lia].
    + intros e E. injection E as ->. now left.
Qed.

(** X7: when the lookup answers with the string of a 32-byte hash, the
    outpoint [getFundingParams] builds carries exactly that hash (the string
    converts back), with the requested index and the selected output. *)
Theorem getFundingParams_honest_lookup
    (rawtx : Spend.blockChainInfoTx) (vout : Z) (h : btcwire.ShaHash)
    (o : Spend.BlockChainInfoTxOut) (s : list Z) :
  length h = 32%nat -> bytes_okb h = true ->
  Spend.Hash rawtx = btcwire.ShaHash_String h ->
  0 <= vout ->
  nth_error (Spend.Outputs rawtx) (Z.to_nat vout) = Some o ->
  hex.DecodeString (Spend.ScriptHex o) = Ok s ->
  Spend.getFundingParams rawtx vout
  = Return ({| btcwire.Value := int64 (Spend.Value o); btcwire.PkScript := s |},
            {| btcwire.Hash := h; btcwire.Index := vout |}).
Proof.
  intros Hl Hok EH H0 En Es. apply getFundingParams_Return_spec.
  exists o, h, s. rewrite EH, NewShaHashFromStr_String by assumption.
  repeat split; assumption.
Qed.

(** X7, witness: the second output of a transaction with the hash 02 00 .. 00. *)
Lemma getFundingParams_honest_lookup_witness :
  Spend.getFundingParams
    {| Spend.Ver := 1;
       Spend.Hash := btcwire.ShaHash_String Sample.hashB;
       Spend.Outputs := [ {| Spend.Value := 7; Spend.ScriptHex := "" |};
                          {| Spend.Value := 50000; Spend.ScriptHex := Sample.pkScriptHex |} ] |}
    1
  = Return ({| btcwire.Value := int64 50000; btcwire.PkScript := Sample.pkScript |},
            {| btcwire.Hash := Sample.hashB; btcwire.Index := 1 |}).
Proof.
  apply (getFundingParams_honest_lookup _ 1 Sample.hashB
           {| Spend.Value := 50000; Spend.ScriptHex := Sample.pkScriptHex |}
           Sample.pkScript).
  - reflexivity.
  - reflexivity.
  - reflexivity.
  - lia.
  - reflexivity.
  - vm_compute. reflexivity.
Defined.

(** ** createTxOut at the lower end of int64 *)

(** X8: at the lower end of [int64] the subtraction of the fee wraps: a
    funding value within 10,000 of the smallest [int64] gives an output with a
    large positive value, 2^64 above the difference. *)
Theorem createTxOut_wraps (inCoin : Z) (addr : btcutil.Address) :
  minInt64 <= inCoin < minInt64 + Spend.fee ->
  exists txout,
    Spend.createTxOut inCoin addr = Return txout /\
    btcwire.Value txout = inCoin - Spend.fee + 2 ^ 64 /\
    maxInt64 - Spend.fee < btcwire.Value txout <= maxInt64.
Proof.
  intros H. destruct (createTxOut_Return inCoin addr) as [script [_ E]].
  eexists. split; [exact E|]. cbn [btcwire.Value].
  unfold int64, minInt64, maxInt64, Spend.fee in *.
  replace (inCoin - 10000 + 2 ^ 63) with ((inCoin - 10000 + 2 ^ 63 + 2 ^ 64) + (-1) * 2 ^ 64) by lia.
  rewrite Z.mod_add by lia. rewrite Z.mod_small by lia. lia.
Qed.

(** X8, witness: the smallest [int64]. *)
Lemma createTxOut_wraps_witness :
  exists txout,
    Spend.createTxOut (- 2 ^ 63) Sample.addr = Return txout /\
    btcwire.Value txout = - 2 ^ 63 - Spend.fee + 2 ^ 64 /\
    maxInt64 - Spend.fee < btcwire.Value txout <= maxInt64.
Proof.
  apply (createTxOut_wraps (- 2 ^ 63) Sample.addr).
  unfold minInt64, Spend.fee. lia.
Defined.

(** ** Bytes in the transaction *)

Lemma writeVarInt_ok n : 0 <= n -> bytes_okb (btcwire.writeVarInt n) = true.
Proof.
  intros H. unfold btcwire.writeVarInt.
  destruct (Z.ltb_spec n 253).
  - cbn. rewrite andb_true_r. apply is_byteb_spec. lia.
  - destruct (n <=? 65535); [|destruct (n <=? 4294967295)];
      cbn [bytes_okb forallb]; apply le_bytes_ok.
Qed.

Lemma writeVarBytes_ok b : bytes_okb b = true -> bytes_okb (btcwire.writeVarBytes b) = true.
Proof.
  intros H. unfold btcwire.writeVarBytes.
  rewrite bytes_okb_app, writeVarInt_ok, H by lia. reflexivity.
Qed.

Lemma flat_map_ok {A} (f : A -> list Z) (p : A -> bool) l :
  (forall x, p x = true -> bytes_okb (f x) = true) ->
  forallb p l = true -> bytes_okb (flat_map f l) = true.
Proof.
  intros Hf. induction l as [|x l IH]; intros H; [reflexivity|].
  cbn [forallb flat_map] in *. apply andb_true_iff in H. destruct H as [Hx Hl].
  rewrite bytes_okb_app, (Hf _ Hx), (IH Hl). reflexivity.
Qed.

Lemma Serialize_ok tx : tx_okb tx = true -> bytes_okb (btcwire.Serialize tx) = true.
Proof.
  unfold tx_okb, btcwire.Serialize. intros H.
  apply andb_true_iff in H. destruct H as [Hi Ho].
  rewrite !bytes_okb_app, !le_bytes_ok, !writeVarInt_ok by lia.
  rewrite (flat_map_ok btcwire.writeTxIn txin_okb), (flat_map_ok btcwire.writeTxOut txout_okb);
    try assumption; try reflexivity.
  - intros to Hto. unfold btcwire.writeTxOut, txout_okb in *.
    now rewrite bytes_okb_app, le_bytes_ok, writeVarBytes_ok.
  - intros ti Hti. unfold btcwire.writeTxIn, txin_okb in *.
    apply andb_true_iff in Hti. destruct Hti as [H1 H2].
    now rewrite !bytes_okb_app, H1, !le_bytes_ok, writeVarBytes_ok.
Qed.

(** The hex of a serialized transaction decodes to the serialization. *)
Lemma dumpHex_DecodeString (tx : btcwire.MsgTx) :
  tx_okb tx = true ->
  hex.DecodeString (Spend.dumpHex tx) = Ok (btcwire.Serialize tx) /\
  String.length (Spend.dumpHex tx) = (2 * length (btcwire.Serialize tx))%nat.
Proof.
  intros H. unfold Spend.dumpHex. cbv zeta. split.
  - apply hex_decode_encode, Serialize_ok, H.
  - apply hex_encode_length.
Qed.

(** X13: the line [dumpHex] prints decodes to the serialization of the
    transaction and has two characters per byte. *)
Theorem dumpHex_decodes (tx : btcwire.MsgTx) :
  tx_okb tx = true ->
  hex.DecodeString (Spend.dumpHex tx) = Ok (btcwire.Serialize tx) /\
  String.length (Spend.dumpHex tx) = (2 * length (btcwire.Serialize tx))%nat.
Proof. apply dumpHex_DecodeString. Qed.

(** X13, witness: the sample transaction before signing. *)
Lemma dumpHex_decodes_witness :
  hex.DecodeString (Spend.dumpHex (Sample.unsigned 40000))
  = Ok (btcwire.Serialize (Sample.unsigned 40000)) /\
  String.length (Spend.dumpHex (Sample.unsigned 40000))
  = (2 * length (btcwire.Serialize (Sample.unsigned 40000)))%nat.
Proof.
  apply (dumpHex_decodes (Sample.unsigned 40000)). vm_compute. reflexivity.
Defined.

(** ** More bytes *)

Lemma AddData_ok data : bytes_okb data = true -> bytes_okb (btcscript.AddData data) = true.
Proof.
  intros H. unfold btcscript.AddData. cbv zeta.
  set (n := Z.of_nat (length data)). assert (0 <= n) by (unfold n; lia).
  destruct (Z.ltb_spec n btcscript.OP_PUSHDATA1) as [H1|H1].
  { cbn [bytes_okb forallb]. fold (bytes_okb data). rewrite H, andb_true_r.
    apply is_byteb_spec. unfold btcscript.OP_PUSHDATA1 in H1. lia. }
  destruct (Z.leb_spec n 255) as [H2|H2].
  { cbn [bytes_okb forallb]. fold (bytes_okb data). rewrite H, andb_true_r.
    cbn [andb]. apply is_byteb_spec. lia. }
  destruct (n <=? 65535); cbn [bytes_okb forallb];
    fold (bytes_okb (le_bytes 2 n ++ data)); fold (bytes_okb (le_bytes 4 n ++ data));
    rewrite bytes_okb_app, le_bytes_ok, H; reflexivity.
Qed.

Lemma canonicalizeInt_ok v : bytes_okb (btcec.canonicalizeInt v) = true.
Proof.
  unfold btcec.canonicalizeInt. pose proof (big_Bytes_ok v) as H.
  destruct (big_Bytes v) as [|b rest]; [reflexivity|].
  destruct (128 <=? b); [|exact H]. cbn [bytes_okb forallb] in *. exact H.
Qed.

Lemma SerializeSig_ok sig : bytes_okb (btcec.SerializeSig sig) = true.
Proof.
  unfold btcec.SerializeSig. cbv zeta.
  rewrite !bytes_okb_app, !canonicalizeInt_ok.
  cbn [bytes_okb forallb andb].
  assert (F : forall m, is_byteb (m mod 256) = true)
    by (intros m; apply is_byteb_spec, Z.mod_pos_bound; lia).
  now rewrite !F.
Qed.

Lemma SerializeCompressed_ok pub : bytes_okb (btcec.SerializeCompressed pub) = true.
Proof.
  unfold btcec.SerializeCompressed, btcec.paddedAppend. cbv zeta.
  rewrite !bytes_okb_app, bytes_okb_repeat0, big_Bytes_ok.
  destruct (Z.odd (btcec.Y pub)); reflexivity.
Qed.

Lemma leadingZeroBytes_ok l : bytes_okb (base58.leadingZeroBytes l) = true.
Proof.
  induction l as [|c l IH]; [reflexivity|].
  cbn [base58.leadingZeroBytes]. destruct (base58.ascii_eqb c "1"); [exact IH|reflexivity].
Qed.

Lemma base58_Decode_ok s : bytes_okb (base58.Decode s) = true.
Proof.
  unfold base58.Decode. cbv zeta. destruct (base58.value _ 0); [|reflexivity].
  now rewrite bytes_okb_app, leadingZeroBytes_ok, big_Bytes_ok.
Qed.

(** What a decoded address is: a 20-byte hash under the version byte of the
    network. *)
Lemma DecodeAddress_Ok a net addr :
  btcutil.DecodeAddress a net = Ok addr ->
  length (btcutil.hash addr) = 20%nat /\
  bytes_okb (btcutil.hash addr) = true /\
  btcutil.netID addr = btcnet.PubKeyHashAddrID net.
Proof.
  unfold btcutil.DecodeAddress, base58.CheckDecode. cbv zeta.
  destruct (_ <? 5)%nat; [discriminate|].
  destruct (base58.bytes_eqb _ _); [|discriminate].
  set (payload := skipn 1 _).
  destruct (Nat.eqb_spec (length payload) ripemd160.Size) as [Hl|Hl]; [|discriminate].
  destruct (Z.eqb_spec (hd 0 (base58.Decode a)) (btcnet.PubKeyHashAddrID net)) as [Hv|Hv];
    [|discriminate].
  intros E. apply Ok_inj in E. subst addr. cbn [btcutil.hash btcutil.netID].
  repeat split; [exact Hl| |exact Hv].
  unfold payload. apply bytes_okb_skipn, bytes_okb_firstn, base58_Decode_ok.
Qed.

(** The stages of a returning [getArgs]. *)
Lemma getArgs_Return_inv a k t v args :
  Spend.getArgs a k t v = Return args ->
  exists pkBytes,
    hex.DecodeString k = Ok pkBytes /\
    btcutil.DecodeAddress a btcnet.MainNetParams = Ok (Spend.toAddress args) /\
    args = {| Spend.txid := ptr (btcwire.NewShaHashFromStr t);
              Spend.vout := uint32 v;
              Spend.toAddress := Spend.toAddress args;
              Spend.privKey := {| btcec.D := be_to_Z pkBytes |} |}.
Proof.
  unfold Spend.getArgs. destruct (_ || _); [discriminate|].
  destruct (hex.DecodeString k) as [pkBytes|e]; cbn [bind orFatal]; [|discriminate].
  cbn [btcec.PrivKeyFromBytes].
  destruct (btcutil.DecodeAddress a btcnet.MainNetParams) as [addr|e];
    cbn [bind orFatal]; [|discriminate].
  intros E. exists pkBytes. assert (E' := E). apply (f_equal (fun o => match o with Return x => Some x | _ => None end)) in E'.
  cbn in E'. assert (Ea : args = {| Spend.txid := ptr (btcwire.NewShaHashFromStr t);
              Spend.vout := uint32 v; Spend.toAddress := addr;
              Spend.privKey := {| btcec.D := be_to_Z pkBytes |} |}) by congruence.
  subst args. cbn [Spend.toAddress]. repeat split.
Qed.

(** ** Script parsing *)

Lemma parseFrom_fuel fuel1 : forall fuel2 script,
  (length script <= fuel1)%nat -> (length script <= fuel2)%nat ->
  btcscript.parseFrom fuel1 script = btcscript.parseFrom fuel2 script.
Proof.
  induction fuel1 as [|f1 IH]; intros fuel2 script H1 H2.
  - destruct script; [destruct fuel2; reflexivity|cbn [length] in H1; lia].
  - destruct script as [|instr rest]; [destruct fuel2; reflexivity|].
    destruct fuel2 as [|f2]; [cbn [length] in H2; lia|].
    cbn [length] in H1, H2.
    assert (Hsk : forall n, (length (skipn n rest) <= length rest)%nat)
      by (intros n; rewrite length_skipn; lia).
    cbn [btcscript.parseFrom]. cbv zeta.
    destruct (_ =? 1).
    { rewrite (IH f2) by lia. reflexivity. }
    destruct (1 <? _).
    { destruct (_ <? _)%nat; [reflexivity|].
      rewrite (IH f2); [reflexivity| |]; specialize (Hsk (Z.to_nat (btcscript.opcodeLength instr - 1))); lia. }
    destruct (_ <? _)%nat; [reflexivity|].
    destruct (_ <? _); [reflexivity|].
    set (w := Z.to_nat (- btcscript.opcodeLength instr)).
    set (l := Z.to_nat _).
    assert (length (skipn l (skipn w rest)) <= length rest)%nat.
    { pose proof (Hsk w). rewrite length_skipn. lia. }
    rewrite (IH f2) by lia. reflexivity.
Qed.

(** More fuel than the script has bytes changes nothing. *)
Lemma parseScript_fuel fuel script :
  (length script <= fuel)%nat ->
  btcscript.parseFrom fuel script = btcscript.parseScript script.
Proof. intros H. apply parseFrom_fuel; [exact H|lia]. Qed.

(** A pay-to-pubkey-hash script parses into its five instructions. *)
Lemma parseScript_p2pkh h :
  length h = 20%nat ->
  btcscript.parseScript ([0x76; 0xa9; 0x14] ++ h ++ [0x88; 0xac])
  = Ok [ {| btcscript.opcode := 0x76; btcscript.data := [] |};
         {| btcscript.opcode := 0xa9; btcscript.data := [] |};
         {| btcscript.opcode := 0x14; btcscript.data := h |};
         {| btcscript.opcode := 0x88; btcscript.data := [] |};
         {| btcscript.opcode := 0xac; btcscript.data := [] |} ].
Proof.
  intros H.
  do 20 (destruct h as [|? h]; [discriminate H|]).
  destruct h; [|discriminate H]. reflexivity.
Qed.

(** Pushes that run past the end of the script, and pushes that fit. *)
Example parseScript_samples :
  btcscript.parseScript [0x01] = Err ErrStackShortScript /\
  btcscript.parseScript [0x4c] = Err ErrStackShortScript /\
  btcscript.parseScript [0x4c; 2; 7] = Err ErrStackShortScript /\
  btcscript.parseScript [0x4c; 1; 7; 0xac]
  = Ok [ {| btcscript.opcode := 0x4c; btcscript.data := [7] |};
         {| btcscript.opcode := 0xac; btcscript.data := [] |} ] /\
  btcscript.parseScript [0x4d; 1; 0; 7]
  = Ok [ {| btcscript.opcode := 0x4d; btcscript.data := [7] |} ] /\
  btcscript.parseScript [0x02; 7; 8; 0x76]
  = Ok [ {| btcscript.opcode := 0x02; btcscript.data := [7; 8] |};
         {| btcscript.opcode := 0x76; btcscript.data := [] |} ].
Proof. repeat split. Qed.

(** ** The copy that is hashed *)

(** The inputs of the copy keep their number, outpoints and sequence
    numbers; the script is the subscript at the index that is signed and
    empty everywhere else. *)
Lemma signingInputs_nth ins idx subscript i ti :
  nth_error ins i = Some ti ->
  nth_error (btcscript.signingInputs ins idx subscript) i
  = Some (btcscript.withScript ti (if (i =? idx)%nat then subscript else [])).
Proof.
  revert idx i. induction ins as [|t0 rest IH]; intros idx i H.
  - destruct i; discriminate H.
  - destruct idx as [|idx'], i as [|i']; cbn [btcscript.signingInputs nth_error Nat.eqb] in *.
    + injection H as <-. reflexivity.
    + rewrite nth_error_map, H. reflexivity.
    + injection H as <-. reflexivity.
    + apply IH. exact H.
Qed.

Lemma signingInputs_length ins idx subscript :
  length (btcscript.signingInputs ins idx subscript) = length ins.
Proof.
  revert idx. induction ins as [|t0 rest IH]; intros [|idx']; cbn [btcscript.signingInputs length];
    try reflexivity.
  - now rewrite length_map.
  - now rewrite IH.
Qed.

Example signingInputs_three :
  let t := fun i => {| btcwire.PreviousOutPoint := {| btcwire.Hash := [i]; btcwire.Index := i |};
                       btcwire.SignatureScript := [9; 9];
                       btcwire.Sequence := 0xffffffff |} in
  map btcwire.SignatureScript (btcscript.signingInputs [t 0; t 1; t 2] 0 [7]) = [[7]; []; []] /\
  map btcwire.SignatureScript (btcscript.signingInputs [t 0; t 1; t 2] 1 [7]) = [[]; [7]; []] /\
  map btcwire.SignatureScript (btcscript.signingInputs [t 0; t 1; t 2] 2 [7]) = [[]; []; [7]].
Proof. repeat split. Qed.

Lemma calcScriptHash_length subscript hashType tx idx :
  length (btcscript.calcScriptHash subscript hashType tx idx) = 32%nat.
Proof. unfold btcscript.calcScriptHash, btcwire.DoubleSha256. apply sha256_Sum256_length. Qed.

(** ** DER integers *)

Lemma le_bytes_snoc n z :
  le_bytes (Datatypes.S n) z = le_bytes n z ++ [(z / 256 ^ Z.of_nat n) mod 256].
Proof.
  revert z. induction n as [|n IH]; intros z.
  - cbn [le_bytes app]. now rewrite Z.pow_0_r, Z.div_1_r.
  - change (le_bytes (Datatypes.S (Datatypes.S n)) z)
      with (z mod 256 :: le_bytes (Datatypes.S n) (z / 256)).
    rewrite IH. cbn [le_bytes app]. f_equal. f_equal. f_equal. f_equal.
    replace (Z.of_nat (Datatypes.S n)) with (1 + Z.of_nat n) by lia.
    rewrite Z.pow_add_r by lia. change (256 ^ 1) with 256.
    rewrite Z.div_div; [reflexivity|lia|apply Z.pow_pos_nonneg; lia].
Qed.

Lemma be_bytes_S n z :
  be_bytes (Datatypes.S n) z = (z / 256 ^ Z.of_nat n) mod 256 :: be_bytes n z.
Proof. unfold be_bytes. rewrite le_bytes_snoc, rev_app_distr. reflexivity. Qed.

(** The bytes of a positive number start with a non-zero byte. *)
Lemma big_Bytes_head v :
  0 < v -> exists h t, big_Bytes v = h :: t /\ 0 < h < 256.
Proof.
  intros Hv. unfold big_Bytes. rewrite Z.abs_eq by lia.
  destruct (Z.eqb_spec v 0); [lia|].
  destruct (Z.log2_spec v Hv) as [Hlo Hhi].
  pose proof (Z.log2_nonneg v) as Hl.
  set (m := Z.log2 v / 8).
  assert (Hm : 0 <= m) by (apply Z.div_pos; lia).
  pose proof (Z.div_mod (Z.log2 v) 8 ltac:(lia)) as Hdm.
  pose proof (Z.mod_pos_bound (Z.log2 v) 8 ltac:(lia)) as Hmod.
  fold m in Hdm.
  replace (Z.to_nat (m + 1)) with (Datatypes.S (Z.to_nat m)) by lia.
  rewrite be_bytes_S, Z2Nat.id by lia.
  eexists. eexists. split; [reflexivity|].
  assert (E256 : 256 ^ m = 2 ^ (8 * m)).
  { rewrite Z.pow_mul_r by lia. reflexivity. }
  assert (Hp : 0 < 256 ^ m) by (apply Z.pow_pos_nonneg; lia).
  assert (H1 : 256 ^ m <= v).
  { rewrite E256. eapply Z.le_trans; [|exact Hlo]. apply Z.pow_le_mono_r; lia. }
  assert (H2 : v < 256 * 256 ^ m).
  { rewrite E256. replace (256 * 2 ^ (8 * m)) with (2 ^ (8 * m + 8))
      by (rewrite Z.pow_add_r by lia; lia).
    eapply Z.lt_le_trans; [exact Hhi|]. apply Z.pow_le_mono_r; lia. }
  assert (Hq : 1 <= v / 256 ^ m < 256).
  { split; [apply Z.div_le_lower_bound; lia|apply Z.div_lt_upper_bound; lia]. }
  rewrite Z.mod_small by lia. lia.
Qed.

Lemma be_to_Z_zero_cons b : be_to_Z (0 :: b) = be_to_Z b.
Proof. rewrite be_to_Z_cons. lia. Qed.

(** [canonicalizeInt] gives the DER form of a natural number: big-endian
    bytes of the number, the top bit clear, no zero byte in front that is not
    needed. *)
Lemma canonicalizeInt_der v :
  0 <= v ->
  derIntegerb (btcec.canonicalizeInt v) = true /\
  bytes_okb (btcec.canonicalizeInt v) = true /\
  be_to_Z (btcec.canonicalizeInt v) = v.
Proof.
  intros Hv. split; [|split; [apply canonicalizeInt_ok|]].
  - unfold btcec.canonicalizeInt.
    destruct (Z.eq_dec v 0) as [->|Hnz]; [reflexivity|].
    destruct (big_Bytes_head v ltac:(lia)) as (h & t & E & Hh). rewrite E.
    destruct (Z.leb_spec 128 h) as [H128|H128].
    + cbn [derIntegerb]. destruct (Z.leb_spec 128 h); [reflexivity|lia].
    + cbn [derIntegerb]. destruct t as [|y t].
      * apply Z.ltb_lt. lia.
      * destruct (Z.ltb_spec h 128); [|lia]. destruct (Z.ltb_spec 0 h); [reflexivity|lia].
  - pose proof (be_to_Z_big_Bytes v Hv) as E. unfold btcec.canonicalizeInt.
    destruct (big_Bytes v) as [|b rest]; [cbn in *; lia|].
    destruct (128 <=? b); [rewrite be_to_Z_zero_cons|]; exact E.
Qed.

(** ** The compressed form of a public key *)

Lemma SerializeCompressed_spec pub :
  0 <= btcec.X pub < 2 ^ 256 ->
  exists rest,
    btcec.SerializeCompressed pub
    = (if Z.odd (btcec.Y pub) then 3 else 2) :: rest /\
    length rest = 32%nat /\
    bytes_okb rest = true /\
    be_to_Z rest = btcec.X pub.
Proof.
  intros Hx. unfold btcec.SerializeCompressed, btcec.paddedAppend. cbv zeta.
  exists (repeat 0 (32 - length (big_Bytes (btcec.X pub))) ++ big_Bytes (btcec.X pub)).
  split; [destruct (Z.odd (btcec.Y pub)); reflexivity|].
  assert (Hl : (length (big_Bytes (btcec.X pub)) <= 32)%nat).
  { apply big_Bytes_length_le. rewrite Z.abs_eq by lia.
    change (8 * Z.of_nat 32) with 256. lia. }
  split; [rewrite length_app, repeat_length; lia|]. split.
  - now rewrite bytes_okb_app, bytes_okb_repeat0, big_Bytes_ok.
  - rewrite be_to_Z_zeros. apply be_to_Z_big_Bytes. lia.
Qed.

(** ** Base 58: the number a string denotes *)

Lemma base58_value_Encode b :
  bytes_okb b = true ->
  base58.value (list_ascii_of_string (base58.Encode b)) 0 = Some (be_to_Z b).
Proof.
  intros Hok. unfold base58.Encode.
  rewrite list_ascii_of_string_of_list_ascii.
  destruct (leading_zeros_split b) as (z & b' & Eb & Eo & Hb').
  rewrite rev_app_distr, Eo, rev_repeat.
  pose proof (be_to_Z_bound _ Hok) as Hx.
  pose proof (pow58_bound (length b)) as Hp.
  rewrite value_ones, digits_value by lia. reflexivity.
Qed.

(** ** The unlocking script

    The script is spelled out byte by byte, so that it does not depend on
    the serializers it was built with. *)

(** C4: the unlocking script.  When the subscript is a non-empty script that
    parses and the ECDSA engine has signed the signature hash, [generateSig]
    returns a push of one byte of length followed by the DER signature (the
    SEQUENCE tag 30 and its length, then r and s as INTEGERs, tag 02, in
    their shortest big-endian form) and the byte 01 of the "sign everything"
    hash type, then a push of length 33 with the compressed public key: the
    parity byte 02 or 03 of Y and the 32 bytes of X, for the point (X, Y) that
    is the private scalar times the generator. *)
Theorem generateSig_unlocking_script
    (Sign : btcec.PrivateKey -> list Z -> result btcec.Signature)
    (tx : btcwire.MsgTx) (privkey : btcec.PrivateKey)
    (scriptPubKey : list Z) (pops : list btcscript.parsedOpcode)
    (sig : btcec.Signature) :
  scriptPubKey <> [] ->
  btcscript.parseScript scriptPubKey = Ok pops ->
  Sign privkey (btcscript.calcScriptHash scriptPubKey btcscript.SigHashAll tx 0)
  = Ok sig ->
  0 <= btcec.R sig < 2 ^ 256 ->
  0 <= btcec.S sig < 2 ^ 256 ->
  let Q := btcec.ScalarBaseMult (btcec.D privkey) in
  exists rb sb xb,
    Spend.generateSig Sign tx privkey scriptPubKey
    = Return ([Z.of_nat (length rb + length sb + 7)]
              ++ ([0x30; Z.of_nat (length rb + length sb + 4)]
                  ++ [0x02; Z.of_nat (length rb)] ++ rb
                  ++ [0x02; Z.of_nat (length sb)] ++ sb)
              ++ [0x01]
              ++ [33] ++ [if Z.odd (btcec.Y Q) then 3 else 2] ++ xb) /\
    (length rb + length sb + 7 < 76)%nat /\
    derIntegerb rb = true /\ bytes_okb rb = true /\ be_to_Z rb = btcec.R sig /\
    derIntegerb sb = true /\ bytes_okb sb = true /\ be_to_Z sb = btcec.S sig /\
    length xb = 32%nat /\ bytes_okb xb = true /\ be_to_Z xb = btcec.X Q.
Proof.
  intros Hne Hp Es Hr Hs Q.
  destruct (canonicalizeInt_der (btcec.R sig) ltac:(lia)) as (Dr & Or & Vr).
  destruct (canonicalizeInt_der (btcec.S sig) ltac:(lia)) as (Ds & Os & Vs).
  pose proof (canonicalizeInt_length _ Hr) as Lr.
  pose proof (canonicalizeInt_length _ Hs) as Ls.
  assert (HQ : 0 <= btcec.X Q < 2 ^ 256).
  { pose proof (ScalarBaseMult_range (btcec.D privkey)). pose proof P_lt_2_256.
    unfold Q. lia. }
  destruct (SerializeCompressed_spec Q HQ) as (xb & Exb & Lxb & Oxb & Vxb).
  exists (btcec.canonicalizeInt (btcec.R sig)), (btcec.canonicalizeInt (btcec.S sig)), xb.
  split; [|repeat split; (assumption || lia)].
  rewrite (generateSig_unfold _ _ _ _ pops Hne Hp), Es. unfold scriptOfSignature.
  change (btcec.PubKey privkey) with Q. rewrite Exb.
  unfold btcec.SerializeSig. cbv zeta.
  set (rb := btcec.canonicalizeInt (btcec.R sig)) in *.
  set (sb := btcec.canonicalizeInt (btcec.S sig)) in *.
  clearbody rb sb.
  rewrite !Z.mod_small by lia.
  rewrite !AddData_short.
  - repeat (rewrite length_app || (progress cbn [length])). rewrite Lxb.
    change (btcscript.hashTypeByte btcscript.SigHashAll) with 1.
    cbn [app]. rewrite <- !app_assoc. cbn [app].
    change (Z.of_nat 33) with 33.
    replace (4 + (length rb + (2 + length sb)) + 1)%nat
      with (length rb + length sb + 7)%nat by lia.
    replace (4 + length rb + length sb)%nat
      with (length rb + length sb + 4)%nat by lia.
    reflexivity.
  - cbn [length]. lia.
  - repeat (rewrite length_app || (progress cbn [length])). lia.
Qed.

(** C4, witness: the key 0x02, whose public key is the point 2G, signing the
    sample transaction with the nonce 1. *)
Lemma generateSig_unlocking_script_witness :
  let priv := {| btcec.D := 2 |} in
  btcec.ScalarBaseMult 2
  = {| btcec.X := 0xc6047f9441ed7d6d3045406e95c07cd85c778e4b8cef3ca7abac09b95c709ee5;
       btcec.Y := 0x1ae168fea63dc339a3c58419466ceaeef7f632653266d0e1236431a950cfe52a |} /\
  exists sig,
    Sample.Sign priv
      (btcscript.calcScriptHash Sample.pkScript btcscript.SigHashAll
         (Sample.unsigned 40000) 0)
    = Ok sig /\
    let Q := btcec.ScalarBaseMult (btcec.D priv) in
    exists rb sb xb,
      Spend.generateSig Sample.Sign (Sample.unsigned 40000) priv Sample.pkScript
      = Return ([Z.of_nat (length rb + length sb + 7)]
                ++ ([0x30; Z.of_nat (length rb + length sb + 4)]
                    ++ [0x02; Z.of_nat (length rb)] ++ rb
                    ++ [0x02; Z.of_nat (length sb)] ++ sb)
                ++ [0x01]
                ++ [33] ++ [if Z.odd (btcec.Y Q) then 3 else 2] ++ xb) /\
      (length rb + length sb + 7 < 76)%nat /\
      derIntegerb rb = true /\ bytes_okb rb = true /\ be_to_Z rb = btcec.R sig /\
      derIntegerb sb = true /\ bytes_okb sb = true /\ be_to_Z sb = btcec.S sig /\
      length xb = 32%nat /\ bytes_okb xb = true /\ be_to_Z xb = btcec.X Q.
Proof.
  cbv zeta. split; [vm_compute; reflexivity|].
  eexists. split; [vm_compute; reflexivity|].
  apply (generateSig_unlocking_script Sample.Sign (Sample.unsigned 40000)
           {| btcec.D := 2 |} Sample.pkScript
           [ {| btcscript.opcode := 0x76; btcscript.data := [] |};
             {| btcscript.opcode := 0xa9; btcscript.data := [] |};
             {| btcscript.opcode := 0x14; btcscript.data := Sample.hash160 |};
             {| btcscript.opcode := 0x88; btcscript.data := [] |};
             {| btcscript.opcode := 0xac; btcscript.data := [] |} ]).
  - discriminate.
  - reflexivity.
  - vm_compute. reflexivity.
  - vm_compute. split; [discriminate|reflexivity].
  - vm_compute. split; [discriminate|reflexivity].
Defined.

(** ** The address of a public key *)

(** C7: the address of a public key.  The key is serialized in compressed
    form on 33 bytes, the parity byte of Y and then X; these bytes are hashed
    with SHA-256 and then RIPEMD-160; the address [generateAddr] returns holds
    that hash under the version byte 0 of the main network.  The string of
    the address, which [main] prints, is a base-58 numeral: it denotes the
    number whose big-endian bytes are the version byte, the hash and the
    first four bytes of the double SHA-256 of the two, and it decodes to
    these 25 bytes. *)
Theorem generateAddr_pipeline (pub : btcec.PublicKey) :
  0 <= btcec.X pub < 2 ^ 256 ->
  exists xb addr,
    let ser := (if Z.odd (btcec.Y pub) then 3 else 2) :: xb in
    let h160 := ripemd160.Sum (sha256.Sum256 ser) in
    let payload := 0 :: h160 in
    let full := payload ++ firstn 4 (sha256.Sum256 (sha256.Sum256 payload)) in
    let s := btcutil.EncodeAddress addr in
    btcec.SerializeCompressed pub = ser /\
    length ser = 33%nat /\
    be_to_Z xb = btcec.X pub /\
    Keypair.generateAddr pub = Return addr /\
    btcutil.hash addr = h160 /\
    length h160 = 20%nat /\
    btcutil.netID addr = 0 /\
    length full = 25%nat /\
    base58.value (list_ascii_of_string s) 0 = Some (be_to_Z full) /\
    base58.Decode s = full /\
    (forall entropy priv,
       btcec.NewPrivateKey entropy = Ok priv -> btcec.PubKey priv = pub ->
       exists privhex pubhex,
         Keypair.main entropy = Return (privhex, pubhex, s)).
Proof.
  intros Hx.
  destruct (SerializeCompressed_spec pub Hx) as (xb & Eser & Lxb & Oxb & Vxb).
  set (ser := (if Z.odd (btcec.Y pub) then 3 else 2) :: xb) in *.
  set (h160 := ripemd160.Sum (sha256.Sum256 ser)).
  assert (L160 : length h160 = 20%nat) by apply ripemd160_Sum_length.
  assert (O160 : bytes_okb h160 = true) by apply ripemd160_Sum_ok.
  assert (Hg : Keypair.generateAddr pub
               = Return {| btcutil.hash := h160; btcutil.netID := 0 |}).
  { unfold Keypair.generateAddr, btcutil.NewAddressPubKeyHash, btcutil.Hash160.
    cbv zeta. rewrite Eser. fold h160. rewrite L160. reflexivity. }
  exists xb, {| btcutil.hash := h160; btcutil.netID := 0 |}. cbv zeta.
  fold ser. fold h160. cbn [btcutil.hash btcutil.netID].
  set (payload := 0 :: h160).
  set (full := payload ++ firstn 4 (sha256.Sum256 (sha256.Sum256 payload))).
  assert (Ofull : bytes_okb full = true).
  { unfold full, payload. rewrite bytes_okb_app.
    cbn [bytes_okb forallb]. fold (bytes_okb h160). rewrite O160.
    cbn [andb is_byteb Z.leb Z.ltb Z.compare].
    apply bytes_okb_firstn, sha256_Sum256_ok. }
  assert (Es : btcutil.EncodeAddress {| btcutil.hash := h160; btcutil.netID := 0 |}
               = base58.Encode full) by reflexivity.
  split; [exact Eser|].
  split; [unfold ser; cbn [length]; lia|].
  split; [exact Vxb|].
  split; [exact Hg|].
  split; [reflexivity|].
  split; [exact L160|].
  split; [reflexivity|].
  split.
  { unfold full, payload. rewrite length_app, length_firstn, sha256_Sum256_length.
    cbn [length]. rewrite L160. reflexivity. }
  split; [rewrite Es; apply base58_value_Encode, Ofull|].
  split; [rewrite Es; apply base58_Decode_Encode, Ofull|].
  intros entropy priv Hn Hpub.
  unfold Keypair.main, Keypair.generateKeyPair. rewrite Hn.
  cbn [orFatal bind]. rewrite Hpub, Hg. cbn [bind].
  eexists. eexists. reflexivity.
Qed.

(** C7, witness: the generator of the curve, the public key of 0x01, whose
    address is 1BgGZ9tcN4rm9KBzDn7KprQz87SZ26SAMH. *)
Lemma generateAddr_pipeline_witness :
  Keypair.generateAddr Sample.G = Return Sample.addr /\
  btcutil.EncodeAddress Sample.addr = "1BgGZ9tcN4rm9KBzDn7KprQz87SZ26SAMH" /\
  exists xb addr,
    let ser := (if Z.odd (btcec.Y Sample.G) then 3 else 2) :: xb in
    let h160 := ripemd160.Sum (sha256.Sum256 ser) in
    let payload := 0 :: h160 in
    let full := payload ++ firstn 4 (sha256.Sum256 (sha256.Sum256 payload)) in
    let s := btcutil.EncodeAddress addr in
    btcec.SerializeCompressed Sample.G = ser /\
    length ser = 33%nat /\
    be_to_Z xb = btcec.X Sample.G /\
    Keypair.generateAddr Sample.G = Return addr /\
    btcutil.hash addr = h160 /\
    length h160 = 20%nat /\
    btcutil.netID addr = 0 /\
    length full = 25%nat /\
    base58.value (list_ascii_of_string s) 0 = Some (be_to_Z full) /\
    base58.Decode s = full /\
    (forall entropy priv,
       btcec.NewPrivateKey entropy = Ok priv -> btcec.PubKey priv = Sample.G ->
       exists privhex pubhex,
         Keypair.main entropy = Return (privhex, pubhex, s)).
Proof.
  split; [vm_compute; reflexivity|]. split; [vm_compute; reflexivity|].
  apply (generateAddr_pipeline Sample.G).
  vm_compute. split; [discriminate|reflexivity].
Defined.

(** ** Runs of main *)

(** Enough for [main] to return: every stage succeeds. *)
Lemma main_progress
    (fetch : string -> result Spend.blockChainInfoTx)
    (Sign : btcec.PrivateKey -> list Z -> result btcec.Signature)
    (a k t : string) (v : Z) (h : list btcwire.MsgTx)
    (reqArgs : Spend.requiredArgs) (rawFundingTx : Spend.blockChainInfoTx)
    (oldTxOut : btcwire.TxOut) (outpoint : btcwire.OutPoint)
    (script : list Z) (pops : list btcscript.parsedOpcode)
    (sig : btcec.Signature) :
  Spend.getArgs a k t v = Return reqArgs ->
  Spend.lookupTxid fetch (Spend.txid reqArgs) = Return rawFundingTx ->
  Spend.getFundingParams rawFundingTx (Spend.vout reqArgs)
  = Return (oldTxOut, outpoint) ->
  btcscript.PayToAddrScript (Spend.toAddress reqArgs) = Ok script ->
  btcwire.PkScript oldTxOut <> [] ->
  btcscript.parseScript (btcwire.PkScript oldTxOut) = Ok pops ->
  Sign (Spend.privKey reqArgs)
    (btcscript.calcScriptHash (btcwire.PkScript oldTxOut) btcscript.SigHashAll
       {| btcwire.Version := 1;
          btcwire.TxIns := [Spend.createTxIn outpoint];
          btcwire.TxOuts :=
            [ {| btcwire.Value := int64 (btcwire.Value oldTxOut - Spend.fee);
                 btcwire.PkScript := script |} ];
          btcwire.LockTime := 0 |} 0)
  = Ok sig ->
  exists hist,
    Spend.main fetch Sign a k t v h
    = Return
        (Spend.dumpHex
           {| btcwire.Version := 1;
              btcwire.TxIns :=
                [ {| btcwire.PreviousOutPoint := outpoint;
                     btcwire.SignatureScript :=
                       btcscript.AddData
                         (btcec.SerializeSig sig
                          ++ [btcscript.hashTypeByte btcscript.SigHashAll])
                       ++ btcscript.AddData
                            (btcec.SerializeCompressed
                               (btcec.PubKey (Spend.privKey reqArgs)));
                     btcwire.Sequence := btcwire.MaxTxInSequenceNum |} ];
              btcwire.TxOuts :=
                [ {| btcwire.Value := int64 (btcwire.Value oldTxOut - Spend.fee);
                     btcwire.PkScript := script |} ];
              btcwire.LockTime := 0 |},
         hist).
Proof.
  intros Ha El Ef Hs Hne Hp Esig.
  unfold Spend.main, Spend.bindM. rewrite Ha. cbn [Spend.lift].
  rewrite El. cbn [Spend.lift]. rewrite Ef. cbn [Spend.lift].
  destruct (main_build_history outpoint oldTxOut (Spend.toAddress reqArgs) h)
    as [script' [Hs' Hb]].
  rewrite Hs in Hs'. apply Ok_inj in Hs'. subst script'.
  rewrite Hb. cbn [app].
  unfold Spend.main_sign, Spend.bindM. rewrite getTx_cons.
  rewrite (generateSig_unfold _ _ _ _ pops Hne Hp), Esig.
  unfold scriptOfSignature. cbn [Spend.lift].
  unfold Spend.setSignatureScript, Spend.bindM. rewrite getTx_cons.
  cbn [btcwire.TxIns]. cbv [Spend.lift sliceAt]. cbn.
  eexists. reflexivity.
Qed.

(** X12: every run of [main] that returns prints valid hex: the line has
    two characters per byte and decodes to the serialization of the final
    transaction, which has one input and one output. *)
Theorem main_prints_hex
    (fetch : string -> result Spend.blockChainInfoTx)
    (Sign : btcec.PrivateKey -> list Z -> result btcec.Signature)
    (a k t : string) (v : Z) (h : list btcwire.MsgTx)
    (out : string) (hist : list btcwire.MsgTx) :
  Spend.main fetch Sign a k t v h = Return (out, hist) ->
  exists tx rest,
    hist = tx :: rest /\
    hex.DecodeString out = Ok (btcwire.Serialize tx) /\
    String.length out = (2 * length (btcwire.Serialize tx))%nat /\
    length (btcwire.TxIns tx) = 1%nat /\ length (btcwire.TxOuts tx) = 1%nat.
Proof.
  intros E. apply main_Return_inv in E.
  destruct E as (reqArgs & rawtx & oldTxOut & outpoint & script & sig
                 & Ha & _ & Ef & Hs & E).
  cbv zeta in E. destruct E as (Hsig & Hhist & Hout).
  eexists. eexists. split; [exact Hhist|].
  rewrite Hout.
  assert (Hok : tx_okb
            {| btcwire.Version := 1;
               btcwire.TxIns :=
                 [ {| btcwire.PreviousOutPoint := outpoint;
                      btcwire.SignatureScript := sig;
                      btcwire.Sequence := btcwire.MaxTxInSequenceNum |} ];
               btcwire.TxOuts :=
                 [ {| btcwire.Value := int64 (btcwire.Value oldTxOut - Spend.fee);
                      btcwire.PkScript := script |} ];
               btcwire.LockTime := 0 |} = true).
  { unfold tx_okb, txin_okb, txout_okb.
    cbn [btcwire.TxIns btcwire.TxOuts forallb btcwire.PreviousOutPoint
         btcwire.SignatureScript btcwire.PkScript].
    apply getFundingParams_Return_spec in Ef.
    destruct Ef as (o & hh & s & _ & _ & Eh & _ & _ & ->).
    apply NewShaHashFromStr_Ok in Eh. destruct Eh as (_ & Hh & _).
    cbn [btcwire.Hash]. rewrite Hh.
    apply generateSig_Return_inv in Hsig. destruct Hsig as (_ & _ & sg & _ & ->).
    rewrite bytes_okb_app, !AddData_ok.
    2:{ apply SerializeCompressed_ok. }
    2:{ rewrite bytes_okb_app, SerializeSig_ok. reflexivity. }
    apply getArgs_Return_inv in Ha. destruct Ha as (pk & _ & Haddr & _).
    apply DecodeAddress_Ok in Haddr. destruct Haddr as (_ & Hhash & _).
    rewrite PayToAddrScript_Ok in Hs. apply Ok_inj in Hs. subst script.
    rewrite !bytes_okb_app, AddData_ok by assumption. reflexivity. }
  destruct (dumpHex_DecodeString _ Hok) as [H1 H2].
  repeat split; assumption.
Qed.

(** X12, witness: the run of [main] on the sample inputs. *)
Lemma main_prints_hex_witness :
  exists out hist,
    sampleRun = Return (out, hist) /\
    exists tx rest,
      hist = tx :: rest /\
      hex.DecodeString out = Ok (btcwire.Serialize tx) /\
      String.length out = (2 * length (btcwire.Serialize tx))%nat /\
      length (btcwire.TxIns tx) = 1%nat /\ length (btcwire.TxOuts tx) = 1%nat.
Proof.
  eexists. eexists. split; [vm_compute; reflexivity|].
  apply (main_prints_hex
           (Sample.fetch (Sample.funding Sample.txidA 50000)) Sample.Sign
           Sample.address "01" Sample.txidA 0 []).
  vm_compute. reflexivity.
Defined.

(** ** keypair.go and spend.go together *)

(** The address of a public key and its way back from the string. *)
Lemma generateAddr_Return_decodes (pub : btcec.PublicKey) :
  exists addr,
    Keypair.generateAddr pub = Return addr /\
    btcutil.hash addr = btcutil.Hash160 (btcec.SerializeCompressed pub) /\
    length (btcutil.hash addr) = 20%nat /\
    btcutil.DecodeAddress (btcutil.EncodeAddress addr) btcnet.MainNetParams = Ok addr.
Proof.
  exists {| btcutil.hash := btcutil.Hash160 (btcec.SerializeCompressed pub);
            btcutil.netID := btcnet.PubKeyHashAddrID btcnet.MainNetParams |}.
  assert (Hl : length (btcutil.Hash160 (btcec.SerializeCompressed pub)) = 20%nat)
    by apply ripemd160_Sum_length.
  split.
  { unfold Keypair.generateAddr, btcutil.NewAddressPubKeyHash. cbv zeta.
    rewrite Hl. reflexivity. }
  split; [reflexivity|]. split; [exact Hl|].
  apply DecodeAddress_EncodeAddress; cbn [btcutil.hash btcutil.netID];
    [exact Hl|apply ripemd160_Sum_ok|reflexivity|reflexivity].
Qed.

(** X15: [generateAddr] never aborts.  For every public key it returns an
    address with the 20-byte hash of the compressed key, and the string of
    that address decodes back to the address. *)
Theorem generateAddr_roundtrip (pub : btcec.PublicKey) :
  exists addr,
    Keypair.generateAddr pub = Return addr /\
    btcutil.hash addr = btcutil.Hash160 (btcec.SerializeCompressed pub) /\
    length (btcutil.hash addr) = 20%nat /\
    btcutil.DecodeAddress (btcutil.EncodeAddress addr) btcnet.MainNetParams = Ok addr.
Proof. apply generateAddr_Return_decodes. Qed.

Lemma NewPrivateKey_range r priv :
  btcec.NewPrivateKey (Some r) = Ok priv -> 1 <= btcec.D priv < btcec.N.
Proof.
  unfold btcec.NewPrivateKey. intros E. apply Ok_inj in E. subst priv.
  cbn [btcec.D].
  assert (HN : 0 < btcec.N - 1) by reflexivity.
  pose proof (Z.mod_pos_bound r _ HN). lia.
Qed.

Lemma N_lt_2_256 : btcec.N < 2 ^ 256.
Proof. reflexivity. Qed.

Lemma string_nonempty s : (0 < String.length s)%nat -> s <> "".
Proof. intros H ->. cbn in H. lia. Qed.

(** X16: what keypair.go prints is what spend.go reads.  For every draw of
    the random source, the private key is in [1, N-1], and [getArgs], given
    the printed address and the printed private key, returns that private key
    and the address of its public key. *)
Theorem keypair_feeds_spend (r : Z) (t : string) (v : Z) :
  t <> "" -> v <> -1 ->
  exists privhex pubhex addrstr priv addr,
    Keypair.main (Some r) = Return (privhex, pubhex, addrstr) /\
    1 <= btcec.D priv < btcec.N /\
    btcutil.hash addr
    = btcutil.Hash160 (btcec.SerializeCompressed (btcec.PubKey priv)) /\
    Spend.getArgs addrstr privhex t v
    = Return {| Spend.txid := ptr (btcwire.NewShaHashFromStr t);
                Spend.vout := uint32 v;
                Spend.toAddress := addr;
                Spend.privKey := priv |}.
Proof.
  intros Ht Hv.
  set (priv := {| btcec.D := 1 + r mod (btcec.N - 1) |}).
  assert (Hr : 1 <= btcec.D priv < btcec.N) by (apply (NewPrivateKey_range r); reflexivity).
  destruct (generateAddr_Return_decodes (btcec.PubKey priv)) as (addr & Hg & Hh & _ & Hrt).
  exists (hex.EncodeToString (btcec.Serialize priv)),
         (hex.EncodeToString (btcec.SerializeCompressed (btcec.PubKey priv))),
         (btcutil.EncodeAddress addr), priv, addr.
  split.
  { unfold Keypair.main, Keypair.generateKeyPair. cbn [btcec.NewPrivateKey orFatal bind].
    fold priv. rewrite Hg. reflexivity. }
  split; [exact Hr|]. split; [exact Hh|].
  pose proof N_lt_2_256 as HN.
  rewrite (getArgs_Return _ _ t v (btcec.Serialize priv) addr); try assumption.
  - rewrite Serialize_priv_be_to_Z by lia. destruct priv. reflexivity.
  - intros E. rewrite E in Hrt. vm_compute in Hrt. discriminate Hrt.
  - apply string_nonempty. rewrite hex_encode_length, Serialize_priv_length; lia.
  - apply hex_decode_encode, Serialize_priv_ok.
Qed.

(** X16, witness: the random source delivers 0, the key is 0x01. *)
Lemma keypair_feeds_spend_witness :
  exists privhex pubhex addrstr priv addr,
    Keypair.main (Some 0) = Return (privhex, pubhex, addrstr) /\
    1 <= btcec.D priv < btcec.N /\
    btcutil.hash addr
    = btcutil.Hash160 (btcec.SerializeCompressed (btcec.PubKey priv)) /\
    Spend.getArgs addrstr privhex Sample.txidA 0
    = Return {| Spend.txid := ptr (btcwire.NewShaHashFromStr Sample.txidA);
                Spend.vout := uint32 0;
                Spend.toAddress := addr;
                Spend.privKey := priv |}.
Proof.
  apply (keypair_feeds_spend 0 Sample.txidA 0); [discriminate|lia].
Defined.


(** The string of a main-network pay-to-pubkey-hash address is not empty
    and decodes to the address. *)
Lemma p2pkh_address_decodes (dest : list Z) :
  length dest = 20%nat -> bytes_okb dest = true ->
  let addr := {| btcutil.hash := dest; btcutil.netID := 0 |} in
  btcutil.EncodeAddress addr <> "" /\
  btcutil.DecodeAddress (btcutil.EncodeAddress addr) btcnet.MainNetParams = Ok addr.
Proof.
  intros Hl Hok addr.
  assert (Hrt : btcutil.DecodeAddress (btcutil.EncodeAddress addr) btcnet.MainNetParams
                = Ok addr).
  { apply DecodeAddress_EncodeAddress; cbn [btcutil.hash btcutil.netID];
      [exact Hl|exact Hok|reflexivity|reflexivity]. }
  split; [|exact Hrt].
  intros E. rewrite E in Hrt. vm_compute in Hrt. discriminate Hrt.
Qed.

(** X9: paying to a pay-to-pubkey-hash address.  When the destination is
    the string of a main-network pay-to-pubkey-hash address, the base-58 check
    encoding of the version byte 0 and a 20-byte hash, [getArgs] decodes it
    and the locking script [createTxOut] makes for it is 76 a9 14, these 20
    bytes, 88 ac. *)
Theorem createTxOut_pays_to_pubkey_hash
    (dest : list Z) (k t : string) (v inCoin : Z) (pkBytes : list Z) :
  length dest = 20%nat -> bytes_okb dest = true ->
  k <> "" -> t <> "" -> v <> -1 ->
  hex.DecodeString k = Ok pkBytes ->
  exists args txout,
    Spend.getArgs
      (btcutil.EncodeAddress {| btcutil.hash := dest; btcutil.netID := 0 |})
      k t v
    = Return args /\
    Spend.createTxOut inCoin (Spend.toAddress args) = Return txout /\
    btcwire.PkScript txout = [0x76; 0xa9; 0x14] ++ dest ++ [0x88; 0xac] /\
    length (btcwire.PkScript txout) = 25%nat.
Proof.
  intros Hl Hok Hk Ht Hv Hpk.
  destruct (p2pkh_address_decodes dest Hl Hok) as [Hne Hdec]. cbv zeta in Hne, Hdec.
  eexists. eexists.
  split; [apply (getArgs_Return _ k t v pkBytes _ Hne Hk Ht Hv Hpk Hdec)|].
  cbn [Spend.toAddress]. split; [reflexivity|].
  cbn [btcwire.PkScript btcwire.NewTxOut btcutil.hash].
  rewrite AddData_short by lia. rewrite Hl. split; [reflexivity|].
  cbn [app length]. rewrite length_app, Hl. reflexivity.
Qed.

(** X9, witness: the sample address. *)
Lemma createTxOut_pays_to_pubkey_hash_witness :
  btcutil.EncodeAddress {| btcutil.hash := Sample.hash160; btcutil.netID := 0 |}
  = "1BgGZ9tcN4rm9KBzDn7KprQz87SZ26SAMH" /\
  exists args txout,
    Spend.getArgs
      (btcutil.EncodeAddress {| btcutil.hash := Sample.hash160; btcutil.netID := 0 |})
      "01" Sample.txidA 0
    = Return args /\
    Spend.createTxOut 50000 (Spend.toAddress args) = Return txout /\
    btcwire.PkScript txout = [0x76; 0xa9; 0x14] ++ Sample.hash160 ++ [0x88; 0xac] /\
    length (btcwire.PkScript txout) = 25%nat.
Proof.
  split; [vm_compute; reflexivity|].
  apply (createTxOut_pays_to_pubkey_hash Sample.hash160 "01" Sample.txidA 0 50000 [1]);
    [reflexivity | reflexivity | discriminate | discriminate | lia
    | vm_compute; reflexivity].
Defined.

(** X11: when the index, reduced modulo 2^32, is not below the number of
    outputs the lookup returned, [main] ends in an index panic, whatever the
    signer is. *)
Theorem main_index_out_of_range
    (fetch : string -> result Spend.blockChainInfoTx)
    (Sign : btcec.PrivateKey -> list Z -> result btcec.Signature)
    (a k t : string) (v : Z) (h : list btcwire.MsgTx)
    (reqArgs : Spend.requiredArgs) (rawFundingTx : Spend.blockChainInfoTx) :
  Spend.getArgs a k t v = Return reqArgs ->
  Spend.lookupTxid fetch (Spend.txid reqArgs) = Return rawFundingTx ->
  Z.of_nat (length (Spend.Outputs rawFundingTx)) <= v mod 2 ^ 32 ->
  Spend.main fetch Sign a k t v h = GoPanic IndexOutOfRange.
Proof.
  intros Ha El Hlen. unfold Spend.main, Spend.bindM. rewrite Ha. cbn [Spend.lift].
  rewrite El. cbn [Spend.lift].
  apply getArgs_Return_inv in Ha. destruct Ha as (pk & _ & _ & ->).
  cbn [Spend.vout]. unfold Spend.getFundingParams.
  rewrite sliceAt_out_of_range by exact Hlen. reflexivity.
Qed.

(** X11, witness: the index -3, which becomes 4294967293. *)
Lemma main_index_out_of_range_witness :
  Spend.main (Sample.fetch (Sample.funding Sample.txidA 50000)) Sample.Sign
    Sample.address "01" Sample.txidA (-3) []
  = GoPanic IndexOutOfRange.
Proof.
  apply (main_index_out_of_range _ _ Sample.address "01" Sample.txidA (-3) []
           {| Spend.txid := Some Sample.hashA; Spend.vout := 4294967293;
              Spend.toAddress := Sample.addr; Spend.privKey := Sample.priv |}
           (Sample.funding Sample.txidA 50000)).
  - vm_compute. reflexivity.
  - vm_compute. reflexivity.
  - vm_compute. discriminate.
Defined.

(** X10: [main] from its inputs to its output.  With a pay-to-pubkey-hash
    destination, flags that pass, a lookup that answers at the URL of the
    transaction id with a version-1 transaction, an output at the index whose
    script is hex, not empty and parses, and a signature from the engine,
    [main] prints the hex of the transaction that spends the returned hash at
    that index, signed, and pays the selected value minus 10,000 to the hash
    of the address. *)
Theorem main_end_to_end
    (fetch : string -> result Spend.blockChainInfoTx)
    (Sign : btcec.PrivateKey -> list Z -> result btcec.Signature)
    (dest : list Z) (k t : string) (v : Z) (h : list btcwire.MsgTx)
    (pkBytes : list Z)
    (requested returned : btcwire.ShaHash)
    (rawtx : Spend.blockChainInfoTx) (o : Spend.BlockChainInfoTxOut)
    (subscript : list Z) (pops : list btcscript.parsedOpcode)
    (sig : btcec.Signature) :
  length dest = 20%nat -> bytes_okb dest = true ->
  k <> "" -> t <> "" -> v <> -1 ->
  hex.DecodeString k = Ok pkBytes ->
  btcwire.NewShaHashFromStr t = Ok requested ->
  fetch (rawtxURL t) = Ok rawtx ->
  Spend.Ver rawtx = 1 ->
  nth_error (Spend.Outputs rawtx) (Z.to_nat (v mod 2 ^ 32)) = Some o ->
  btcwire.NewShaHashFromStr (Spend.Hash rawtx) = Ok returned ->
  hex.DecodeString (Spend.ScriptHex o) = Ok subscript ->
  subscript <> [] ->
  btcscript.parseScript subscript = Ok pops ->
  let outs :=
    [ {| btcwire.Value := int64 (int64 (Spend.Value o) - 10000);
         btcwire.PkScript := [0x76; 0xa9; 0x14] ++ dest ++ [0x88; 0xac] |} ] in
  let prev := {| btcwire.Hash := returned; btcwire.Index := v mod 2 ^ 32 |} in
  Sign {| btcec.D := be_to_Z pkBytes |}
    (btcscript.calcScriptHash subscript btcscript.SigHashAll
       {| btcwire.Version := 1;
          btcwire.TxIns := [ {| btcwire.PreviousOutPoint := prev;
                                btcwire.SignatureScript := [];
                                btcwire.Sequence := 0xffffffff |} ];
          btcwire.TxOuts := outs;
          btcwire.LockTime := 0 |} 0)
  = Ok sig ->
  exists hist,
    Spend.main fetch Sign
      (btcutil.EncodeAddress {| btcutil.hash := dest; btcutil.netID := 0 |})
      k t v h
    = Return
        (hex.EncodeToString
           (btcwire.Serialize
              {| btcwire.Version := 1;
                 btcwire.TxIns :=
                   [ {| btcwire.PreviousOutPoint := prev;
                        btcwire.SignatureScript :=
                          btcscript.AddData (btcec.SerializeSig sig ++ [1])
                          ++ btcscript.AddData
                               (btcec.SerializeCompressed
                                  (btcec.ScalarBaseMult (be_to_Z pkBytes)));
                        btcwire.Sequence := 0xffffffff |} ];
                 btcwire.TxOuts := outs;
                 btcwire.LockTime := 0 |}),
         hist).
Proof.
  intros Hl Hok Hk Ht Hv Hpk Hreq Hf Hver Hn Hret Hs Hne Hp outs prev Hsig.
  destruct (p2pkh_address_decodes dest Hl Hok) as [Ha Haddr]. cbv zeta in Ha, Haddr.
  pose proof (getArgs_Return _ k t v pkBytes _ Ha Hk Ht Hv Hpk Haddr) as Hargs.
  pose proof (lookupTxid_Return_at_url fetch t requested rawtx Hreq Hf Hver) as Hlk.
  assert (H0 : 0 <= v mod 2 ^ 32) by (apply Z.mod_pos_bound; lia).
  assert (Hfp : Spend.getFundingParams rawtx (uint32 v)
                = Return ({| btcwire.Value := int64 (Spend.Value o);
                             btcwire.PkScript := subscript |}, prev)).
  { apply getFundingParams_Return_spec. exists o, returned, subscript.
    unfold uint32. repeat split; assumption. }
  assert (Hscript : btcscript.PayToAddrScript
                      {| btcutil.hash := dest; btcutil.netID := 0 |}
                    = Ok ([0x76; 0xa9; 0x14] ++ dest ++ [0x88; 0xac])).
  { rewrite PayToAddrScript_Ok. cbn [btcutil.hash].
    rewrite AddData_short by lia. rewrite Hl. reflexivity. }
  destruct (main_progress fetch Sign _ k t v h _ rawtx _ prev _ pops sig
              Hargs Hlk Hfp Hscript Hne Hp Hsig) as [hist E].
  exists hist. exact E.
Qed.

(** X10, witness: the sample inputs, with a lookup that knows the one URL. *)
Lemma main_end_to_end_witness :
  let fetch := fetchAt (rawtxURL Sample.txidA) (Sample.funding Sample.txidA 50000) in
  let sig := {| btcec.R := btcec.Gx;
                btcec.S := 0xdb1d6be86b7935605d4b8e0bb28e4540c441cd3860f8f6296c08689340855483 |} in
  let outs :=
    [ {| btcwire.Value := int64 (int64 50000 - 10000);
         btcwire.PkScript := [0x76; 0xa9; 0x14] ++ Sample.hash160 ++ [0x88; 0xac] |} ] in
  let prev := {| btcwire.Hash := Sample.hashA; btcwire.Index := 0 mod 2 ^ 32 |} in
  exists hist,
    Spend.main fetch Sample.Sign
      (btcutil.EncodeAddress {| btcutil.hash := Sample.hash160; btcutil.netID := 0 |})
      "01" Sample.txidA 0 []
    = Return
        (hex.EncodeToString
           (btcwire.Serialize
              {| btcwire.Version := 1;
                 btcwire.TxIns :=
                   [ {| btcwire.PreviousOutPoint := prev;
                        btcwire.SignatureScript :=
                          btcscript.AddData (btcec.SerializeSig sig ++ [1])
                          ++ btcscript.AddData
                               (btcec.SerializeCompressed
                                  (btcec.ScalarBaseMult (be_to_Z [1])));
                        btcwire.Sequence := 0xffffffff |} ];
                 btcwire.TxOuts := outs;
                 btcwire.LockTime := 0 |}),
         hist).
Proof.
  apply (main_end_to_end
           (fetchAt (rawtxURL Sample.txidA) (Sample.funding Sample.txidA 50000))
           Sample.Sign Sample.hash160 "01" Sample.txidA 0 []
           [1] Sample.hashA Sample.hashA
           (Sample.funding Sample.txidA 50000)
           {| Spend.Value := 50000; Spend.ScriptHex := Sample.pkScriptHex |}
           Sample.pkScript
           [ {| btcscript.opcode := 0x76; btcscript.data := [] |};
             {| btcscript.opcode := 0xa9; btcscript.data := [] |};
             {| btcscript.opcode := 0x14; btcscript.data := Sample.hash160 |};
             {| btcscript.opcode := 0x88; btcscript.data := [] |};
             {| btcscript.opcode := 0xac; btcscript.data := [] |} ]);
    try (vm_compute; reflexivity); try discriminate.
Defined.



(** X14, witness: the run of [main] on the sample inputs. *)
Lemma main_signed_digest_is_final_witness :
  exists out hist,
    sampleRun = Return (out, hist) /\
    exists tx2 tx3 rest sig privkey scriptPubKey,
      hist = tx3 :: tx2 :: rest /\
      Spend.generateSig Sample.Sign tx2 privkey scriptPubKey = Return sig /\
      btcscript.calcScriptHash scriptPubKey btcscript.SigHashAll tx3 0
      = btcscript.calcScriptHash scriptPubKey btcscript.SigHashAll tx2 0.
Proof.
  eexists. eexists. split; [vm_compute; reflexivity|].
  eapply (main_signed_digest_is_final
            (Sample.fetch (Sample.funding Sample.txidA 50000)) Sample.Sign
            Sample.address "01" Sample.txidA 0 []).
  vm_compute. reflexivity.
Defined.
